(** * Meeting analyzer: request validation, model-reply extraction and
      the three REST handlers

    A shallow embedding of
    - [src/lib/anthropic.ts]            ([analyzeMeeting]),
    - the schema module                 ([AnalyzeRequestSchema],
      [AnalysisResultSchema], [safeParseAnalysis]),
    - the three API routes              (DELETE /api/deleteanalysis,
      GET /api/fetchanalysis, POST /api/analyze),
    together with the parts of the JavaScript platform they rely on
    (strings of UTF-16 code units, [trim], the brace regular expression,
    global [replace], [JSON.parse]) and of the libraries they call
    (zod's [safeParse]/[flatten], the Prisma client, the model SDK). *)

From Stdlib Require Import String Ascii NArith Lia.
From stdpp Require Import gmap list sorting.

Set Warnings "-register-all".

(** ** JavaScript strings *)

Module JsString.

(** A JavaScript string is a sequence of UTF-16 code units; [length] counts
    code units, which is what [String.prototype.length] and zod's
    [min]/[max] checks observe. *)
Abbreviation char16 := N.
Abbreviation jsstring := (list N).

#[local] Open Scope N_scope.

(** String literals of the source, written in ASCII. *)
Definition js (s : string) : jsstring :=
  map N_of_ascii (list_ascii_of_string s).

(** The same with every apostrophe standing for a double quote, for texts
    that hold JSON. *)
Definition jsq (s : string) : jsstring :=
  map (fun c => if c =? 39 then 34 else c) (js s).

#[global] Arguments js : simpl never.
#[global] Arguments jsq : simpl never.

(** Strict equality [a === b] of two strings. *)
Fixpoint js_eqb (a b : jsstring) : bool :=
  match a, b with
  | [], [] => true
  | x :: a', y :: b' => (x =? y) && js_eqb a' b'
  | _, _ => false
  end.

(** ECMAScript [WhiteSpace] and [LineTerminator] code points: the set removed
    by [String.prototype.trim] and matched by [\s]. *)
Definition is_white_space (c : char16) : bool :=
  (c =? 9) || (c =? 10) || (c =? 11) || (c =? 12) || (c =? 13) ||
  (c =? 32) || (c =? 160) || (c =? 5760) ||
  ((8192 <=? c) && (c <=? 8202)) ||
  (c =? 8232) || (c =? 8233) || (c =? 8239) || (c =? 8287) ||
  (c =? 12288) || (c =? 65279).

Fixpoint trim_start (s : jsstring) : jsstring :=
  match s with
  | c :: s' => if is_white_space c then trim_start s' else s
  | [] => []
  end.

Definition trim_end (s : jsstring) : jsstring :=
  rev (trim_start (rev s)).

(** [s.trim()] *)
Definition trim (s : jsstring) : jsstring := trim_end (trim_start s).

Fixpoint starts_with (pat s : jsstring) : bool :=
  match pat, s with
  | [], _ => true
  | p :: pat', c :: s' => (p =? c) && starts_with pat' s'
  | _ :: _, [] => false
  end.

(** [s.replace(/pat/g, empty)] for a literal, non-empty pattern: occurrences are
    found left to right and do not overlap.  [skip] counts the code units of
    the current occurrence still to be dropped. *)
Fixpoint remove_all_from (pat : jsstring) (skip : nat) (s : jsstring) : jsstring :=
  match s with
  | [] => []
  | c :: s' =>
      match skip with
      | S k => remove_all_from pat k s'
      | O =>
          if starts_with pat s
          then remove_all_from pat (Nat.pred (length pat)) s'
          else c :: remove_all_from pat O s'
      end
  end.

Definition remove_all (pat s : jsstring) : jsstring := remove_all_from pat O s.

Definition open_brace : char16 := 123.
Definition close_brace : char16 := 125.

(** The part of [s] from its first occurrence of [c] on (empty when [c] does
    not occur). *)
Fixpoint from_first (c : char16) (s : jsstring) : jsstring :=
  match s with
  | [] => []
  | d :: s' => if d =? c then s else from_first c s'
  end.

(** The part of [s] up to and including its last occurrence of [c]. *)
Fixpoint upto_last (c : char16) (s : jsstring) : option jsstring :=
  match s with
  | [] => None
  | d :: s' =>
      match upto_last c s' with
      | Some r => Some (d :: r)
      | None => if d =? c then Some [d] else None
      end
  end.

(** [s.match(/\{[\s\S]*\}/)][[0]], as the backtracking matcher finds it.  The
    regular expression has no [g] flag: the start positions are tried from
    the left, and the first one with a match gives the result.  At a start
    the text must have [{]; the class [[\s\S]] accepts every code unit and
    its star is greedy, so the matcher first takes all the rest and then
    gives code units back until a [}] follows, which is [upto_last]. *)
Fixpoint match_braces (s : jsstring) : option jsstring :=
  match s with
  | [] => None
  | c :: s' =>
      match (if c =? open_brace then upto_last close_brace s' else None) with
      | Some m => Some (c :: m)
      | None => match_braces s'
      end
  end.

End JsString.

Export JsString.

(** ** JavaScript values and [JSON.parse] *)

Module Json.

#[local] Open Scope N_scope.

(** The values that reach the code: what [JSON.parse] and the body parser of
    the HTTP framework produce, and [undefined].  A number is kept as the
    text of its literal: no number is ever computed with, and its [typeof] is
    all the handlers look at.  An object is the list of its own properties in
    creation order, each key once. *)
Inductive JsVal :=
| JUndef
| JNull
| JBool (b : bool)
| JNum (literal : jsstring)
| JStr (s : jsstring)
| JArr (items : list JsVal)
| JObj (props : list (jsstring * JsVal)).

(** [o[k] = v] on the property list: an existing key keeps its place and
    takes the new value. *)
Fixpoint obj_set (k : jsstring) (v : JsVal) (props : list (jsstring * JsVal))
  : list (jsstring * JsVal) :=
  match props with
  | [] => [(k, v)]
  | (k', v') :: props' =>
      if js_eqb k k' then (k, v) :: props' else (k', v') :: obj_set k v props'
  end.

Fixpoint obj_get (k : jsstring) (props : list (jsstring * JsVal)) : option JsVal :=
  match props with
  | [] => None
  | (k', v') :: props' => if js_eqb k k' then Some v' else obj_get k props'
  end.

Definition obj_has (k : jsstring) (props : list (jsstring * JsVal)) : bool :=
  match obj_get k props with Some _ => true | None => false end.

(** [v.k] for the property names the code reads (none of them is an array
    index or [length]): [undefined] unless [v] is an object owning [k]. *)
Definition get_prop (k : jsstring) (v : JsVal) : JsVal :=
  match v with
  | JObj props => default JUndef (obj_get k props)
  | _ => JUndef
  end.

(** ["k" in v] for a non-null object [v]. *)
Definition has_prop (k : jsstring) (v : JsVal) : bool :=
  match v with
  | JObj props => obj_has k props
  | _ => false
  end.

(** [v === null] *)
Definition is_null (v : JsVal) : bool :=
  match v with JNull => true | _ => false end.

(** [typeof v === "object"] (true of [null] too). *)
Definition typeof_object (v : JsVal) : bool :=
  match v with
  | JNull | JArr _ | JObj _ => true
  | _ => false
  end.

Definition typeof_string (v : JsVal) : bool :=
  match v with JStr _ => true | _ => false end.

Definition isArray (v : JsVal) : bool :=
  match v with JArr _ => true | _ => false end.

(** Whether a number literal denotes zero: every digit of its mantissa is
    [0].  (A literal so small that it rounds to zero is not covered; the
    only use of [truthy] on a number is next to a [typeof] test that rejects
    every number.) *)
Fixpoint mantissa_zero (s : jsstring) : bool :=
  match s with
  | [] => true
  | c :: s' =>
      if (c =? 101) || (c =? 69) then true
      else if (49 <=? c) && (c <=? 57) then false
      else mantissa_zero s'
  end.

(** [!!v] *)
Definition truthy (v : JsVal) : bool :=
  match v with
  | JUndef | JNull => false
  | JBool b => b
  | JNum n => negb (mantissa_zero n)
  | JStr s => negb (js_eqb s [])
  | JArr _ | JObj _ => true
  end.

(** [a ?? b] *)
Definition nullish_or (a b : JsVal) : JsVal :=
  match a with
  | JUndef | JNull => b
  | _ => a
  end.

(** *** The JSON grammar (ECMA-404), as [JSON.parse] reads it *)

Inductive Parse (A : Type) :=
| POk (a : A) (rest : jsstring)
| PSyntaxError
| PFuel.
Arguments POk {A} a rest.
Arguments PSyntaxError {A}.
Arguments PFuel {A}.

Definition is_json_ws (c : char16) : bool :=
  (c =? 9) || (c =? 10) || (c =? 13) || (c =? 32).

Fixpoint skip_ws (s : jsstring) : jsstring :=
  match s with
  | c :: s' => if is_json_ws c then skip_ws s' else s
  | [] => []
  end.

Definition is_digit (c : char16) : bool := (48 <=? c) && (c <=? 57).

Definition hex_value (c : char16) : option N :=
  if (48 <=? c) && (c <=? 57) then Some (c - 48)
  else if (97 <=? c) && (c <=? 102) then Some (c - 87)
  else if (65 <=? c) && (c <=? 70) then Some (c - 55)
  else None.

(** The characters of a string literal after its opening quote, up to the
    closing quote: the decoded string and the text behind the quote. *)
Fixpoint parse_string_chars (s : jsstring) : option (jsstring * jsstring) :=
  match s with
  | [] => None
  | c :: s' =>
      if c =? 34 then Some ([], s')
      else if c =? 92 then
        match s' with
        | e :: s'' =>
            if e =? 117 then
              match s'' with
              | h1 :: h2 :: h3 :: h4 :: s4 =>
                  match hex_value h1, hex_value h2, hex_value h3, hex_value h4 with
                  | Some a, Some b, Some c', Some d =>
                      match parse_string_chars s4 with
                      | Some (str, rest) =>
                          Some (((a * 16 + b) * 16 + c') * 16 + d :: str, rest)
                      | None => None
                      end
                  | _, _, _, _ => None
                  end
              | _ => None
              end
            else
              let decoded :=
                if e =? 34 then Some 34
                else if e =? 92 then Some 92
                else if e =? 47 then Some 47
                else if e =? 98 then Some 8
                else if e =? 102 then Some 12
                else if e =? 110 then Some 10
                else if e =? 114 then Some 13
                else if e =? 116 then Some 9
                else None in
              match decoded with
              | Some d =>
                  match parse_string_chars s'' with
                  | Some (str, rest) => Some (d :: str, rest)
                  | None => None
                  end
              | None => None
              end
        | [] => None
        end
      else if c <? 32 then None
      else
        match parse_string_chars s' with
        | Some (str, rest) => Some (c :: str, rest)
        | None => None
        end
  end.

Fixpoint take_digits (s : jsstring) : jsstring * jsstring :=
  match s with
  | c :: s' =>
      if is_digit c then let '(ds, rest) := take_digits s' in (c :: ds, rest)
      else ([], s)
  | [] => ([], [])
  end.

(** One or more digits. *)
Definition digits1 (s : jsstring) : option (jsstring * jsstring) :=
  match take_digits s with
  | ([], _) => None
  | (ds, rest) => Some (ds, rest)
  end.

(** The integer part: [0], or a non-zero digit followed by digits. *)
Definition int_part (s : jsstring) : option (jsstring * jsstring) :=
  match s with
  | c :: s' =>
      if c =? 48 then Some ([c], s')
      else if is_digit c then let '(ds, rest) := take_digits s' in Some (c :: ds, rest)
      else None
  | [] => None
  end.

Definition frac_part (s : jsstring) : option (jsstring * jsstring) :=
  match s with
  | c :: s' =>
      if c =? 46 then
        match digits1 s' with
        | Some (ds, rest) => Some (c :: ds, rest)
        | None => None
        end
      else Some ([], s)
  | [] => Some ([], [])
  end.

Definition exp_part (s : jsstring) : option (jsstring * jsstring) :=
  match s with
  | c :: s' =>
      if (c =? 101) || (c =? 69) then
        match s' with
        | sg :: s'' =>
            if (sg =? 43) || (sg =? 45) then
              match digits1 s'' with
              | Some (ds, rest) => Some (c :: sg :: ds, rest)
              | None => None
              end
            else
              match digits1 s' with
              | Some (ds, rest) => Some (c :: ds, rest)
              | None => None
              end
        | [] => None
        end
      else Some ([], s)
  | [] => Some ([], [])
  end.

(** A number literal: its text and what follows it. *)
Definition parse_number (s : jsstring) : option (jsstring * jsstring) :=
  let '(sign, s1) :=
    match s with
    | c :: s' => if c =? 45 then ([c], s') else ([], s)
    | [] => ([], [])
    end in
  match int_part s1 with
  | Some (i, s2) =>
      match frac_part s2 with
      | Some (f, s3) =>
          match exp_part s3 with
          | Some (e, s4) => Some (sign ++ i ++ f ++ e, s4)
          | None => None
          end
      | None => None
      end
  | None => None
  end.

(** A keyword [true], [false] or [null] at the head of [s]. *)
Definition parse_keyword (s : jsstring) : option (JsVal * jsstring) :=
  if starts_with (js "true") s then Some (JBool true, drop 4 s)
  else if starts_with (js "false") s then Some (JBool false, drop 5 s)
  else if starts_with (js "null") s then Some (JNull, drop 4 s)
  else None.

(** Recursive descent over values, object members and array elements.  Every
    recursive call is on a strictly shorter text, or passes the same text
    from [parse_elements] to [parse_value], so [fuel] above twice the length
    of the text is never used up (see [parse_value_fuel]). [parse_members]
    and [parse_elements] start at the first character of a member, resp.
    element, and carry what the enclosing object or array holds so far; a
    repeated key overwrites the earlier value. *)
Fixpoint parse_value (fuel : nat) (s : jsstring) : Parse JsVal :=
  match fuel with
  | O => PFuel
  | S fuel' =>
      match skip_ws s with
      | [] => PSyntaxError
      | c :: r =>
          if c =? 123 then
            match skip_ws r with
            | d :: r' =>
                if d =? 125 then POk (JObj []) r'
                else parse_members fuel' [] (d :: r')
            | [] => PSyntaxError
            end
          else if c =? 91 then
            match skip_ws r with
            | d :: r' =>
                if d =? 93 then POk (JArr []) r'
                else parse_elements fuel' [] (d :: r')
            | [] => PSyntaxError
            end
          else if c =? 34 then
            match parse_string_chars r with
            | Some (str, rest) => POk (JStr str) rest
            | None => PSyntaxError
            end
          else if (c =? 45) || is_digit c then
            match parse_number (c :: r) with
            | Some (n, rest) => POk (JNum n) rest
            | None => PSyntaxError
            end
          else
            match parse_keyword (c :: r) with
            | Some (v, rest) => POk v rest
            | None => PSyntaxError
            end
      end
  end
with parse_members (fuel : nat) (acc : list (jsstring * JsVal)) (s : jsstring)
  : Parse JsVal :=
  match fuel with
  | O => PFuel
  | S fuel' =>
      match s with
      | q :: r =>
          if q =? 34 then
            match parse_string_chars r with
            | Some (key, r1) =>
                match skip_ws r1 with
                | colon :: r2 =>
                    if colon =? 58 then
                      match parse_value fuel' r2 with
                      | POk v r3 =>
                          match skip_ws r3 with
                          | d :: r4 =>
                              if d =? 44 then
                                parse_members fuel' (obj_set key v acc) (skip_ws r4)
                              else if d =? 125 then
                                POk (JObj (obj_set key v acc)) r4
                              else PSyntaxError
                          | [] => PSyntaxError
                          end
                      | PSyntaxError => PSyntaxError
                      | PFuel => PFuel
                      end
                    else PSyntaxError
                | [] => PSyntaxError
                end
            | None => PSyntaxError
            end
          else PSyntaxError
      | [] => PSyntaxError
      end
  end
with parse_elements (fuel : nat) (acc : list JsVal) (s : jsstring) : Parse JsVal :=
  match fuel with
  | O => PFuel
  | S fuel' =>
      match parse_value fuel' s with
      | POk v r1 =>
          match skip_ws r1 with
          | d :: r2 =>
              if d =? 44 then parse_elements fuel' (acc ++ [v]) r2
              else if d =? 93 then POk (JArr (acc ++ [v])) r2
              else PSyntaxError
          | [] => PSyntaxError
          end
      | PSyntaxError => PSyntaxError
      | PFuel => PFuel
      end
  end.

(** [JSON.parse(text)]: one value, with white space allowed around it;
    [None] stands for the [SyntaxError] it throws otherwise. *)
Definition JSON_parse (text : jsstring) : option JsVal :=
  match parse_value (S (2 * length text)%nat) text with
  | POk v rest =>
      match skip_ws rest with
      | [] => Some v
      | _ :: _ => None
      end
  | _ => None
  end.

End Json.

Export Json.

(** ** Computations with a store, a log and exceptions *)

Module Runtime.

(** What a [throw] carries: an [Error] instance with its message and its
    further own properties (a Prisma or Node error has [code]), or any other
    value. *)
Inductive Thrown :=
| ThrownError (message : jsstring) (props : list (jsstring * JsVal))
| ThrownValue (v : JsVal).

(** [new Error(message)] *)
Definition new_Error (message : jsstring) : Thrown := ThrownError message [].

(** [err instanceof Error] *)
Definition instanceof_Error (err : Thrown) : bool :=
  match err with ThrownError _ _ => true | ThrownValue _ => false end.

(** [err.k] *)
Definition err_get (k : jsstring) (err : Thrown) : JsVal :=
  match err with
  | ThrownError message props =>
      if js_eqb k (js "message") then JStr message
      else default JUndef (obj_get k props)
  | ThrownValue v => get_prop k v
  end.

(** [typeof err === "object" && err !== null && "code" in err] *)
Definition is_coded_object (err : Thrown) : bool :=
  match err with
  | ThrownError _ props => obj_has (js "code") props
  | ThrownValue v =>
      typeof_object v && negb (is_null v) && has_prop (js "code") v
  end.

(** [code === lit] for a string literal [lit]. *)
Definition strict_eq_str (v : JsVal) (lit : jsstring) : bool :=
  match v with JStr s => js_eqb s lit | _ => false end.

(** The persisted tables.  An analysis row refers to its transcript. *)
Record TranscriptRow := {
  t_text : jsstring;
  t_createdAt : N;
}.

Record AnalysisRow := {
  a_transcriptId : jsstring;
  a_actionItems : JsVal;
  a_decisions : JsVal;
  a_sentiment : JsVal;
  a_createdAt : N;
}.

(** Modelled from the spec: the database schema (the Prisma schema file) is
    missing from the sources.  Spec, data model: a Transcript has an
    identifier, its raw text and a creation timestamp; an Analysis has an
    identifier, the reference to its one transcript, the action items, the
    decisions, the sentiment label and a creation timestamp.  Each table is a
    finite map from the identifier (a string, as the client types and the
    [where: { id }] clauses have it) to the row. *)
Record Store := {
  transcripts : gmap jsstring TranscriptRow;
  analyses : gmap jsstring AnalysisRow;
}.

Inductive LogLevel := LogInfo | LogWarn | LogError.

(** A store operation of the handlers, with its arguments. *)
Inductive DbOp :=
| OpFindUnique (id : jsstring)
| OpDelete (id : jsstring)
| OpFindMany
| OpCreate (text : jsstring) (actionItems decisions sentiment : JsVal).

(** What a run does to the outside, in order. *)
Inductive Event :=
| Console (level : LogLevel) (label : jsstring)
| ModelCall (prompt : jsstring)
| DbCall (op : DbOp).

Record World := {
  db : Store;
  trace : list Event;
}.

Inductive Completion (A : Type) :=
| Normal (a : A)
| Throw (err : Thrown).
Arguments Normal {A} a.
Arguments Throw {A} err.

(** A computation runs in a world and ends normally or by a [throw]. *)
Definition M (A : Type) : Type := World -> Completion A * World.

Definition ret {A} (a : A) : M A := fun w => (Normal a, w).

Definition bind {A B} (m : M A) (k : A -> M B) : M B :=
  fun w =>
    match m w with
    | (Normal a, w') => k a w'
    | (Throw err, w') => (Throw err, w')
    end.

Definition throw {A} (err : Thrown) : M A := fun w => (Throw err, w).

(** [try { m } catch (err) { h err }] *)
Definition try_catch {A} (m : M A) (h : Thrown -> M A) : M A :=
  fun w =>
    match m w with
    | (Normal a, w') => (Normal a, w')
    | (Throw err, w') => h err w'
    end.

(** [try { x = m } catch (err) { ... return }]: the outcome of [m], for a
    handler that leaves from inside the [catch]. *)
Definition attempt {A} (m : M A) : M (Thrown + A) :=
  fun w =>
    match m w with
    | (Normal a, w') => (Normal (inr a), w')
    | (Throw err, w') => (Normal (inl err), w')
    end.

Definition emit (e : Event) : M unit :=
  fun w => (Normal tt, {| db := db w; trace := trace w ++ [e] |}).

Definition get_db : M Store := fun w => (Normal (db w), w).

Definition put_db (s : Store) : M unit :=
  fun w => (Normal tt, {| db := s; trace := trace w |}).

Definition console (level : LogLevel) (label : string) : M unit :=
  emit (Console level (js label)).

End Runtime.

Export Runtime.

Notation "x <- m ;; k" := (bind m (fun x => k))
  (at level 62, m at next level, right associativity).
Notation "m ;;; k" := (bind m (fun _ => k))
  (at level 62, right associativity).

(** ** The schema validator (zod) *)

Module Zod.

Inductive PathSeg :=
| Key (k : jsstring)
| Index (i : nat).

Inductive IssueCode := invalid_type | too_small | too_big.

(** The message of an issue: the text the schema gives for the check, or the
    library's default wording for the issue. *)
Inductive ZodMessage :=
| SchemaMessage (text : jsstring)
| DefaultMessage (code : IssueCode).

Record ZodIssue := {
  issue_path : list PathSeg;
  issue_code : IssueCode;
  issue_message : ZodMessage;
}.

(** The result of [schema.safeParse(v)]. *)
Inductive SafeParse (A : Type) :=
| ZSuccess (data : A)
| ZFailure (issues : list ZodIssue).
Arguments ZSuccess {A} data.
Arguments ZFailure {A} issues.

(** A schema reads a value found at a path. *)
Definition Schema (A : Type) : Type := list PathSeg -> JsVal -> SafeParse A.

Definition type_issue (path : list PathSeg) : ZodIssue :=
  {| issue_path := path; issue_code := invalid_type;
     issue_message := DefaultMessage invalid_type |}.

Inductive StringCheck :=
| MinLength (n : nat) (message : jsstring)
| MaxLength (n : nat) (message : jsstring).

Definition run_check (path : list PathSeg) (s : jsstring) (c : StringCheck)
  : list ZodIssue :=
  match c with
  | MinLength n message =>
      if (length s <? n)%nat
      then [{| issue_path := path; issue_code := too_small;
               issue_message := SchemaMessage message |}]
      else []
  | MaxLength n message =>
      if (n <? length s)%nat
      then [{| issue_path := path; issue_code := too_big;
               issue_message := SchemaMessage message |}]
      else []
  end.

(** [z.string()] followed by length checks: a value that is no string is a
    type issue; on a string every check runs. *)
Definition z_string (checks : list StringCheck) : Schema jsstring :=
  fun path v =>
    match v with
    | JStr s =>
        match concat (map (run_check path s) checks) with
        | [] => ZSuccess s
        | issues => ZFailure issues
        end
    | _ => ZFailure [type_issue path]
    end.

(** [schema.nullable()] *)
Definition z_nullable {A} (schema : Schema A) : Schema (option A) :=
  fun path v =>
    match v with
    | JNull => ZSuccess None
    | _ =>
        match schema path v with
        | ZSuccess a => ZSuccess (Some a)
        | ZFailure issues => ZFailure issues
        end
    end.

(** Two parts of one value: the result holds both data or the issues of
    both. *)
Definition z_both {A B C} (f : A -> B -> C) (a : SafeParse A) (b : SafeParse B)
  : SafeParse C :=
  match a, b with
  | ZSuccess x, ZSuccess y => ZSuccess (f x y)
  | ZSuccess _, ZFailure issues => ZFailure issues
  | ZFailure issues, ZSuccess _ => ZFailure issues
  | ZFailure issues, ZFailure issues' => ZFailure (issues ++ issues')
  end.

Fixpoint z_items {A} (schema : Schema A) (path : list PathSeg) (i : nat)
  (items : list JsVal) : SafeParse (list A) :=
  match items with
  | [] => ZSuccess []
  | v :: items' =>
      z_both cons (schema (path ++ [Index i]) v) (z_items schema path (S i) items')
  end.

(** [z.array(schema)] *)
Definition z_array {A} (schema : Schema A) : Schema (list A) :=
  fun path v =>
    match v with
    | JArr items => z_items schema path O items
    | _ => ZFailure [type_issue path]
    end.

(** The field [k] of an object: an absent key reads as [undefined]. *)
Definition z_field {A} (k : string) (schema : Schema A) (path : list PathSeg)
  (props : list (jsstring * JsVal)) : SafeParse A :=
  schema (path ++ [Key (js k)]) (default JUndef (obj_get (js k) props)).

(** [z.object({...})]: only a plain object has fields to read (an array or
    [null] is a type issue); keys outside the shape are dropped from the
    data. *)
Definition z_object {A}
  (shape : list PathSeg -> list (jsstring * JsVal) -> SafeParse A) : Schema A :=
  fun path v =>
    match v with
    | JObj props => shape path props
    | _ => ZFailure [type_issue path]
    end.

(** [error.flatten()]: the messages of the issues at the root, and those of
    the others under their first path segment. *)
Record Flattened := {
  formErrors : list ZodMessage;
  fieldErrors : list (PathSeg * list ZodMessage);
}.

Definition PathSeg_eqb (a b : PathSeg) : bool :=
  match a, b with
  | Key k, Key k' => js_eqb k k'
  | Index i, Index i' => (i =? i')%nat
  | _, _ => false
  end.

Fixpoint add_field_error (seg : PathSeg) (m : ZodMessage)
  (fields : list (PathSeg * list ZodMessage)) : list (PathSeg * list ZodMessage) :=
  match fields with
  | [] => [(seg, [m])]
  | (seg', ms) :: fields' =>
      if PathSeg_eqb seg seg' then (seg', ms ++ [m]) :: fields'
      else (seg', ms) :: add_field_error seg m fields'
  end.

Fixpoint flatten_from (issues : list ZodIssue) (acc : Flattened) : Flattened :=
  match issues with
  | [] => acc
  | i :: issues' =>
      flatten_from issues'
        match issue_path i with
        | [] => {| formErrors := formErrors acc ++ [issue_message i];
                   fieldErrors := fieldErrors acc |}
        | seg :: _ =>
            {| formErrors := formErrors acc;
               fieldErrors := add_field_error seg (issue_message i) (fieldErrors acc) |}
        end
  end.

Definition flatten (issues : list ZodIssue) : Flattened :=
  flatten_from issues {| formErrors := []; fieldErrors := [] |}.

End Zod.

Export Zod.

(** ** The schema module *)

Module Schemas.

Record AnalyzeRequest := { transcript : jsstring }.

(** [AnalyzeRequestSchema] *)
Definition AnalyzeRequestSchema : Schema AnalyzeRequest :=
  z_object (fun path props =>
    match
      z_field "transcript"
        (z_string
           [MinLength 10 (js "Transcript must be at least 10 characters long");
            MaxLength 5000 (js "Transcript cannot exceed 5000 characters")])
        path props
    with
    | ZSuccess t => ZSuccess {| transcript := t |}
    | ZFailure issues => ZFailure issues
    end).

Record ActionItem := {
  owner : jsstring;
  task : jsstring;
  deadline : option jsstring;
}.

Record AnalysisResult := {
  action_items : list ActionItem;
  decisions : list jsstring;
  sentiment : jsstring;
}.

Definition ActionItemSchema : Schema ActionItem :=
  z_object (fun path props =>
    z_both (fun ot d => {| owner := fst ot; task := snd ot; deadline := d |})
      (z_both pair
         (z_field "owner" (z_string []) path props)
         (z_field "task" (z_string []) path props))
      (z_field "deadline" (z_nullable (z_string [])) path props)).

(** [AnalysisResultSchema] *)
Definition AnalysisResultSchema : Schema AnalysisResult :=
  z_object (fun path props =>
    z_both (fun ad s =>
              {| action_items := fst ad; decisions := snd ad; sentiment := s |})
      (z_both pair
         (z_field "action_items" (z_array ActionItemSchema) path props)
         (z_field "decisions" (z_array (z_string [])) path props))
      (z_field "sentiment" (z_string []) path props)).

(** [safeParseAnalysis(data)] *)
Definition safeParseAnalysis (data : JsVal) : M (option AnalysisResult) :=
  match AnalysisResultSchema [] data with
  | ZFailure _ =>
      console LogError "Invalid analysis structure:" ;;;
      ret None
  | ZSuccess result => ret (Some result)
  end.

End Schemas.

Export Schemas.

(** ** The services outside the program *)

Module Services.

(** A content block of a model response: its [type] and, for a text block,
    its [text]. *)
Record ContentBlock := {
  block_type : jsstring;
  block_text : jsstring;
}.

Inductive ModelOutcome :=
| ModelThrows (err : Thrown)
| ModelResponse (content : list ContentBlock).

(** What the outside decides during one request: the outcome of
    [anthropic.messages.create] for a prompt, whether a store operation
    fails and with what, and the identifiers and the timestamp the store
    gives to new rows. *)
Record Env := {
  model : jsstring -> ModelOutcome;
  db_fault : DbOp -> option Thrown;
  next_transcript_id : jsstring;
  next_analysis_id : jsstring;
  now : N;
}.

(** [anthropic.messages.create({ ..., messages: [{ role: "user", content:
    prompt }] })] *)
Definition messages_create (env : Env) (prompt : jsstring) : M (list ContentBlock) :=
  emit (ModelCall prompt) ;;;
  match model env prompt with
  | ModelThrows err => throw err
  | ModelResponse content => ret content
  end.

(** The error of the Prisma client for a request the store rejects. *)
Definition prisma_error (code message : string) : Thrown :=
  ThrownError (js message) [(js "code", JStr (js code))].

(** A store operation: it is recorded, and fails when the outside says so. *)
Definition db_call {A} (env : Env) (op : DbOp) (run : M A) : M A :=
  emit (DbCall op) ;;;
  match db_fault env op with
  | Some err => throw err
  | None => run
  end.

(** [prisma.analysis.findUnique({ where: { id } })] *)
Definition analysis_findUnique (env : Env) (id : jsstring) : M (option AnalysisRow) :=
  db_call env (OpFindUnique id)
    (s <- get_db ;; ret (analyses s !! id)).

(** [prisma.analysis.delete({ where: { id } })]: deleting a row that does
    not exist is the client's error P2025. *)
Definition analysis_delete (env : Env) (id : jsstring) : M unit :=
  db_call env (OpDelete id)
    (s <- get_db ;;
     match analyses s !! id with
     | None => throw (prisma_error "P2025" "Record to delete does not exist.")
     | Some _ =>
         put_db {| transcripts := transcripts s; analyses := delete id (analyses s) |}
     end).

(** An analysis with its transcript, as [include: { transcript: true }]
    returns it. *)
Record AnalysisWithTranscript := {
  awt_id : jsstring;
  awt_analysis : AnalysisRow;
  awt_transcript : option TranscriptRow;
}.

Definition with_transcript (s : Store) (entry : jsstring * AnalysisRow)
  : AnalysisWithTranscript :=
  {| awt_id := entry.1;
     awt_analysis := entry.2;
     awt_transcript := transcripts s !! a_transcriptId entry.2 |}.

(** [orderBy: { createdAt: "desc" }] *)
Definition newer_first (x y : AnalysisWithTranscript) : Prop :=
  (a_createdAt (awt_analysis y) <= a_createdAt (awt_analysis x))%N.

#[export] Instance newer_first_dec : RelDecision newer_first :=
  fun x y => decide (a_createdAt (awt_analysis y) <= a_createdAt (awt_analysis x))%N.

(** [prisma.analysis.findMany({ include: { transcript: true },
    orderBy: { createdAt: "desc" } })] *)
Definition analysis_findMany (env : Env) : M (list AnalysisWithTranscript) :=
  db_call env OpFindMany
    (s <- get_db ;;
     ret (merge_sort newer_first (with_transcript s <$> map_to_list (analyses s)))).

(** A created transcript with its analysis, as [include: { analysis: true }]
    returns it. *)
Record Saved := {
  saved_id : jsstring;
  saved_transcript : TranscriptRow;
  saved_analysis_id : jsstring;
  saved_analysis : AnalysisRow;
}.

(** [prisma.transcript.create({ data: { text, analysis: { create: {...} } },
    include: { analysis: true } })]: both rows are written, or none; an
    identifier already in use is the client's error P2002. *)
Definition transcript_create (env : Env) (text : jsstring)
  (actionItems decisions sentiment : JsVal) : M Saved :=
  db_call env (OpCreate text actionItems decisions sentiment)
    (s <- get_db ;;
     let tid := next_transcript_id env in
     let aid := next_analysis_id env in
     match transcripts s !! tid, analyses s !! aid with
     | None, None =>
         let t := {| t_text := text; t_createdAt := now env |} in
         let a := {| a_transcriptId := tid; a_actionItems := actionItems;
                     a_decisions := decisions; a_sentiment := sentiment;
                     a_createdAt := now env |} in
         put_db {| transcripts := <[tid := t]> (transcripts s);
                   analyses := <[aid := a]> (analyses s) |} ;;;
         ret {| saved_id := tid; saved_transcript := t;
                saved_analysis_id := aid; saved_analysis := a |}
     | _, _ => throw (prisma_error "P2002" "Unique constraint failed on the fields: (`id`)")
     end).

End Services.

Export Services.

(** ** The analysis requester ([src/lib/anthropic.ts]) *)

Module Anthropic.

Definition newline : jsstring := [10%N].

Fixpoint lines (l : list jsstring) : jsstring :=
  match l with
  | [] => []
  | [x] => x
  | x :: l' => x ++ newline ++ lines l'
  end.

(** The prompt, with the transcript in it as it is. *)
Definition build_prompt (text : jsstring) : jsstring :=
  lines
    [ js "You are a meeting analysis assistant. You must return ONLY valid JSON, with no explanation, code fences, or extra text. You are to analyze the following meeting transcript and provide a summary on the following topics: Action items with owners/deadlines, Key decisions that were made, Overall meeting sentiment/tone. return:";
      [];
      js "{";
      jsq "  'action_items': [{ 'owner': 'string', 'task': 'string', 'deadline': 'string | null' }],";
      jsq "  'decisions': ['string'],";
      jsq "  'sentiment': 'string'";
      js "}";
      js "Transcript:";
      text;
      [];
      js "Remember: respond with **only** JSON, nothing else." ].

(** [JSON.parse(text)] as a computation: it throws a [SyntaxError] (whose
    message is the engine's; the caller drops it). *)
Definition JSON_parse_or_throw (text : jsstring) : M JsVal :=
  match JSON_parse text with
  | Some v => ret v
  | None => throw (new_Error (js "SyntaxError"))
  end.

(** The test on the parsed reply: [!parsed || typeof parsed !== "object" ||
    !Array.isArray(parsed.action_items) || !Array.isArray(parsed.decisions)
    || typeof parsed.sentiment !== "string"]. *)
Definition lacks_structure (parsed : JsVal) : bool :=
  negb (truthy parsed) ||
  negb (typeof_object parsed) ||
  negb (isArray (get_prop (js "action_items") parsed)) ||
  negb (isArray (get_prop (js "decisions") parsed)) ||
  negb (typeof_string (get_prop (js "sentiment") parsed)).

Definition fence_json : jsstring := js "```json".
Definition fence : jsstring := js "```".

(** [match[0]] with every [```json] and then every [```] removed, trimmed. *)
Definition strip_fences (m : jsstring) : jsstring :=
  trim (remove_all fence (remove_all fence_json m)).

(** From the text of the reply to the analysis: lines 50 to 88 of
    [analyzeMeeting]. *)
Definition extract_json (reply : jsstring) : M JsVal :=
  let jsonText := trim reply in
  match match_braces jsonText with
  | None =>
      console LogWarn "Claude returned non-JSON response:" ;;;
      throw (new_Error (js "Claude returned invalid JSON format."))
  | Some m =>
      let jsonText := strip_fences m in
      try_catch
        (parsed <- JSON_parse_or_throw jsonText ;;
         if lacks_structure parsed then
           console LogError "Parsed JSON missing expected structure:" ;;;
           throw (new_Error (js "Parsed JSON missing expected structure."))
         else ret parsed)
        (fun err =>
           console LogError "JSON parse error:" ;;;
           console LogError "Raw text from Claude:" ;;;
           throw (new_Error (js "Failed to parse Claude response as valid JSON.")))
  end.

(** [response.content.find(block => block.type === 'text')] *)
Definition find_text_block (content : list ContentBlock) : option ContentBlock :=
  List.find (fun block => js_eqb (block_type block) (js "text")) content.

(** [analyzeMeeting(text)].  The parameter is typed [string], so of the test
    [!text || typeof text !== "string" || text.trim().length < 10] the
    middle part is false. *)
Definition analyzeMeeting (env : Env) (text : jsstring) : M JsVal :=
  try_catch
    (if js_eqb text [] || (length (trim text) <? 10)%nat then
       throw (new_Error
         (js "Invalid transcript: must be a non-empty string of at least 10 characters."))
     else
       let prompt := build_prompt text in
       content <- messages_create env prompt ;;
       match find_text_block content with
       | None => throw (new_Error (js "No text content returned from Anthropic API"))
       | Some textBlock => extract_json (block_text textBlock)
       end)
    (fun err =>
       let message :=
         if instanceof_Error err then err_get (js "message") err
         else JStr (js "Unknown error communicating with Anthropic API.") in
       console LogError "Anthropic API call failed:" ;;;
       throw (new_Error (js "Anthropic API error: " ++
                         match message with JStr m => m | _ => [] end))).

End Anthropic.

Export Anthropic.

(** ** The request handlers (the three API routes) *)

Module Handlers.

(** The request as the framework hands it over: [req.method], the parsed
    [req.body] ([undefined] without one) and the properties of [req.query],
    each a string or an array of strings. *)
Record Request := {
  method : option jsstring;
  body : JsVal;
  query : list (jsstring * JsVal);
}.

Inductive Details :=
| DetailsValue (v : JsVal)
| DetailsFlattened (f : Flattened).

(** The JSON bodies the handlers send. *)
Inductive Body :=
| ErrorBody (error : jsstring) (details : option Details)
| MessageBody (message : jsstring)
| SavedBody (saved : Saved)
| ListBody (rows : list AnalysisWithTranscript).

Record Response := {
  status : nat;
  headers : list (jsstring * list jsstring);
  response_body : Body;
}.

(** [res.status(code).json(body)] *)
Definition respond (code : nat) (b : Body) : M Response :=
  ret {| status := code; headers := []; response_body := b |}.

(** [res.setHeader("Allow", [m]); return res.status(405).json({ error })] *)
Definition method_not_allowed (m error : string) : M Response :=
  ret {| status := 405; headers := [(js "Allow", [js m])];
         response_body := ErrorBody (js error) None |}.

(** [req.method !== m] *)
Definition method_is_not (req : Request) (m : string) : bool :=
  match method req with
  | Some m' => negb (js_eqb m' (js m))
  | None => true
  end.

(** The string a value is, for the places behind a [typeof] test. *)
Definition as_string (v : JsVal) : jsstring :=
  match v with JStr s => s | _ => [] end.

(** [err instanceof Error ? err.message : fallback] *)
Definition message_or (err : Thrown) (fallback : string) : JsVal :=
  if instanceof_Error err then err_get (js "message") err else JStr (js fallback).

(** The [catch] clause of the delete handler. *)
Definition delete_on_error (err : Thrown) : M Response :=
  if is_coded_object err then
    let code := err_get (js "code") err in
    if strict_eq_str code (js "P2025") then
      respond 404 (ErrorBody (js "Analysis not found (already deleted).") None)
    else if strict_eq_str code (js "P1001") then
      respond 503
        (ErrorBody (js "Cannot reach the database. Please try again later.") None)
    else
      console LogError "Prisma error:" ;;;
      respond 500
        (ErrorBody (js "Database error occurred while deleting analysis.")
           (Some (DetailsValue
              (nullish_or (err_get (js "message") err)
                 (JStr (js "Unknown Prisma error"))))))
  else
    console LogError "Unexpected error during DELETE /api/delete-analysis:" ;;;
    respond 500
      (ErrorBody (js "Unexpected server error while deleting analysis.")
         (Some (DetailsValue (message_or err "Unknown server error.")))).

(** The delete handler behind its checks of the request. *)
Definition delete_existing (env : Env) (id : jsstring) : M Response :=
  existing <- analysis_findUnique env id ;;
  match existing with
  | None =>
      respond 404
        (ErrorBody (js "Analysis not found. It may have already been deleted.") None)
  | Some _ =>
      analysis_delete env id ;;;
      respond 200 (MessageBody (js "Analysis deleted successfully."))
  end.

(** DELETE /api/deleteanalysis?id=... *)
Definition delete_handler (env : Env) (req : Request) : M Response :=
  try_catch
    (if method_is_not req "DELETE" then
       method_not_allowed "DELETE" "Method not allowed. Use DELETE instead."
     else
       let id := get_prop (js "id") (JObj (query req)) in
       if negb (truthy id) || negb (typeof_string id) ||
          (length (trim (as_string id)) =? 0)%nat
       then respond 400 (ErrorBody (js "Invalid or missing analysis ID.") None)
       else delete_existing env (as_string id))
    delete_on_error.

(** The [catch] clause of the list handler. *)
Definition fetch_on_error (err : Thrown) : M Response :=
  console LogError "Error fetching analyses:" ;;;
  if is_coded_object err && strict_eq_str (err_get (js "code") err) (js "P1001")
  then respond 503 (ErrorBody (js "Database connection error.") None)
  else
    respond 500
      (ErrorBody (js "Failed to fetch past analyses.")
         (Some (DetailsValue (message_or err "Unknown error occurred.")))).

(** GET /api/fetchanalysis *)
Definition fetch_handler (env : Env) (req : Request) : M Response :=
  if method_is_not req "GET" then
    method_not_allowed "GET" "Method not allowed. Only GET is supported."
  else
    try_catch
      (rows <- analysis_findMany env ;;
       if (length rows =? 0)%nat then
         respond 404 (ErrorBody (js "No analyses found.") None)
       else respond 200 (ListBody rows))
      fetch_on_error.

(** The handler's own test on the analysis: [!analysis || typeof analysis !==
    "object" || !Array.isArray(analysis.action_items) ||
    !Array.isArray(analysis.decisions)]. *)
Definition unexpected_format (analysis : JsVal) : bool :=
  negb (truthy analysis) ||
  negb (typeof_object analysis) ||
  negb (isArray (get_prop (js "action_items") analysis)) ||
  negb (isArray (get_prop (js "decisions") analysis)).

(** The second half of the analyze handler: from the analysis to the
    response (lines 178 to 218 of the route). *)
Definition persist_analysis (env : Env) (transcript : jsstring) (analysis : JsVal)
  : M Response :=
  if unexpected_format analysis then
    console LogError "Invalid AI analysis format:" ;;;
    respond 500 (ErrorBody (js "AI returned unexpected data format.") None)
  else
    saved <- attempt
      (transcript_create env transcript
         (get_prop (js "action_items") analysis)
         (get_prop (js "decisions") analysis)
         (nullish_or (get_prop (js "sentiment") analysis) (JStr (js "Unknown")))) ;;
    match saved with
    | inl dbErr =>
        console LogError "Database save failed:" ;;;
        respond 500
          (ErrorBody (js "Failed to save analysis results to database.")
             (Some (DetailsValue (message_or dbErr "Database error"))))
    | inr saved =>
        console LogInfo "Successfully saved transcript and analysis:" ;;;
        respond 200 (SavedBody saved)
    end.

(** The outer [catch] clause of the analyze handler. *)
Definition analyze_on_error (err : Thrown) : M Response :=
  console LogError "Unexpected API error:" ;;;
  respond 500
    (ErrorBody (js "Unexpected server error.")
       (Some (DetailsValue (message_or err "Unknown error occurred.")))).

(** The analyze handler behind its checks of the request: the call of the
    requester and what follows. *)
Definition analyze_valid (env : Env) (transcript : jsstring) : M Response :=
  analysis <- attempt (analyzeMeeting env transcript) ;;
  match analysis with
  | inl err =>
      console LogError "AI analysis failed:" ;;;
      respond 500
        (ErrorBody (js "AI analysis failed.")
           (Some (DetailsValue (message_or err "Unknown AI error."))))
  | inr analysis => persist_analysis env transcript analysis
  end.

(** POST /api/analyze *)
Definition analyze_handler (env : Env) (req : Request) : M Response :=
  try_catch
    (if method_is_not req "POST" then
       method_not_allowed "POST" "Method not allowed. Use POST instead."
     else if negb (truthy (body req)) || negb (typeof_object (body req)) then
       respond 400 (ErrorBody (js "Invalid or empty request body. Expected JSON.") None)
     else
       match AnalyzeRequestSchema [] (body req) with
       | ZFailure issues =>
           respond 400
             (ErrorBody (js "Invalid request body structure.")
                (Some (DetailsFlattened (flatten issues))))
       | ZSuccess data =>
           let transcript := transcript data in
           if (length (trim transcript) <? 10)%nat then
             respond 400
               (ErrorBody
                  (js "Transcript must be a non-empty string with at least 10 characters.")
                  None)
           else if (5000 <? length transcript)%nat then
             respond 400
               (ErrorBody (js "Transcript too long. Maximum allowed is 5000 characters.")
                  None)
           else analyze_valid env transcript
       end)
    analyze_on_error.

End Handlers.

Export Handlers.

(** ** What the claims speak of *)

Module Observations.

Definition is_model_call (e : Event) : bool :=
  match e with ModelCall _ => true | _ => false end.

Definition is_db_write (e : Event) : bool :=
  match e with
  | DbCall (OpCreate _ _ _ _) | DbCall (OpDelete _) => true
  | _ => false
  end.

Definition is_console (e : Event) : bool :=
  match e with Console _ _ => true | _ => false end.

(** The events a run adds to the trace it starts from. *)
Definition new_events (w w' : World) : list Event :=
  drop (length (trace w)) (trace w').

(** The run made no call to the model. *)
Definition no_model_call (w w' : World) : Prop :=
  forallb (fun e => negb (is_model_call e)) (new_events w w') = true.

(** The run wrote nothing to the store. *)
Definition no_db_write (w w' : World) : Prop :=
  db w' = db w /\ forallb (fun e => negb (is_db_write e)) (new_events w w') = true.

(** The run only logged. *)
Definition only_logged (w w' : World) : Prop :=
  db w' = db w /\ trace w <> trace w' /\ forallb is_console (new_events w w') = true.

(** [pat] occurs in [s]. *)
Fixpoint occurs (pat s : jsstring) : bool :=
  starts_with pat s ||
  match s with
  | [] => false
  | _ :: s' => occurs pat s'
  end.

Definition has_char (c : char16) (s : jsstring) : bool :=
  existsb (fun d => (d =? c)%N) s.

(** The text holds a [{] with a [}] somewhere behind it. *)
Fixpoint has_brace_pair (s : jsstring) : bool :=
  match s with
  | [] => false
  | c :: s' => ((c =? open_brace)%N && has_char close_brace s') || has_brace_pair s'
  end.

(** The shape of an analysis in the words of the spec (component design,
    schema validator): an ordered sequence of action items, each with an
    owner, a task and a deadline that is a string or null; an ordered
    sequence of decision strings; and a sentiment string. *)
Definition is_action_item (v : JsVal) : bool :=
  match v with
  | JObj props =>
      typeof_string (default JUndef (obj_get (js "owner") props)) &&
      typeof_string (default JUndef (obj_get (js "task") props)) &&
      match default JUndef (obj_get (js "deadline") props) with
      | JStr _ | JNull => true
      | _ => false
      end
  | _ => false
  end.

Definition is_analysis (v : JsVal) : bool :=
  match v with
  | JObj props =>
      match default JUndef (obj_get (js "action_items") props) with
      | JArr items => forallb is_action_item items
      | _ => false
      end &&
      match default JUndef (obj_get (js "decisions") props) with
      | JArr items => forallb typeof_string items
      | _ => false
      end &&
      typeof_string (default JUndef (obj_get (js "sentiment") props))
  | _ => false
  end.

(** The status the spec gives to a failure of the store, by its error code
    (component design, request handlers: not-found, connection failure,
    unknown). *)
Definition status_by_code (err : Thrown) : nat :=
  let code := err_get (js "code") err in
  if strict_eq_str code (js "P2025") then 404
  else if strict_eq_str code (js "P1001") then 503
  else 500.

(** Every analysis row refers to a transcript row. *)
Definition references_hold (s : Store) : Prop :=
  forall id a, analyses s !! id = Some a -> is_Some (transcripts s !! a_transcriptId a).

(** A computation that leaves the store alone and adds only events that
    satisfy [P] to the trace. *)
Definition emits_only (P : Event -> bool) {A} (m : M A) : Prop :=
  forall w c w', m w = (c, w') ->
    db w' = db w /\ exists evs, trace w' = trace w ++ evs /\ forallb P evs = true.

(** The status a run answers with, if it answers. *)
Definition answered (run : Completion Response * World) : option nat :=
  match run.1 with
  | Normal resp => Some (status resp)
  | Throw _ => None
  end.

(** The analysis row the analyze handler asks the store to create. *)
Definition new_analysis_row (env : Env) (analysis : JsVal) : AnalysisRow :=
  {| a_transcriptId := next_transcript_id env;
     a_actionItems := get_prop (js "action_items") analysis;
     a_decisions := get_prop (js "decisions") analysis;
     a_sentiment := nullish_or (get_prop (js "sentiment") analysis) (JStr (js "Unknown"));
     a_createdAt := now env |}.

(** The store after the transcript and the analysis are created. *)
Definition store_with (env : Env) (text : jsstring) (analysis : JsVal) (s : Store)
  : Store :=
  {| transcripts :=
       <[next_transcript_id env := {| t_text := text; t_createdAt := now env |}]>
         (transcripts s);
     analyses := <[next_analysis_id env := new_analysis_row env analysis]> (analyses s) |}.

(** A schema decides the predicate [p]: it succeeds on the values that
    satisfy [p] and reports at least one issue on the others. *)
Definition decides {A} (schema : Schema A) (p : JsVal -> bool) : Prop :=
  forall path v,
    match schema path v with
    | ZSuccess _ => p v = true
    | ZFailure issues => p v = false /\ issues <> []
    end.

Definition array_of (p : JsVal -> bool) (v : JsVal) : bool :=
  match v with JArr items => forallb p items | _ => false end.

(** A parse that did not run out of fuel and, when it gave a value, left a
    strictly shorter text. *)
Definition consumes {A} (s : jsstring) (r : Parse A) : Prop :=
  match r with
  | POk _ rest => (length rest < length s)%nat
  | PSyntaxError => True
  | PFuel => False
  end.

End Observations.

Export Observations.

(** ** Sample requests, services and worlds *)

Module Samples.

Definition short_request : Request :=
  {| method := Some (js "POST");
     body := JObj [(js "transcript", JStr (js "too short"))];
     query := [] |}.

Definition quiet_env : Env :=
  {| model := fun _ => ModelResponse [];
     db_fault := fun _ => None;
     next_transcript_id := js "t1";
     next_analysis_id := js "a1";
     now := 0%N |}.

Definition empty_world : World :=
  {| db := {| transcripts := ∅; analyses := ∅ |}; trace := [] |}.

Definition padded_request : Request :=
  {| method := Some (js "POST");
     body := JObj [(js "transcript", JStr (js "    hello     "))];
     query := [] |}.

Definition meeting_request : Request :=
  {| method := Some (js "POST");
     body := JObj [(js "transcript",
                    JStr (js "Alice: let's ship by Friday. Bob: agreed."))];
     query := [] |}.

(** The model service is down. *)
Definition failing_env : Env :=
  {| model := fun _ => ModelThrows (new_Error (js "529 overloaded"));
     db_fault := fun _ => None;
     next_transcript_id := js "t1";
     next_analysis_id := js "a1";
     now := 0%N |}.

(** The model answers with an object of the asked shape. *)
Definition replying_env : Env :=
  {| model := fun _ =>
       ModelResponse
         [{| block_type := js "text";
             block_text := jsq "{'action_items':[],'decisions':['ship'],'sentiment':'calm'}" |}];
     db_fault := fun _ => None;
     next_transcript_id := js "t1";
     next_analysis_id := js "a1";
     now := 7%N |}.

Definition long_text : jsstring := repeat 97%N (S 5000).

(** A reply in a code fence with a remark behind it. *)
Definition fenced_reply : jsstring :=
  js "```json" ++ newline ++
  jsq "{'action_items':[{'owner':'Bob','task':'ship','deadline':null}],'decisions':['ship'],'sentiment':'calm'}" ++
  newline ++ js "```" ++ newline ++ js "Let me know if you need more.".

Definition fenced_object : jsstring :=
  jsq "'action_items':[{'owner':'Bob','task':'ship','deadline':null}],'decisions':['ship'],'sentiment':'calm'".

Definition fenced_value : JsVal :=
  JObj [(js "action_items",
         JArr [JObj [(js "owner", JStr (js "Bob")); (js "task", JStr (js "ship"));
                     (js "deadline", JNull)]]);
        (js "decisions", JArr [JStr (js "ship")]);
        (js "sentiment", JStr (js "calm"))].

(** One object of the asked shape, with a key that ends in a code fence. *)
Definition fence_in_key_reply : jsstring :=
  jsq "{'action_items':[],'decisions':[],'sentiment':'calm','sentiment```':1}".

Definition delete_request (id : string) : Request :=
  {| method := Some (js "DELETE");
     body := JUndef;
     query := [(js "id", JStr (js id))] |}.

Definition sample_analysis (created : N) : AnalysisRow :=
  {| a_transcriptId := js "t0";
     a_actionItems := JArr [];
     a_decisions := JArr [];
     a_sentiment := JStr (js "calm");
     a_createdAt := created |}.

(** A store with one transcript and its analysis. *)
Definition one_analysis_world : World :=
  {| db := {| transcripts := {[ js "t0" := {| t_text := js "Alice: hello, Bob."; t_createdAt := 3%N |} ]};
              analyses := {[ js "a0" := sample_analysis 3%N ]} |};
     trace := [] |}.

Definition get_request : Request :=
  {| method := Some (js "GET"); body := JUndef; query := [] |}.

(** A store with two transcripts and their analyses, the second one newer. *)
Definition two_analyses_world : World :=
  {| db := {| transcripts :=
                <[ js "t1" := {| t_text := js "Carol: we postpone."; t_createdAt := 9%N |} ]>
                  {[ js "t0" := {| t_text := js "Alice: hello, Bob."; t_createdAt := 3%N |} ]};
              analyses :=
                <[ js "a1" := {| a_transcriptId := js "t1"; a_actionItems := JArr [];
                                 a_decisions := JArr [JStr (js "postpone")];
                                 a_sentiment := JStr (js "tense");
                                 a_createdAt := 9%N |} ]>
                  {[ js "a0" := sample_analysis 3%N ]} |};
     trace := [] |}.

(** The model answers, the database cannot be reached. *)
Definition unreachable_db_env : Env :=
  {| model := model replying_env;
     db_fault := fun _ => Some (prisma_error "P1001" "Can't reach database server");
     next_transcript_id := js "t1";
     next_analysis_id := js "a1";
     now := 7%N |}.

(** An analysis without a sentiment. *)
Definition no_sentiment_analysis : JsVal :=
  JObj [(js "action_items", JArr []); (js "decisions", JArr [])].

End Samples.

Export Samples.

(** ** More of what the properties speak of *)

Module Routes.

(** The transcript of a body that the analyze handler lets through to the
    requester: the body is an object whose [transcript] is a string of at
    most 5000 code units with at least 10 left after trimming. *)
Definition accepted_transcript (body : JsVal) : option jsstring :=
  match body with
  | JObj props =>
      match obj_get (js "transcript") props with
      | Some (JStr t) =>
          if (10 <=? length (trim t))%nat && (length t <=? 5000)%nat
          then Some t else None
      | _ => None
      end
  | _ => None
  end.

(** The [error] text of the response a run ends with, if it has one. *)
Definition error_text (run : Completion Response * World) : option jsstring :=
  match run.1 with
  | Normal resp =>
      match response_body resp with
      | ErrorBody e _ => Some e
      | _ => None
      end
  | Throw _ => None
  end.

(** The record the store returns for a created transcript. *)
Definition saved_record (env : Env) (text : jsstring) (analysis : JsVal) : Saved :=
  {| saved_id := next_transcript_id env;
     saved_transcript := {| t_text := text; t_createdAt := now env |};
     saved_analysis_id := next_analysis_id env;
     saved_analysis := new_analysis_row env analysis |}.

(** The store operation by which the analyze handler saves. *)
Definition create_op (text : jsstring) (analysis : JsVal) : DbOp :=
  OpCreate text (get_prop (js "action_items") analysis)
    (get_prop (js "decisions") analysis)
    (nullish_or (get_prop (js "sentiment") analysis) (JStr (js "Unknown"))).

End Routes.

Export Routes.

Module MoreSamples.

Definition put_request : Request :=
  {| method := Some (js "PUT");
     body := JObj [(js "transcript", JStr (js "Alice: let's ship by Friday. Bob: agreed."))];
     query := [(js "id", JStr (js "a0"))] |}.

Definition array_body_request : Request :=
  {| method := Some (js "POST"); body := JArr [JStr (js "a transcript")]; query := [] |}.

Definition text_body_request : Request :=
  {| method := Some (js "POST"); body := JStr (js "a transcript of some length");
     query := [] |}.

Definition no_transcript_request : Request :=
  {| method := Some (js "POST");
     body := JObj [(js "text", JStr (js "Alice: let's ship by Friday."))];
     query := [] |}.

End MoreSamples.

Export MoreSamples.

Module RequesterRuns.

(** The world after one more event. *)
Definition logged (w : World) (evs : list Event) : World :=
  {| db := db w; trace := trace w ++ evs |}.

(** The message the outer catch clause of [analyzeMeeting] takes from what
    was thrown. *)
Definition failure_message (err : Thrown) : jsstring :=
  as_string (message_or err "Unknown error communicating with Anthropic API.").

(** The error [analyzeMeeting] throws for a message. *)
Definition api_error (m : jsstring) : Thrown :=
  new_Error (js "Anthropic API error: " ++ m).

End RequesterRuns.

Export RequesterRuns.

Module RequesterSamples.

(** The model answers with a JSON object that lacks the decisions. *)
Definition incomplete_env : Env :=
  {| model := fun _ =>
       ModelResponse
         [{| block_type := js "text";
             block_text := jsq "{'action_items':[],'sentiment':'calm'}" |}];
     db_fault := fun _ => None;
     next_transcript_id := js "t1";
     next_analysis_id := js "a1";
     now := 7%N |}.

End RequesterSamples.

Export RequesterSamples.

Module StoreRuns.

(** The identifier a delete request names, when the handler accepts it: the
    query holds a string [id] that is not white space only. *)
Definition usable_id (req : Request) : option jsstring :=
  match get_prop (js "id") (JObj (query req)) with
  | JStr id => if forallb is_white_space id then None else Some id
  | _ => None
  end.

(** The store without one analysis. *)
Definition store_without (id : jsstring) (s : Store) : Store :=
  {| transcripts := transcripts s; analyses := delete id (analyses s) |}.

(** The rows of the store as [findMany] orders them. *)
Definition listed (s : Store) : list AnalysisWithTranscript :=
  merge_sort newer_first (with_transcript s <$> map_to_list (analyses s)).

End StoreRuns.

Export StoreRuns.

Module StoreSamples.

Definition repeated_id_request : Request :=
  {| method := Some (js "DELETE");
     body := JUndef;
     query := [(js "id", JArr [JStr (js "a0"); JStr (js "a1")])] |}.

End StoreSamples.

Export StoreSamples.

Module Lanes.

(** A computation that adds only events that satisfy [P] to the trace
    (whatever it does to the store). *)
Definition traces_only (P : Event -> bool) {A} (m : M A) : Prop :=
  forall w c w', m w = (c, w') ->
    exists evs, trace w' = trace w ++ evs /\ forallb P evs = true.

(** The events of a run of the analyze handler: console lines, a call of the
    model, a create. *)
Definition analyze_event (e : Event) : bool :=
  match e with
  | Console _ _ | ModelCall _ | DbCall (OpCreate _ _ _ _) => true
  | _ => false
  end.

(** Those of the list handler: console lines and the query. *)
Definition fetch_event (e : Event) : bool :=
  match e with
  | Console _ _ | DbCall OpFindMany => true
  | _ => false
  end.

(** Those of the delete handler: console lines, the lookup and the removal. *)
Definition delete_event (e : Event) : bool :=
  match e with
  | Console _ _ | DbCall (OpFindUnique _) | DbCall (OpDelete _) => true
  | _ => false
  end.

End Lanes.

Export Lanes.

Module Compositions.

(** The row with which a saved record appears in the list. *)
Definition listed_row (saved : Saved) : AnalysisWithTranscript :=
  {| awt_id := saved_analysis_id saved;
     awt_analysis := saved_analysis saved;
     awt_transcript := Some (saved_transcript saved) |}.

End Compositions.

Export Compositions.

Module Encoding.

(** The JSON of a typed action item and of a typed analysis. *)
Definition item_to_json (a : ActionItem) : JsVal :=
  JObj [(js "owner", JStr (owner a));
        (js "task", JStr (task a));
        (js "deadline", match deadline a with Some d => JStr d | None => JNull end)].

Definition analysis_to_json (r : AnalysisResult) : JsVal :=
  JObj [(js "action_items", JArr (item_to_json <$> action_items r));
        (js "decisions", JArr (JStr <$> decisions r));
        (js "sentiment", JStr (sentiment r))].

(** A value holds the content of a typed action item: it is an object whose
    [owner] and [task] are these strings and whose [deadline] is this string
    or null; what else it holds does not count. *)
Definition holds_item (v : JsVal) (a : ActionItem) : Prop :=
  exists props,
    v = JObj props /\
    obj_get (js "owner") props = Some (JStr (owner a)) /\
    obj_get (js "task") props = Some (JStr (task a)) /\
    obj_get (js "deadline") props
    = Some (match deadline a with Some d => JStr d | None => JNull end).

(** A value holds the content of a typed analysis. *)
Definition holds_analysis (v : JsVal) (r : AnalysisResult) : Prop :=
  exists props items,
    v = JObj props /\
    obj_get (js "action_items") props = Some (JArr items) /\
    Forall2 holds_item items (action_items r) /\
    obj_get (js "decisions") props = Some (JArr (JStr <$> decisions r)) /\
    obj_get (js "sentiment") props = Some (JStr (sentiment r)).

End Encoding.

Export Encoding.

Module EncodingSamples.

Definition ship_analysis : AnalysisResult :=
  {| action_items :=
       [{| owner := js "Bob"; task := js "ship"; deadline := Some (js "Friday") |};
        {| owner := js "Alice"; task := js "review"; deadline := None |}];
     decisions := [js "ship by Friday"];
     sentiment := js "calm" |}.

End EncodingSamples.

Export EncodingSamples.

(** * The pages *)

Module Browser.

(** What a call of axios ends with: the data of a response whose status is
    from 200 to 299; an error of axios, with the data of the response when
    there was one, and with its message; or something else that was thrown. *)
Inductive AxiosResult :=
| AxiosResponse (data : JsVal)
| AxiosError (response_data : option JsVal) (message : jsstring)
| AxiosOther (err : Thrown).

(** [a || b] *)
Definition or_else (a b : JsVal) : JsVal := if truthy a then a else b.

(** [err.response?.data?.error] for an error of axios. *)
Definition response_error (response_data : option JsVal) : JsVal :=
  match response_data with
  | Some data => get_prop (js "error") data
  | None => JUndef
  end.

(** [parts.join(sep)] *)
Fixpoint array_join (sep : jsstring) (parts : list jsstring) : jsstring :=
  match parts with
  | [] => []
  | [p] => p
  | p :: rest => p ++ sep ++ array_join sep rest
  end.

(** [String(v)], given the text of a number. *)
Fixpoint to_string (number_text : jsstring -> jsstring) (v : JsVal) : jsstring :=
  match v with
  | JUndef => js "undefined"
  | JNull => js "null"
  | JBool true => js "true"
  | JBool false => js "false"
  | JNum n => number_text n
  | JStr s => s
  | JArr items =>
      array_join (js ",")
        (map (fun x => match x with
                       | JUndef | JNull => []
                       | _ => to_string number_text x
                       end) items)
  | JObj _ => js "[object Object]"
  end.

(** [new Error(message)] for a message of any type. *)
Definition Error_of (number_text : jsstring -> jsstring) (message : JsVal) : Thrown :=
  match message with
  | JUndef => new_Error []
  | _ => new_Error (to_string number_text message)
  end.

(** The statuses axios resolves with. *)
Definition ok_status (code : nat) : bool := (200 <=? code)%nat && (code <? 300)%nat.

(** What the handlers' code fixes of the data a body arrives as: the
    [error] and the [message] texts, an object with its [analysis] object
    for the saved transcript, an array with one element for each row. *)
Definition encodes (b : Body) (data : JsVal) : bool :=
  match b, data with
  | ErrorBody e _, JObj props =>
      strict_eq_str (default JUndef (obj_get (js "error") props)) e
  | MessageBody m, JObj props =>
      strict_eq_str (default JUndef (obj_get (js "message") props)) m
  | SavedBody _, JObj props =>
      match obj_get (js "analysis") props with
      | Some (JObj _) => true
      | _ => false
      end
  | ListBody rows, JArr items => (length items =? length rows)%nat
  | _, _ => false
  end.

(** An axios result that carries this response. *)
Definition delivered (resp : Response) (r : AxiosResult) : bool :=
  match r with
  | AxiosResponse data =>
      ok_status (status resp) && encodes (response_body resp) data
  | AxiosError (Some data) _ =>
      negb (ok_status (status resp)) && encodes (response_body resp) data
  | _ => false
  end.

End Browser.

Export Browser.

Module TranscriptForm.

Record State := {
  text : jsstring;
  analysis : JsVal;
  errorMessage : JsVal;
}.

Definition setAnalysis (a : JsVal) (st : State) : State :=
  {| text := text st; analysis := a; errorMessage := errorMessage st |}.

Definition setErrorMessage (m : JsVal) (st : State) : State :=
  {| text := text st; analysis := analysis st; errorMessage := m |}.

Definition mutationFn (number_text : jsstring -> jsstring)
  (post : JsVal -> AxiosResult) (payload : JsVal) : Completion JsVal :=
  match post payload with
  | AxiosResponse data => Normal data
  | AxiosError response_data message =>
      Throw (Error_of number_text
               (or_else (response_error response_data)
                  (or_else (JStr message) (JStr (js "Server error occurred.")))))
  | AxiosOther _ =>
      Throw (new_Error (js "Unexpected error occurred while analyzing transcript."))
  end.

(** The [try] block of [onSuccess], up to the value it stores. *)
Definition parsedAnalysis (data : JsVal) : Completion JsVal :=
  if negb (truthy data) || negb (typeof_object data) then
    Throw (new_Error (js "Invalid response from server."))
  else
    let parsed :=
      if typeof_object (get_prop (js "analysis") data)
      then get_prop (js "analysis") data else data in
    if negb (truthy parsed) then
      Throw (new_Error (js "No analysis results were returned."))
    else Normal parsed.

Definition onSuccess (data : JsVal) (st : State) : State :=
  match parsedAnalysis data with
  | Normal parsed => setErrorMessage JNull (setAnalysis parsed st)
  | Throw err =>
      setErrorMessage (message_or err "Failed to interpret the analysis result.") st
  end.

Definition onError (err : Thrown) (st : State) : State :=
  setErrorMessage
    (or_else (err_get (js "message") err) (JStr (js "An unknown error occurred."))) st.

(** The state after the checks, and the payload when the request is sent. *)
Definition handleAnalyze (st : State) : State * option JsVal :=
  let st := setAnalysis JNull (setErrorMessage JNull st) in
  let trimmed := trim (text st) in
  if negb (truthy (JStr trimmed)) then
    (setErrorMessage
       (JStr (js "Please paste a meeting transcript before analyzing.")) st, None)
  else if (length trimmed <? 10)%nat then
    (setErrorMessage (JStr (js "Transcript must contain at least 10 characters.")) st,
     None)
  else if (5000 <? length trimmed)%nat then
    (setErrorMessage (JStr (js "Transcript cannot exceed 5000 characters.")) st, None)
  else (st, Some (JObj [(js "transcript", JStr trimmed)])).

(** [mutation.mutate(payload)], when the request has ended. *)
Definition mutate (number_text : jsstring -> jsstring)
  (post : JsVal -> AxiosResult) (payload : JsVal) (st : State) : State :=
  match mutationFn number_text post payload with
  | Normal data => onSuccess data st
  | Throw err => onError err st
  end.

(** [disabled={!text || mutation.status === "pending"}] of the button,
    given whether a request is pending. *)
Definition disabled (pending : bool) (st : State) : bool :=
  negb (truthy (JStr (text st))) || pending.

(** A click on the button, when its request, if any, has ended.  While the
    button is disabled a click does nothing. *)
Definition click (number_text : jsstring -> jsstring)
  (post : JsVal -> AxiosResult) (pending : bool) (st : State) : State :=
  if disabled pending st then st
  else
    match handleAnalyze st with
    | (st', Some payload) => mutate number_text post payload st'
    | (st', None) => st'
    end.

End TranscriptForm.

Module AnalysesPage.

Definition queryFn (get : AxiosResult) : Completion JsVal :=
  match get with
  | AxiosResponse data => Normal data
  | _ => Throw (new_Error (js "Unable to fetch analyses from server."))
  end.

(** What the page renders. *)
Inductive View :=
| LoadingView
| ErrorView (message : JsVal)
| EmptyView
| ListView (data : JsVal).

(** [data.length === 0] *)
Definition length_is_zero (data : JsVal) : bool :=
  match data with
  | JArr items => (length items =? 0)%nat
  | JStr s => (length s =? 0)%nat
  | JObj props =>
      match obj_get (js "length") props with
      | Some (JNum n) => mantissa_zero n
      | _ => false
      end
  | _ => false
  end.

(** The page once the query has ended, with the data the query function
    returned or the error it threw. *)
Definition render (query : Completion JsVal) : View :=
  match query with
  | Throw error =>
      ErrorView (or_else (err_get (js "message") error)
                   (JStr (js "Failed to load analyses.")))
  | Normal data =>
      if negb (truthy data) || length_is_zero data then EmptyView else ListView data
  end.

Record State := {
  selectedId : JsVal;
  errorMsg : JsVal;
}.

(** The mutation function of the delete mutation. *)
Definition mutationFn (delete : jsstring -> AxiosResult) (id : jsstring)
  : Completion JsVal :=
  match delete id with
  | AxiosResponse data => Normal data
  | _ => Throw (new_Error (js "Error deleting analysis. Please try again."))
  end.

(** The state after [onSuccess], and whether the list is asked for again. *)
Definition onSuccess (st : State) : State * bool :=
  ({| selectedId := JNull; errorMsg := JNull |}, true).

Definition onError (err : Thrown) (st : State) : State * bool :=
  ({| selectedId := selectedId st;
      errorMsg := message_or err "An unknown error occurred while deleting." |},
   false).

(** [deleteMutation.mutate(selectedId)], when the request has ended. *)
Definition mutate (delete : jsstring -> AxiosResult) (id : jsstring) (st : State)
  : State * bool :=
  match mutationFn delete id with
  | Normal _ => onSuccess st
  | Throw err => onError err st
  end.

End AnalysesPage.

Module TranscriptPage.

(** The [id] of the route when the query is enabled: one value, or several. *)
Inductive RouteParam :=
| OneValue (s : jsstring)
| ManyValues (l : list jsstring).

(** What the [try] block of the query function throws. *)
Inductive Raised :=
| RaisedError (message : jsstring)
| RaisedTypeError
| RaisedAxios (response_data : option JsVal) (message : jsstring)
| RaisedOther (err : Thrown).

Inductive Tried (A : Type) :=
| Done (a : A)
| Raise (e : Raised).
Arguments Done {A} a.
Arguments Raise {A} e.

(** [v.k], a TypeError on [null] and [undefined]. *)
Definition member (k : jsstring) (v : JsVal) : Tried JsVal :=
  match v with
  | JUndef | JNull => Raise RaisedTypeError
  | _ => Done (get_prop k v)
  end.

(** [v === id] for a value of the response. *)
Definition is_param (v : JsVal) (id : RouteParam) : bool :=
  match id with
  | OneValue s => strict_eq_str v s
  | ManyValues _ => false
  end.

(** [items.find((a) => a.transcript.id === id)] *)
Fixpoint find (id : RouteParam) (items : list JsVal) : Tried JsVal :=
  match items with
  | [] => Done JUndef
  | a :: rest =>
      match member (js "transcript") a with
      | Raise e => Raise e
      | Done t =>
          match member (js "id") t with
          | Raise e => Raise e
          | Done v => if is_param v id then Done a else find id rest
          end
      end
  end.

(** The [try] block of the query function. *)
Definition lookup (id : RouteParam) (get : AxiosResult) : Tried JsVal :=
  match get with
  | AxiosResponse data =>
      match data with
      | JArr items =>
          match find id items with
          | Raise e => Raise e
          | Done found =>
              if negb (truthy found) then
                Raise (RaisedError (js "Transcript not found in analysis data."))
              else Done found
          end
      | _ => Raise (RaisedError (js "Invalid response format from server."))
      end
  | AxiosError response_data message => Raise (RaisedAxios response_data message)
  | AxiosOther err => Raise (RaisedOther err)
  end.

Definition queryFn (number_text : jsstring -> jsstring) (id : RouteParam)
  (get : AxiosResult) : Completion JsVal :=
  match lookup id get with
  | Done found => Normal found
  | Raise (RaisedAxios response_data message) =>
      Throw (Error_of number_text
               (or_else (response_error response_data)
                  (or_else (JStr message) (JStr (js "Network request failed.")))))
  | Raise _ => Throw (new_Error (js "Failed to fetch transcript data."))
  end.

(** An element whose [transcript.id] is read without an error and is not
    the [id] of the route. *)
Definition passed_over (id : RouteParam) (a : JsVal) : Prop :=
  exists t v, member (js "transcript") a = Done t /\ member (js "id") t = Done v /\
              is_param v id = false.

(** The element the query looks for: the data are an array, the element
    stands in it behind elements that are passed over, and its
    [transcript.id] is the one value of the route. *)
Definition located (id : RouteParam) (data found : JsVal) : Prop :=
  exists before after s,
    data = JArr (before ++ found :: after) /\
    Forall (passed_over id) before /\
    id = OneValue s /\
    get_prop (js "id") (get_prop (js "transcript") found) = JStr s.

End TranscriptPage.

Module PageSamples.

(** A form with a padded transcript. *)
Definition padded_form : TranscriptForm.State :=
  {| TranscriptForm.text := js "  Alice: let's ship by Friday. Bob: agreed.  ";
     TranscriptForm.analysis := JObj [];
     TranscriptForm.errorMessage := JStr (js "Server error occurred.") |}.

(** Every number is written as [0]. *)
Definition zero_text (n : jsstring) : jsstring := js "0".


(** The server's answer of an empty store, as axios has it. *)
Definition nothing_found_result : AxiosResult :=
  AxiosError (Some (JObj [(js "error", JStr (js "No analyses found."))]))
    (js "Request failed with status code 404").

(** A saved transcript, as axios has it. *)
Definition saved_result : AxiosResult :=
  AxiosResponse
    (JObj [(js "id", JStr (js "t1"));
           (js "analysis",
            JObj [(js "actionItems", JArr []);
                  (js "decisions", JArr [JStr (js "ship")]);
                  (js "sentiment", JStr (js "calm"))])]).

(** A list of two analyses, as axios has it. *)
Definition two_rows : JsVal :=
  JArr [JObj [(js "id", JStr (js "a1"));
              (js "transcript", JObj [(js "id", JStr (js "t1"))])];
        JObj [(js "id", JStr (js "a0"));
              (js "transcript", JObj [(js "id", JStr (js "t0"))])]].

End PageSamples.

Export PageSamples.

Module ReplySamples.

(** The model answers with one text block that holds this reply. *)
Definition reply_env (reply : jsstring) : Env :=
  {| model := fun _ =>
       ModelResponse [{| block_type := js "text"; block_text := reply |}];
     db_fault := fun _ => None;
     next_transcript_id := js "t1";
     next_analysis_id := js "a1";
     now := 7%N |}.

(** A reply with the two fence markers inside the braces. *)
Definition fence_inside_reply : jsstring :=
  jsq "{```json'action_items':[],'decisions':['ship'],'sentiment':'calm'```}".

Definition fence_inside_value : JsVal :=
  JObj [(js "action_items", JArr []);
        (js "decisions", JArr [JStr (js "ship")]);
        (js "sentiment", JStr (js "calm"))].

Definition sample_transcript : jsstring :=
  js "Alice: let's ship by Friday. Bob: agreed.".

End ReplySamples.

Export ReplySamples.

(** * Properties *)

(** ** Strings *)

Section StringFacts.

#[local] Open Scope N_scope.

Lemma js_eqb_eq (a b : jsstring) : js_eqb a b = true <-> a = b.
Proof.
  revert b. induction a as [|x a IH]; intros [|y b]; simpl; try (split; congruence).
  rewrite andb_true_iff, N.eqb_eq, IH. split.
  - intros [-> ->]. reflexivity.
  - intros [= -> ->]. auto.
Qed.

Lemma js_eqb_refl (a : jsstring) : js_eqb a a = true.
Proof. apply js_eqb_eq. reflexivity. Qed.

Lemma js_eqb_neq (a b : jsstring) : js_eqb a b = false <-> a <> b.
Proof.
  rewrite <- js_eqb_eq. destruct (js_eqb a b); split; congruence.
Qed.

Lemma trim_start_all (s : jsstring) :
  trim_start s = [] <-> forallb is_white_space s = true.
Proof.
  induction s as [|c s IH]; simpl; [tauto|].
  destruct (is_white_space c); simpl; [exact IH|].
  split; congruence.
Qed.

Lemma trim_start_length (s : jsstring) : (length (trim_start s) <= length s)%nat.
Proof.
  induction s as [|c s IH]; simpl; [lia|].
  destruct (is_white_space c); simpl; lia.
Qed.

Lemma trim_start_app (pre rest : jsstring) (x : char16) :
  is_white_space x = false ->
  trim_start (pre ++ x :: rest) = trim_start pre ++ x :: rest.
Proof.
  intros Hx. induction pre as [|c pre IH]; simpl.
  - rewrite Hx. reflexivity.
  - destruct (is_white_space c); [exact IH | reflexivity].
Qed.

Lemma trim_start_suffix (s : jsstring) : exists l, s = l ++ trim_start s.
Proof.
  induction s as [|c s [l IH]]; simpl.
  - exists []. reflexivity.
  - destruct (is_white_space c).
    + exists (c :: l). simpl. congruence.
    + exists []. reflexivity.
Qed.

Lemma trim_end_length (s : jsstring) : (length (trim_end s) <= length s)%nat.
Proof.
  unfold trim_end. rewrite length_rev.
  etransitivity; [apply trim_start_length|]. rewrite length_rev. lia.
Qed.

Lemma trim_end_app (rest post : jsstring) (y : char16) :
  is_white_space y = false ->
  trim_end (rest ++ y :: post) = rest ++ y :: trim_end post.
Proof.
  intros Hy. unfold trim_end.
  rewrite rev_app_distr. simpl. rewrite <- app_assoc. simpl.
  rewrite trim_start_app by exact Hy.
  rewrite rev_app_distr. simpl. rewrite rev_involutive, <- app_assoc. reflexivity.
Qed.

Lemma trim_end_prefix (s : jsstring) : exists r, s = trim_end s ++ r.
Proof.
  unfold trim_end. destruct (trim_start_suffix (rev s)) as [l Hl].
  exists (rev l). rewrite <- rev_app_distr, <- Hl, rev_involutive. reflexivity.
Qed.

Lemma trim_end_all (s : jsstring) :
  trim_end s = [] <-> forallb is_white_space s = true.
Proof.
  unfold trim_end. split.
  - intros H. apply (f_equal (@rev _)) in H. rewrite rev_involutive in H. simpl in H.
    apply trim_start_all in H. rewrite forallb_forall in *.
    intros x Hx. apply H. apply in_rev in Hx. exact Hx.
  - intros H. assert (trim_start (rev s) = []) as ->; [|reflexivity].
    apply trim_start_all. rewrite forallb_forall in *.
    intros x Hx. apply H. apply in_rev. exact Hx.
Qed.

Lemma trim_length (s : jsstring) : (length (trim s) <= length s)%nat.
Proof.
  unfold trim. etransitivity; [apply trim_end_length | apply trim_start_length].
Qed.

Lemma trim_infix (s : jsstring) : exists l r, s = l ++ trim s ++ r.
Proof.
  unfold trim. destruct (trim_start_suffix s) as [l Hl].
  destruct (trim_end_prefix (trim_start s)) as [r Hr].
  exists l, r. rewrite <- Hr. exact Hl.
Qed.

Lemma trim_all (s : jsstring) :
  trim s = [] <-> forallb is_white_space s = true.
Proof.
  unfold trim. rewrite trim_end_all. split.
  - intros H. destruct (trim_start_suffix s) as [l Hl].
    destruct (trim_start s) as [|c t] eqn:E.
    + apply trim_start_all. exact E.
    + exfalso. clear Hl. induction s as [|d s IH]; simpl in E; [discriminate|].
      destruct (is_white_space d) eqn:Ed; [auto|].
      injection E as -> ->. simpl in H. rewrite Ed in H. discriminate.
  - intros H. apply trim_start_all in H. rewrite H. reflexivity.
Qed.

(** Around a text that starts and ends with a code unit that is no white
    space only the outside is trimmed. *)
Lemma trim_around (pre mid post : jsstring) (x y : char16) :
  is_white_space x = false -> is_white_space y = false ->
  trim (pre ++ x :: mid ++ y :: post)
  = trim_start pre ++ x :: mid ++ y :: trim_end post.
Proof.
  intros Hx Hy. unfold trim.
  rewrite trim_start_app by exact Hx.
  replace (trim_start pre ++ x :: mid ++ y :: post)
    with ((trim_start pre ++ x :: mid) ++ y :: post)
    by (rewrite <- app_assoc; reflexivity).
  rewrite trim_end_app by exact Hy.
  rewrite <- app_assoc. reflexivity.
Qed.

End StringFacts.

(** ** The brace match and the removal of code fences *)

Section ExtractionFacts.

#[local] Open Scope N_scope.

Lemma has_char_app (c : char16) (a b : jsstring) :
  has_char c (a ++ b) = has_char c a || has_char c b.
Proof. unfold has_char. apply existsb_app. Qed.

Lemma from_first_app (c : char16) (pre rest : jsstring) :
  has_char c pre = false -> from_first c (pre ++ c :: rest) = c :: rest.
Proof.
  induction pre as [|d pre IH]; simpl; intros H.
  - rewrite N.eqb_refl. reflexivity.
  - apply orb_false_iff in H as [-> H]. auto.
Qed.

Lemma from_first_split (c : char16) (s : jsstring) :
  exists pre, s = pre ++ from_first c s /\ has_char c pre = false.
Proof.
  induction s as [|d s (pre & Hs & Hpre)]; simpl.
  - exists []. auto.
  - destruct (d =? c) eqn:E.
    + exists []. auto.
    + exists (d :: pre). split; [simpl; congruence|].
      unfold has_char in *. simpl. rewrite E, Hpre. reflexivity.
Qed.

Lemma from_first_head (c d : char16) (s rest : jsstring) :
  from_first c s = d :: rest -> d = c.
Proof.
  induction s as [|e s IH]; simpl; [discriminate|].
  destruct (e =? c) eqn:E; [|exact IH].
  intros [= -> _]. apply N.eqb_eq. exact E.
Qed.

Lemma from_first_nil (c : char16) (s : jsstring) :
  from_first c s = [] <-> has_char c s = false.
Proof.
  induction s as [|d s IH]; simpl; [tauto|].
  destruct (d =? c); simpl; [split; discriminate | exact IH].
Qed.

Lemma upto_last_none (c : char16) (s : jsstring) :
  upto_last c s = None <-> has_char c s = false.
Proof.
  induction s as [|d s IH]; simpl; [tauto|].
  destruct (upto_last c s) as [r|].
  - split; [discriminate|]. intros H. apply orb_false_iff in H as [_ H].
    apply IH in H. discriminate.
  - destruct (d =? c); simpl; [split; discriminate|].
    split; [intros _; apply IH; reflexivity | reflexivity].
Qed.

Lemma upto_last_app (c : char16) (mid post : jsstring) :
  has_char c post = false -> upto_last c (mid ++ c :: post) = Some (mid ++ [c]).
Proof.
  intros H. induction mid as [|d mid IH]; simpl.
  - apply upto_last_none in H. rewrite H, N.eqb_refl. reflexivity.
  - rewrite IH. reflexivity.
Qed.

Lemma upto_last_split (c : char16) (s m : jsstring) :
  upto_last c s = Some m ->
  exists mid post, m = mid ++ [c] /\ s = m ++ post /\ has_char c post = false.
Proof.
  revert m. induction s as [|d s IH]; simpl; intros m; [discriminate|].
  destruct (upto_last c s) as [r|] eqn:E.
  - intros [= <-]. destruct (IH r eq_refl) as (mid & post & -> & -> & Hp).
    exists (d :: mid), post. simpl. rewrite <- !app_assoc. auto.
  - destruct (d =? c) eqn:Ed; [|discriminate].
    intros [= <-]. apply N.eqb_eq in Ed as ->.
    exists [], s. apply upto_last_none in E. auto.
Qed.

Lemma match_braces_no_close (s : jsstring) :
  has_char close_brace s = false -> match_braces s = None.
Proof.
  induction s as [|c s IH]; [reflexivity|].
  intros H. unfold has_char in H. simpl in H.
  apply orb_false_iff in H as [_ H]. simpl.
  apply upto_last_none in H as Hnone. rewrite Hnone.
  destruct (c =? open_brace); apply IH; exact H.
Qed.

(** Only the first [{] can start the match: when no [}] comes behind it,
    none comes behind a later one. *)
Lemma match_braces_first (s : jsstring) :
  match_braces s
  = match from_first open_brace s with
    | [] => None
    | b :: rest =>
        match upto_last close_brace rest with
        | Some m => Some (b :: m)
        | None => None
        end
    end.
Proof.
  induction s as [|c s IH]; [reflexivity|]. simpl.
  destruct (c =? open_brace); [|exact IH].
  destruct (upto_last close_brace s) as [m|] eqn:E; [reflexivity|].
  apply match_braces_no_close, upto_last_none. exact E.
Qed.

(** The match runs from the first [{] to the last [}]. *)
Lemma match_braces_greedy (pre mid post : jsstring) :
  has_char open_brace pre = false ->
  has_char close_brace post = false ->
  match_braces (pre ++ open_brace :: mid ++ close_brace :: post)
  = Some (open_brace :: mid ++ [close_brace]).
Proof.
  intros Hpre Hpost. rewrite match_braces_first.
  rewrite from_first_app by exact Hpre.
  rewrite upto_last_app by exact Hpost. reflexivity.
Qed.

(** And every match is of that kind. *)
Lemma match_braces_inv (s m : jsstring) :
  match_braces s = Some m ->
  exists pre mid post,
    s = pre ++ m ++ post /\ m = open_brace :: mid ++ [close_brace] /\
    has_char open_brace pre = false /\ has_char close_brace post = false.
Proof.
  rewrite match_braces_first. intros H.
  destruct (from_first_split open_brace s) as (pre & Hs & Hpre).
  destruct (from_first open_brace s) as [|b rest] eqn:E; [discriminate|].
  apply from_first_head in E as Hb. subst b.
  destruct (upto_last close_brace rest) as [r|] eqn:Er; [|discriminate].
  injection H as <-.
  apply upto_last_split in Er as (mid & post & -> & -> & Hpost).
  exists pre, mid, post. simpl. auto.
Qed.

Lemma has_brace_pair_from_first (s : jsstring) :
  has_brace_pair s
  = match from_first open_brace s with
    | [] => false
    | _ :: rest => has_char close_brace rest
    end.
Proof.
  induction s as [|c s IH]; simpl; [reflexivity|].
  destruct (c =? open_brace) eqn:E; simpl; [|exact IH].
  destruct (has_char close_brace s) eqn:Hc; simpl; [reflexivity|].
  rewrite IH. destruct (from_first_split open_brace s) as (pre & Hs & _).
  destruct (from_first open_brace s) as [|b rest]; [reflexivity|].
  rewrite Hs, has_char_app in Hc. apply orb_false_iff in Hc as [_ Hc].
  simpl in Hc. apply orb_false_iff in Hc as [_ Hc]. exact Hc.
Qed.

(** There is a match exactly when some [{] has a [}] behind it. *)
Lemma match_braces_none (s : jsstring) :
  match_braces s = None <-> has_brace_pair s = false.
Proof.
  rewrite has_brace_pair_from_first, match_braces_first.
  destruct (from_first open_brace s) as [|b rest]; [tauto|].
  rewrite <- upto_last_none.
  destruct (upto_last close_brace rest); split; congruence.
Qed.

Lemma has_brace_pair_spec (s : jsstring) :
  has_brace_pair s = true <->
  exists pre mid post, s = pre ++ open_brace :: mid ++ close_brace :: post.
Proof.
  split.
  - intros H. destruct (match_braces s) as [m|] eqn:E.
    + apply match_braces_inv in E as (pre & mid & post & -> & -> & _).
      exists pre, mid, post. simpl. rewrite <- app_assoc. reflexivity.
    + apply match_braces_none in E. congruence.
  - intros (pre & mid & post & ->).
    induction pre as [|c pre IH].
    + simpl. rewrite has_char_app. simpl.
      rewrite orb_true_r. reflexivity.
    + simpl. simpl in IH. rewrite IH. apply orb_true_r.
Qed.

Lemma has_brace_pair_infix (l s r : jsstring) :
  has_brace_pair s = true -> has_brace_pair (l ++ s ++ r) = true.
Proof.
  rewrite !has_brace_pair_spec. intros (pre & mid & post & ->).
  exists (l ++ pre), mid, (post ++ r).
  rewrite <- !app_assoc. simpl. rewrite <- !app_assoc. reflexivity.
Qed.

Lemma has_brace_pair_trim (s : jsstring) :
  has_brace_pair s = false -> has_brace_pair (trim s) = false.
Proof.
  intros H. destruct (has_brace_pair (trim s)) eqn:E; [|reflexivity].
  destruct (trim_infix s) as (l & r & Hs).
  apply (has_brace_pair_infix l _ r) in E. rewrite <- Hs in E. congruence.
Qed.

Lemma starts_with_app (p q s : jsstring) :
  starts_with (p ++ q) s = true -> starts_with p s = true.
Proof.
  revert s. induction p as [|x p IH]; intros s; simpl; [reflexivity|].
  destruct s as [|c s]; [discriminate|].
  rewrite !andb_true_iff. intros [? ?]. eauto.
Qed.

Lemma occurs_app (p q s : jsstring) :
  occurs p s = false -> occurs (p ++ q) s = false.
Proof.
  induction s as [|c s IH]; simpl occurs.
  - rewrite !orb_false_r. intros H.
    destruct (starts_with (p ++ q) []) eqn:E; [|reflexivity].
    apply starts_with_app in E. congruence.
  - intros H. apply orb_false_iff in H as [H1 H2].
    rewrite (IH H2), orb_false_r.
    destruct (starts_with (p ++ q) (c :: s)) eqn:E; [|reflexivity].
    apply starts_with_app in E. congruence.
Qed.

(** Where the pattern does not occur, the global replace changes nothing. *)
Lemma remove_all_absent (pat s : jsstring) :
  occurs pat s = false -> remove_all pat s = s.
Proof.
  unfold remove_all. induction s as [|c s IH]; [reflexivity|].
  simpl occurs. intros H. apply orb_false_iff in H as [H1 H2].
  simpl remove_all_from. rewrite H1, (IH H2). reflexivity.
Qed.

(** A text in braces without a code fence in it goes to the parser as it
    is. *)
Lemma strip_fences_clean (mid : jsstring) :
  occurs fence (open_brace :: mid ++ [close_brace]) = false ->
  strip_fences (open_brace :: mid ++ [close_brace])
  = open_brace :: mid ++ [close_brace].
Proof.
  intros H. unfold strip_fences.
  rewrite (remove_all_absent fence_json).
  2:{ change fence_json with (fence ++ js "json"). apply occurs_app. exact H. }
  rewrite remove_all_absent by exact H.
  change (open_brace :: mid ++ [close_brace])
    with ([] ++ open_brace :: mid ++ close_brace :: []).
  rewrite trim_around by reflexivity. reflexivity.
Qed.

Lemma starts_with_self (p s : jsstring) : starts_with p (p ++ s) = true.
Proof.
  induction p as [|x p IH]; simpl; [reflexivity|].
  rewrite N.eqb_refl. exact IH.
Qed.

Lemma starts_with_mono (p s r : jsstring) :
  starts_with p s = true -> starts_with p (s ++ r) = true.
Proof.
  revert s. induction p as [|x p IH]; intros s; simpl; [reflexivity|].
  destruct s as [|c s]; [discriminate|]. simpl.
  rewrite !andb_true_iff. intros [? ?]. auto.
Qed.

(** A pattern is looked for in as many code units as it has. *)
Lemma starts_with_short (p u v : jsstring) :
  (length p <= length u)%nat -> starts_with p (u ++ v) = starts_with p u.
Proof.
  revert u. induction p as [|x p IH]; intros u H; simpl; [reflexivity|].
  destruct u as [|c u]; [simpl in H; lia|]. simpl.
  rewrite IH by (simpl in H; lia). reflexivity.
Qed.

Lemma occurs_app_r (p s r : jsstring) :
  occurs p s = true -> occurs p (s ++ r) = true.
Proof.
  induction s as [|c s IH]; simpl occurs.
  - rewrite orb_false_r. intros H. destruct p; [|discriminate].
    destruct r; reflexivity.
  - intros H. change ((c :: s) ++ r) with (c :: s ++ r). simpl occurs.
    apply orb_true_iff in H as [H|H].
    + pose proof (starts_with_mono p (c :: s) r H) as H'.
      change ((c :: s) ++ r) with (c :: s ++ r) in H'. rewrite H'. reflexivity.
    + rewrite (IH H). apply orb_true_r.
Qed.

Lemma occurs_app_l (p l s : jsstring) :
  occurs p s = true -> occurs p (l ++ s) = true.
Proof.
  intros H. induction l as [|c l IH]; [exact H|].
  simpl. rewrite IH. apply orb_true_r.
Qed.

(** What does not occur in a text does not occur in a part of it. *)
Lemma occurs_infix (p l m r : jsstring) :
  occurs p (l ++ m ++ r) = false -> occurs p m = false.
Proof.
  intros H. destruct (occurs p m) eqn:E; [|reflexivity].
  rewrite (occurs_app_l p l (m ++ r) (occurs_app_r p m r E)) in H. discriminate.
Qed.

(** The rest of an occurrence is dropped. *)
Lemma remove_all_from_skip (pat x b : jsstring) :
  remove_all_from pat (length x) (x ++ b) = remove_all_from pat O b.
Proof.
  induction x as [|c x IH]; [reflexivity|]. simpl. exact IH.
Qed.

(** The global replace at the first occurrence of the pattern: what stands
    before it stays, the occurrence goes, and the replace goes on behind
    it. *)
Lemma remove_all_first (pat a b : jsstring) :
  pat <> [] ->
  occurs pat (a ++ removelast pat) = false ->
  remove_all pat (a ++ pat ++ b) = a ++ remove_all pat b.
Proof.
  intros Hpat. unfold remove_all. induction a as [|c a IH]; intros H.
  - destruct pat as [|p pat']; [congruence|].
    change ([] ++ (p :: pat') ++ b) with (p :: pat' ++ b).
    cbn [remove_all_from].
    change (p :: pat' ++ b) with ((p :: pat') ++ b).
    rewrite starts_with_self. cbn [length Nat.pred].
    apply remove_all_from_skip.
  - change ((c :: a) ++ removelast pat) with (c :: a ++ removelast pat) in H.
    simpl occurs in H. apply orb_false_iff in H as [H1 H2].
    change ((c :: a) ++ pat ++ b) with (c :: a ++ pat ++ b).
    cbn [remove_all_from].
    assert (starts_with pat (c :: a ++ pat ++ b) = false) as ->.
    { pose proof (app_removelast_last 0%N Hpat) as Hlast.
      assert (length pat = S (length (removelast pat))) as Hlen.
      { rewrite Hlast at 1. rewrite length_app. cbn [length]. lia. }
      assert (c :: a ++ pat ++ b
              = (c :: a ++ removelast pat) ++ [List.last pat 0%N] ++ b) as ->.
      { cbn [app]. f_equal. rewrite <- app_assoc. f_equal.
        rewrite Hlast at 1. rewrite <- app_assoc. reflexivity. }
      rewrite starts_with_short; [exact H1|].
      cbn [length]. rewrite length_app. lia. }
    rewrite (IH H2). reflexivity.
Qed.

Lemma fence_units : fence = [96; 96; 96].
Proof. reflexivity. Qed.

(** Behind the removal of the fences no text starts with two backticks
    that did not start with two before. *)
Lemma remove_fence_no_double (s : jsstring) :
  starts_with [96; 96] s = false ->
  starts_with [96; 96] (remove_all_from fence O s) = false.
Proof.
  rewrite fence_units.
  destruct s as [|d s1]; [reflexivity|].
  cbn [starts_with remove_all_from].
  destruct (96 =? d) eqn:Ed; cbn [andb].
  2:{ intros _. cbn [starts_with]. rewrite Ed. reflexivity. }
  destruct s1 as [|e s2]; cbn [starts_with remove_all_from andb].
  { intros _. rewrite Ed. reflexivity. }
  destruct (96 =? e) eqn:Ee; cbn [andb]; [discriminate|].
  intros _. cbn [starts_with]. rewrite Ed, Ee. reflexivity.
Qed.

(** Behind the removal of the fences no fence is left. *)
Lemma remove_fence_none (s : jsstring) (skip : nat) :
  occurs fence (remove_all_from fence skip s) = false.
Proof.
  revert skip. induction s as [|c s IH]; intros skip.
  - destruct skip; reflexivity.
  - destruct skip as [|k]; [|apply IH].
    cbn [remove_all_from].
    destruct (starts_with fence (c :: s)) eqn:E; [apply IH|].
    cbn [occurs]. rewrite IH, orb_false_r.
    rewrite fence_units in E. rewrite fence_units at 1.
    cbn [starts_with] in E |- *.
    destruct (96 =? c); [|reflexivity]. cbn [andb] in E |- *.
    apply remove_fence_no_double. exact E.
Qed.

(** What goes to the parser holds no fence. *)
Lemma strip_fences_none (m : jsstring) : occurs fence (strip_fences m) = false.
Proof.
  unfold strip_fences.
  destruct (trim_infix (remove_all fence (remove_all fence_json m))) as (l & r & H).
  apply (occurs_infix fence l _ r). rewrite <- H. apply remove_fence_none.
Qed.

End ExtractionFacts.

(** ** The JSON parser never runs out of fuel *)

Section ParserFacts.

#[local] Open Scope N_scope.

Lemma skip_ws_length (s : jsstring) : (length (skip_ws s) <= length s)%nat.
Proof.
  induction s as [|c s IH]; simpl; [lia|].
  destruct (is_json_ws c); simpl; lia.
Qed.

Lemma skip_ws_cons_length (s r : jsstring) (c : char16) :
  skip_ws s = c :: r -> (length r < length s)%nat.
Proof.
  intros H. pose proof (skip_ws_length s) as L. rewrite H in L. simpl in L. lia.
Qed.

Lemma parse_string_chars_length (s str rest : jsstring) :
  parse_string_chars s = Some (str, rest) -> (length rest < length s)%nat.
Proof.
  revert str rest.
  induction s as [s IH] using (induction_ltof1 _ (@length N)); unfold ltof in IH.
  intros str rest. destruct s as [|c s]; simpl; [discriminate|].
  destruct (c =? 34); [intros [= _ <-]; lia|].
  destruct (c =? 92).
  - destruct s as [|e s]; [discriminate|].
    destruct (e =? 117).
    + destruct s as [|h1 [|h2 [|h3 [|h4 s4]]]]; try discriminate.
      destruct (hex_value h1), (hex_value h2), (hex_value h3), (hex_value h4);
        try discriminate.
      destruct (parse_string_chars s4) as [[str' rest']|] eqn:E; [|discriminate].
      intros [= _ <-]. apply IH in E; simpl in *; lia.
    + match goal with |- context [match ?d with Some _ => _ | None => _ end] =>
        destruct d end; [|discriminate].
      destruct (parse_string_chars s) as [[str' rest']|] eqn:E; [|discriminate].
      intros [= _ <-]. apply IH in E; simpl in *; lia.
  - destruct (c <? 32); [discriminate|].
    destruct (parse_string_chars s) as [[str' rest']|] eqn:E; [|discriminate].
    intros [= _ <-]. apply IH in E; simpl in *; lia.
Qed.

Lemma take_digits_length (s ds rest : jsstring) :
  take_digits s = (ds, rest) -> (length rest <= length s)%nat.
Proof.
  revert ds rest. induction s as [|c s IH]; simpl; intros ds rest.
  - intros [= _ <-]. simpl. lia.
  - destruct (is_digit c).
    + destruct (take_digits s) as [ds' rest'] eqn:E.
      intros [= _ <-]. specialize (IH _ _ eq_refl). lia.
    + intros [= _ <-]. simpl. lia.
Qed.

Lemma digits1_length (s ds rest : jsstring) :
  digits1 s = Some (ds, rest) -> (length rest <= length s)%nat.
Proof.
  unfold digits1. destruct (take_digits s) as [ds' rest'] eqn:E.
  apply take_digits_length in E.
  destruct ds'; [discriminate|]. intros [= _ <-]. exact E.
Qed.

Lemma int_part_length (s i rest : jsstring) :
  int_part s = Some (i, rest) -> (length rest < length s)%nat.
Proof.
  unfold int_part. destruct s as [|c s]; [discriminate|].
  destruct (c =? 48); [intros [= _ <-]; simpl; lia|].
  destruct (is_digit c); [|discriminate].
  destruct (take_digits s) as [ds rest'] eqn:E. apply take_digits_length in E.
  intros [= _ <-]. simpl. lia.
Qed.

Lemma frac_part_length (s f rest : jsstring) :
  frac_part s = Some (f, rest) -> (length rest <= length s)%nat.
Proof.
  unfold frac_part. destruct s as [|c s]; [intros [= _ <-]; simpl; lia|].
  destruct (c =? 46); [|intros [= _ <-]; simpl; lia].
  destruct (digits1 s) as [[ds rest']|] eqn:E; [|discriminate].
  apply digits1_length in E. intros [= _ <-]. simpl. lia.
Qed.

Lemma exp_part_length (s e rest : jsstring) :
  exp_part s = Some (e, rest) -> (length rest <= length s)%nat.
Proof.
  unfold exp_part. destruct s as [|c s]; [intros [= _ <-]; simpl; lia|].
  destruct ((c =? 101) || (c =? 69)); [|intros [= _ <-]; simpl; lia].
  destruct s as [|sg s]; [discriminate|].
  destruct ((sg =? 43) || (sg =? 45)).
  - destruct (digits1 s) as [[ds rest']|] eqn:E; [|discriminate].
    apply digits1_length in E. intros [= _ <-]. simpl. lia.
  - destruct (digits1 (sg :: s)) as [[ds rest']|] eqn:E; [|discriminate].
    apply digits1_length in E. intros [= _ <-]. simpl in *. lia.
Qed.

Lemma parse_number_length (s n rest : jsstring) :
  parse_number s = Some (n, rest) -> (length rest < length s)%nat.
Proof.
  unfold parse_number.
  assert (forall s1 : jsstring, (length s1 <= length s)%nat ->
            match int_part s1 with
            | Some (i, s2) =>
                match frac_part s2 with
                | Some (f, s3) =>
                    match exp_part s3 with
                    | Some (e, s4) => (length s4 < length s)%nat
                    | None => True
                    end
                | None => True
                end
            | None => True
            end) as H.
  { intros s1 L.
    destruct (int_part s1) as [[i s2]|] eqn:E1; [|exact I].
    destruct (frac_part s2) as [[f s3]|] eqn:E2; [|exact I].
    destruct (exp_part s3) as [[e s4]|] eqn:E3; [|exact I].
    apply int_part_length in E1. apply frac_part_length in E2.
    apply exp_part_length in E3. lia. }
  destruct s as [|c s']; simpl.
  - discriminate.
  - destruct (c =? 45).
    + specialize (H s' ltac:(simpl; lia)).
      destruct (int_part s') as [[i s2]|]; [|discriminate].
      destruct (frac_part s2) as [[f s3]|]; [|discriminate].
      destruct (exp_part s3) as [[e s4]|]; [|discriminate].
      intros [= _ <-]. exact H.
    + specialize (H (c :: s') ltac:(simpl; lia)).
      destruct (int_part (c :: s')) as [[i s2]|]; [|discriminate].
      destruct (frac_part s2) as [[f s3]|]; [|discriminate].
      destruct (exp_part s3) as [[e s4]|]; [|discriminate].
      intros [= _ <-]. exact H.
Qed.

Lemma parse_keyword_length (s rest : jsstring) (v : JsVal) :
  parse_keyword s = Some (v, rest) -> (length rest < length s)%nat.
Proof.
  unfold parse_keyword.
  destruct s as [|c s]; [vm_compute; discriminate|].
  destruct (starts_with (js "true") (c :: s)); [intros [= _ <-]|].
  { rewrite length_drop. simpl. lia. }
  destruct (starts_with (js "false") (c :: s)); [intros [= _ <-]|].
  { rewrite length_drop. simpl. lia. }
  destruct (starts_with (js "null") (c :: s)); [intros [= _ <-]|discriminate].
  rewrite length_drop. simpl. lia.
Qed.

(** With fuel above twice the length of the text the parser does not run
    out of it. *)
Lemma parse_fuel (fuel : nat) :
  (forall s, (2 * length s < fuel)%nat -> consumes s (parse_value fuel s)) /\
  (forall acc s, (2 * length s < fuel)%nat -> consumes s (parse_members fuel acc s)) /\
  (forall acc s, (2 * length s + 1 < fuel)%nat -> consumes s (parse_elements fuel acc s)).
Proof.
  induction fuel as [|fuel (IHv & IHm & IHe)].
  { repeat split; intros; lia. }
  split; [|split].
  - intros s L. simpl.
    destruct (skip_ws s) as [|c r] eqn:Es; [exact I|].
    apply skip_ws_cons_length in Es.
    destruct (c =? 123).
    { destruct (skip_ws r) as [|d r'] eqn:Er; [exact I|].
      apply skip_ws_cons_length in Er.
      destruct (d =? 125); [simpl; lia|].
      specialize (IHm [] (d :: r') ltac:(simpl; lia)).
      destruct (parse_members fuel [] (d :: r')); simpl in *; [lia|exact I|exact IHm]. }
    destruct (c =? 91).
    { destruct (skip_ws r) as [|d r'] eqn:Er; [exact I|].
      apply skip_ws_cons_length in Er.
      destruct (d =? 93); [simpl; lia|].
      specialize (IHe [] (d :: r') ltac:(simpl; lia)).
      destruct (parse_elements fuel [] (d :: r')); simpl in *; [lia|exact I|exact IHe]. }
    destruct (c =? 34).
    { destruct (parse_string_chars r) as [[str rest]|] eqn:E; [|exact I].
      apply parse_string_chars_length in E. simpl. lia. }
    destruct ((c =? 45) || is_digit c).
    { destruct (parse_number (c :: r)) as [[n rest]|] eqn:E; [|exact I].
      apply parse_number_length in E. simpl in *. lia. }
    destruct (parse_keyword (c :: r)) as [[v rest]|] eqn:E; [|exact I].
    apply parse_keyword_length in E. simpl in *. lia.
  - intros acc s L. simpl.
    destruct s as [|q r]; [exact I|].
    destruct (q =? 34); [|exact I].
    destruct (parse_string_chars r) as [[key r1]|] eqn:E1; [|exact I].
    apply parse_string_chars_length in E1.
    destruct (skip_ws r1) as [|colon r2] eqn:E2; [exact I|].
    apply skip_ws_cons_length in E2.
    destruct (colon =? 58); [|exact I].
    specialize (IHv r2 ltac:(simpl in *; lia)).
    destruct (parse_value fuel r2) as [v r3| |]; simpl in IHv; [|exact I|exact IHv].
    destruct (skip_ws r3) as [|d r4] eqn:E4; [exact I|].
    apply skip_ws_cons_length in E4.
    destruct (d =? 44).
    { pose proof (skip_ws_length r4) as L4.
      specialize (IHm (obj_set key v acc) (skip_ws r4) ltac:(simpl in *; lia)).
      destruct (parse_members fuel _ (skip_ws r4)); simpl in *; [lia|exact I|exact IHm]. }
    destruct (d =? 125); [simpl in *; lia | exact I].
  - intros acc s L. simpl.
    specialize (IHv s ltac:(lia)).
    destruct (parse_value fuel s) as [v r1| |]; simpl in IHv; [|exact I|exact IHv].
    destruct (skip_ws r1) as [|d r2] eqn:E2; [exact I|].
    apply skip_ws_cons_length in E2.
    destruct (d =? 44).
    { specialize (IHe (acc ++ [v]) r2 ltac:(lia)).
      destruct (parse_elements fuel _ r2); simpl in *; [lia|exact I|exact IHe]. }
    destruct (d =? 93); [simpl; lia | exact I].
Qed.

(** So [JSON_parse] gives [None] only for a text that is not JSON. *)
Lemma parse_value_fuel (text : jsstring) :
  parse_value (S (2 * length text)) text <> PFuel.
Proof.
  pose proof (proj1 (parse_fuel (S (2 * length text))) text ltac:(lia)) as H.
  intros E. rewrite E in H. exact H.
Qed.

End ParserFacts.

(** ** Runs and what they leave behind *)

Section RunFacts.

Lemma new_events_app (w w' : World) (evs : list Event) :
  trace w' = trace w ++ evs -> new_events w w' = evs.
Proof.
  intros H. unfold new_events. rewrite H. apply drop_app_length.
Qed.

Lemma new_events_same (w : World) : new_events w w = [].
Proof. apply new_events_app. rewrite app_nil_r. reflexivity. Qed.

Lemma no_model_call_same (w : World) : no_model_call w w.
Proof. unfold no_model_call. rewrite new_events_same. reflexivity. Qed.

Lemma no_db_write_same (w : World) : no_db_write w w.
Proof. unfold no_db_write. rewrite new_events_same. split; reflexivity. Qed.

Lemma method_is_not_same (req : Request) (m : string) :
  method req = Some (js m) -> method_is_not req m = false.
Proof.
  intros H. unfold method_is_not. rewrite H, js_eqb_refl. reflexivity.
Qed.

(** What the request schema makes of a body that holds a transcript
    string. *)
Lemma AnalyzeRequestSchema_string (props : list (jsstring * JsVal)) (t : jsstring) :
  obj_get (js "transcript") props = Some (JStr t) ->
  AnalyzeRequestSchema [] (JObj props)
  = if (length t <? 10)%nat then
      ZFailure [{| issue_path := [Key (js "transcript")]; issue_code := too_small;
                   issue_message :=
                     SchemaMessage (js "Transcript must be at least 10 characters long") |}]
    else if (5000 <? length t)%nat then
      ZFailure [{| issue_path := [Key (js "transcript")]; issue_code := too_big;
                   issue_message :=
                     SchemaMessage (js "Transcript cannot exceed 5000 characters") |}]
    else ZSuccess {| transcript := t |}.
Proof.
  intros H. unfold AnalyzeRequestSchema, z_object, z_field, z_string.
  rewrite H. simpl.
  destruct (length t <? 10)%nat eqn:E1, (5000 <? length t)%nat eqn:E2; try reflexivity.
  apply Nat.ltb_lt in E1, E2. lia.
Qed.

(** The delete handler, from a well-formed request to the store. *)
Lemma delete_handler_valid (env : Env) (w : World) (req : Request) (id : jsstring) :
  method req = Some (js "DELETE") ->
  get_prop (js "id") (JObj (query req)) = JStr id ->
  forallb is_white_space id = false ->
  delete_handler env req w = try_catch (delete_existing env id) delete_on_error w.
Proof.
  intros Hm Hid Hws.
  unfold delete_handler. rewrite (method_is_not_same _ _ Hm), Hid.
  cbn [as_string typeof_string negb].
  assert (truthy (JStr id) = true) as ->.
  { destruct id; [discriminate | reflexivity]. }
  assert ((length (trim id) =? 0)%nat = false) as ->.
  { apply Nat.eqb_neq. intros Hl. apply length_zero_iff_nil, trim_all in Hl.
    congruence. }
  reflexivity.
Qed.

End RunFacts.

(** ** What the analysis requester does to the world *)

Section RequesterFacts.

Variable P : Event -> bool.

Lemma emits_only_ret {A} (a : A) : emits_only P (ret a).
Proof.
  intros w c w' [= <- <-]. split; [reflexivity|].
  exists []. rewrite app_nil_r. auto.
Qed.

Lemma emits_only_throw {A} (err : Thrown) : emits_only P (@throw A err).
Proof.
  intros w c w' [= <- <-]. split; [reflexivity|].
  exists []. rewrite app_nil_r. auto.
Qed.

Lemma emits_only_emit (e : Event) : P e = true -> emits_only P (emit e).
Proof.
  intros He w c w' [= <- <-]. split; [reflexivity|].
  exists [e]. simpl. rewrite He. auto.
Qed.

Lemma emits_only_bind {A B} (m : M A) (k : A -> M B) :
  emits_only P m -> (forall a, emits_only P (k a)) -> emits_only P (bind m k).
Proof.
  intros Hm Hk w c w'. unfold bind.
  destruct (m w) as [[a|err] w1] eqn:E; intros H.
  - destruct (Hm _ _ _ E) as (Hdb & evs & Ht & Hp).
    destruct (Hk a _ _ _ H) as (Hdb' & evs' & Ht' & Hp').
    split; [congruence|]. exists (evs ++ evs').
    rewrite Ht', Ht, app_assoc, forallb_app, Hp, Hp'. auto.
  - injection H as <- <-. exact (Hm _ _ _ E).
Qed.

Lemma emits_only_try_catch {A} (m : M A) (h : Thrown -> M A) :
  emits_only P m -> (forall err, emits_only P (h err)) -> emits_only P (try_catch m h).
Proof.
  intros Hm Hh w c w'. unfold try_catch.
  destruct (m w) as [[a|err] w1] eqn:E; intros H.
  - injection H as <- <-. exact (Hm _ _ _ E).
  - destruct (Hm _ _ _ E) as (Hdb & evs & Ht & Hp).
    destruct (Hh err _ _ _ H) as (Hdb' & evs' & Ht' & Hp').
    split; [congruence|]. exists (evs ++ evs').
    rewrite Ht', Ht, app_assoc, forallb_app, Hp, Hp'. auto.
Qed.

Lemma emits_only_attempt {A} (m : M A) :
  emits_only P m -> emits_only P (attempt m).
Proof.
  intros Hm w c w'. unfold attempt.
  destruct (m w) as [[a|err] w1] eqn:E; intros [= <- <-]; exact (Hm _ _ _ E).
Qed.

End RequesterFacts.

Ltac emits_cases :=
  repeat first
    [ progress intros
    | apply emits_only_bind
    | apply emits_only_try_catch
    | apply emits_only_attempt
    | apply emits_only_ret
    | apply emits_only_throw
    | apply emits_only_emit; reflexivity
    | match goal with
      | |- emits_only _ (match ?x with _ => _ end) => destruct x
      | |- emits_only _ (if ?x then _ else _) => destruct x
      end ].

Lemma extract_json_emits (reply : jsstring) :
  emits_only is_console (extract_json reply).
Proof.
  unfold extract_json, JSON_parse_or_throw, console. emits_cases.
Qed.

(** The requester never touches the store: it logs and calls the model. *)
Lemma analyzeMeeting_emits (env : Env) (text : jsstring) :
  emits_only (fun e => negb (is_db_write e)) (analyzeMeeting env text).
Proof.
  unfold analyzeMeeting, extract_json, messages_create, JSON_parse_or_throw, console.
  emits_cases.
Qed.

(** Whatever goes wrong in it comes out as an [Error] with the prefixed
    message. *)
Lemma analyzeMeeting_throws (env : Env) (text : jsstring) (w w' : World) (err : Thrown) :
  analyzeMeeting env text w = (Throw err, w') ->
  exists msg, err = new_Error (js "Anthropic API error: " ++ msg).
Proof.
  unfold analyzeMeeting, try_catch.
  match goal with |- context [?m w] =>
    match type of (m w) with (Completion JsVal * World)%type =>
      destruct (m w) as [[v|e] w1] end end.
  - discriminate.
  - unfold bind, console, emit, throw. intros [= <- _]. eauto.
Qed.

(** An input whose trimmed length is below 10 is refused before any call. *)
Lemma analyzeMeeting_short (env : Env) (text : jsstring) (w : World) :
  (length (trim text) < 10)%nat ->
  analyzeMeeting env text w
  = (Throw (new_Error (js "Anthropic API error: " ++
       js "Invalid transcript: must be a non-empty string of at least 10 characters.")),
     {| db := db w;
        trace := trace w ++ [Console LogError (js "Anthropic API call failed:")] |}).
Proof.
  intros H. unfold analyzeMeeting, try_catch.
  apply Nat.ltb_lt in H. rewrite H, orb_true_r. reflexivity.
Qed.

(** An input of at least 10 code units after trimming reaches the model,
    whatever its length. *)
Lemma analyzeMeeting_calls (env : Env) (text : jsstring) (w w' : World)
  (c : Completion JsVal) :
  (10 <= length (trim text))%nat ->
  analyzeMeeting env text w = (c, w') ->
  exists evs, trace w' = trace w ++ ModelCall (build_prompt text) :: evs.
Proof.
  intros H. unfold analyzeMeeting.
  assert (js_eqb text [] || (length (trim text) <? 10)%nat = false) as ->.
  { apply orb_false_iff. split.
    - apply js_eqb_neq. intros ->. simpl in H. lia.
    - apply Nat.ltb_ge. exact H. }
  generalize (build_prompt text) as prompt. intros prompt.
  unfold try_catch, messages_create, bind, emit, console, throw, ret. cbn.
  destruct (model env prompt) as [err|content]; cbn.
  - intros [= <- <-]. cbn. rewrite <- app_assoc. eauto.
  - destruct (find_text_block content) as [tb|]; cbn.
    + match goal with |- context [extract_json ?r ?w1] =>
        destruct (extract_json r w1) as [[v|e] w2] eqn:E end.
      all: destruct (extract_json_emits _ _ _ _ E) as (_ & evs & Ht & _).
      all: intros [= <- <-]; cbn; rewrite Ht; cbn; rewrite <- ?app_assoc; cbn; eauto.
    + intros [= <- <-]. cbn. rewrite <- app_assoc. eauto.
Qed.

(** A transcript that passes the schema but is too short once trimmed stops
    the analyze handler at its own test. *)
Lemma analyze_handler_padded
  (env : Env) (w : World) (req : Request)
  (props : list (jsstring * JsVal)) (t : jsstring) :
  method req = Some (js "POST") ->
  body req = JObj props ->
  obj_get (js "transcript") props = Some (JStr t) ->
  (10 <= length t <= 5000)%nat ->
  (length (trim t) < 10)%nat ->
  analyze_handler env req w
  = (Normal {| status := 400; headers := [];
               response_body :=
                 ErrorBody
                   (js "Transcript must be a non-empty string with at least 10 characters.")
                   None |}, w).
Proof.
  intros Hm Hb Ht [Hlo Hhi] Htrim.
  unfold analyze_handler, try_catch, respond, ret.
  rewrite (method_is_not_same _ _ Hm), Hb.
  cbn [truthy typeof_object negb orb].
  rewrite (AnalyzeRequestSchema_string _ _ Ht).
  apply Nat.ltb_ge in Hlo, Hhi. rewrite Hlo, Hhi.
  cbn [transcript]. apply Nat.ltb_lt in Htrim. rewrite Htrim. reflexivity.
Qed.

(** The analyze handler, from a well-formed request to the call of the
    requester. *)
Lemma analyze_handler_valid
  (env : Env) (w : World) (req : Request)
  (props : list (jsstring * JsVal)) (t : jsstring) :
  method req = Some (js "POST") ->
  body req = JObj props ->
  obj_get (js "transcript") props = Some (JStr t) ->
  (10 <= length (trim t))%nat ->
  (length t <= 5000)%nat ->
  analyze_handler env req w = try_catch (analyze_valid env t) analyze_on_error w.
Proof.
  intros Hm Hb Ht Htrim Hhi.
  unfold analyze_handler.
  rewrite (method_is_not_same _ _ Hm), Hb.
  cbn [truthy typeof_object negb orb].
  rewrite (AnalyzeRequestSchema_string _ _ Ht).
  pose proof (trim_length t) as Hle.
  assert ((length t <? 10)%nat = false) as -> by (apply Nat.ltb_ge; lia).
  apply Nat.ltb_ge in Hhi, Htrim. rewrite Hhi.
  cbn [transcript]. rewrite Htrim, Hhi. reflexivity.
Qed.

(** ** The list of analyses *)

Section ListFacts.

#[local] Instance newer_first_total : Total newer_first.
Proof. intros x y. unfold newer_first. lia. Qed.

#[local] Instance newer_first_trans : Transitive newer_first.
Proof. intros x y z. unfold newer_first. lia. Qed.

(** The rows [findMany] returns: every analysis of the store once, with its
    transcript, the newest first. *)
Lemma findMany_rows (s : Store) :
  let rows := merge_sort newer_first (with_transcript s <$> map_to_list (analyses s)) in
  StronglySorted newer_first rows /\
  length rows = size (analyses s) /\
  NoDup (awt_id <$> rows) /\
  (forall id a,
     analyses s !! id = Some a <->
     {| awt_id := id; awt_analysis := a;
        awt_transcript := transcripts s !! a_transcriptId a |} ∈ rows) /\
  (references_hold s -> forall row, row ∈ rows -> is_Some (awt_transcript row)).
Proof.
  intros rows.
  assert (rows ≡ₚ with_transcript s <$> map_to_list (analyses s)) as Hperm
    by apply merge_sort_Permutation.
  split; [apply StronglySorted_merge_sort; apply _|].
  split; [rewrite Hperm, length_fmap; apply length_map_to_list|].
  split.
  { rewrite Hperm, <- list_fmap_compose. apply NoDup_fst_map_to_list. }
  split.
  - intros id a. rewrite Hperm, list_elem_of_fmap. split.
    + intros H. exists (id, a). split; [reflexivity|].
      apply elem_of_map_to_list. exact H.
    + intros ([id' a'] & E & H). apply elem_of_map_to_list in H.
      unfold with_transcript in E. cbn in E. injection E as -> -> _. exact H.
  - intros Href row. rewrite Hperm, list_elem_of_fmap.
    intros ([id a] & -> & H). apply elem_of_map_to_list in H.
    cbn. eapply Href. exact H.
Qed.

End ListFacts.

(** On the sample store the newer analysis comes first. *)
Example fetch_two_analyses :
  exists r1 r0,
    (fetch_handler quiet_env get_request two_analyses_world).1
    = Normal {| status := 200; headers := []; response_body := ListBody [r1; r0] |} /\
    awt_id r1 = js "a1" /\ awt_id r0 = js "a0".
Proof. eexists _, _. vm_compute. auto. Qed.

(** ** Failures of the store *)

Section StoreFailureFacts.

Lemma uncoded_has_no_code (err : Thrown) (lit : jsstring) :
  is_coded_object err = false -> strict_eq_str (err_get (js "code") err) lit = false.
Proof.
  destruct err as [message props | v]; cbn.
  - unfold obj_has. destruct (obj_get (js "code") props); [discriminate | reflexivity].
  - destruct v; try reflexivity. cbn. unfold obj_has.
    destruct (obj_get (js "code") props); [discriminate | reflexivity].
Qed.

(** The catch clause of the delete handler answers by the code of the
    error. *)
Lemma delete_on_error_status (err : Thrown) (w : World) :
  answered (delete_on_error err w) = Some (status_by_code err).
Proof.
  unfold delete_on_error, status_by_code.
  destruct (is_coded_object err) eqn:E.
  - cbv zeta.
    destruct (strict_eq_str _ (js "P2025")); [reflexivity|].
    destruct (strict_eq_str _ (js "P1001")); reflexivity.
  - rewrite !uncoded_has_no_code by exact E. reflexivity.
Qed.

(** What the requester returns has the two arrays and the string. *)
Lemma extract_json_returns (reply : jsstring) (w w' : World) (v : JsVal) :
  extract_json reply w = (Normal v, w') -> lacks_structure v = false.
Proof.
  unfold extract_json.
  destruct (match_braces (trim reply)) as [m|]; [|discriminate].
  unfold try_catch, bind, JSON_parse_or_throw.
  destruct (JSON_parse (strip_fences m)) as [parsed|]; [|discriminate].
  unfold ret. destruct (lacks_structure parsed) eqn:E; [discriminate|].
  intros [= <- _]. exact E.
Qed.

Lemma analyzeMeeting_returns (env : Env) (text : jsstring) (w w' : World) (v : JsVal) :
  analyzeMeeting env text w = (Normal v, w') -> lacks_structure v = false.
Proof.
  unfold analyzeMeeting, try_catch.
  destruct (js_eqb text [] || (length (trim text) <? 10)%nat); [discriminate|].
  unfold bind at 1, messages_create, bind at 1, emit.
  destruct (model env (build_prompt text)) as [err|content]; [discriminate|].
  unfold ret. destruct (find_text_block content) as [tb|]; [|discriminate].
  match goal with |- context [extract_json ?r ?w1] =>
    destruct (extract_json r w1) as [[v'|e] w2] eqn:E end; [|discriminate].
  intros [= <- _]. eapply extract_json_returns. exact E.
Qed.

Lemma lacks_structure_format (v : JsVal) :
  lacks_structure v = false ->
  unexpected_format v = false /\ typeof_string (get_prop (js "sentiment") v) = true.
Proof.
  unfold lacks_structure, unexpected_format. intros H.
  apply orb_false_iff in H as [H Hs]. rewrite H.
  apply negb_false_iff in Hs. auto.
Qed.

End StoreFailureFacts.

(** ** What the analyze handler writes *)

Section PersistFacts.

Lemma persist_analysis_db (env : Env) (t : jsstring) (analysis : JsVal) (w : World) :
  db (persist_analysis env t analysis w).2 = db w \/
  db (persist_analysis env t analysis w).2 = store_with env t analysis (db w).
Proof.
  unfold persist_analysis.
  destruct (unexpected_format analysis); [left; reflexivity|].
  unfold transcript_create, db_call.
  destruct (db_fault env _) as [err|]; [left; reflexivity|].
  cbv beta iota zeta delta [bind attempt emit get_db put_db throw ret console respond].
  cbn [db trace].
  destruct (transcripts (db w) !! next_transcript_id env);
    [left; reflexivity|].
  destruct (analyses (db w) !! next_analysis_id env);
    [left; reflexivity | right; reflexivity].
Qed.

Lemma try_catch_analyze_db (m : M Response) (w : World) :
  db (try_catch m analyze_on_error w).2 = db (m w).2.
Proof.
  unfold try_catch. destruct (m w) as [[resp|err] w']; reflexivity.
Qed.

(** A run of the analyze handler leaves the store as it is, or adds the
    rows made from a transcript and an analysis that the requester
    returned. *)
Lemma analyze_handler_db (env : Env) (req : Request) (w : World) :
  db (analyze_handler env req w).2 = db w \/
  exists t analysis,
    lacks_structure analysis = false /\
    db (analyze_handler env req w).2 = store_with env t analysis (db w).
Proof.
  unfold analyze_handler. rewrite try_catch_analyze_db.
  destruct (method_is_not req "POST"); [left; reflexivity|].
  destruct (negb (truthy (body req)) || negb (typeof_object (body req)));
    [left; reflexivity|].
  destruct (AnalyzeRequestSchema [] (body req)) as [data|issues];
    [|left; reflexivity].
  destruct (length (trim (transcript data)) <? 10)%nat; [left; reflexivity|].
  destruct (5000 <? length (transcript data))%nat; [left; reflexivity|].
  unfold analyze_valid, bind, attempt.
  destruct (analyzeMeeting env (transcript data) w) as [[analysis|err] w1] eqn:E;
    destruct (analyzeMeeting_emits _ _ _ _ _ E) as (Hdb & _).
  - destruct (persist_analysis_db env (transcript data) analysis w1) as [H|H];
      rewrite H, Hdb; [left; reflexivity|].
    right. exists (transcript data), analysis.
    split; [|reflexivity]. eapply analyzeMeeting_returns. exact E.
  - left. exact Hdb.
Qed.

End PersistFacts.

(** ** The schemas *)

Section SchemaFacts.

Lemma z_string_decides : decides (z_string []) typeof_string.
Proof.
  intros path v. destruct v; cbn; try (split; [reflexivity | discriminate]).
  reflexivity.
Qed.

Lemma z_nullable_decides {A} (schema : Schema A) (p : JsVal -> bool) :
  decides schema p -> decides (z_nullable schema) (fun v => is_null v || p v).
Proof.
  intros H path v. unfold z_nullable. specialize (H path v).
  destruct v; cbn; try reflexivity; destruct (schema path _); exact H.
Qed.

Lemma z_both_decides {A B C} (f : A -> B -> C) (a : SafeParse A) (b : SafeParse B)
  (pa pb : bool) :
  match a with ZSuccess _ => pa = true | ZFailure i => pa = false /\ i <> [] end ->
  match b with ZSuccess _ => pb = true | ZFailure i => pb = false /\ i <> [] end ->
  match z_both f a b with
  | ZSuccess _ => pa && pb = true
  | ZFailure i => pa && pb = false /\ i <> []
  end.
Proof.
  destruct a, b; cbn; intros Ha Hb.
  - rewrite Ha, Hb. reflexivity.
  - destruct Hb as [-> ?]. rewrite andb_false_r. auto.
  - destruct Ha as [-> ?]. auto.
  - destruct Ha as [-> ?]. split; [reflexivity|]. destruct issues; [congruence | discriminate].
Qed.

Lemma z_items_decides {A} (schema : Schema A) (p : JsVal -> bool) :
  decides schema p ->
  forall path items i,
    match z_items schema path i items with
    | ZSuccess _ => forallb p items = true
    | ZFailure issues => forallb p items = false /\ issues <> []
    end.
Proof.
  intros H path items. induction items as [|v items IH]; intros i; cbn.
  - reflexivity.
  - apply z_both_decides; [apply H | apply IH].
Qed.

Lemma z_array_decides {A} (schema : Schema A) (p : JsVal -> bool) :
  decides schema p -> decides (z_array schema) (array_of p).
Proof.
  intros H path v. unfold z_array.
  destruct v; cbn; try (split; [reflexivity | discriminate]).
  apply z_items_decides. exact H.
Qed.

Lemma ActionItemSchema_decides : decides ActionItemSchema is_action_item.
Proof.
  intros path v. unfold ActionItemSchema, z_object.
  destruct v; cbn [is_action_item]; try (split; [reflexivity | discriminate]).
  apply z_both_decides; [apply z_both_decides|]; unfold z_field.
  - apply z_string_decides.
  - apply z_string_decides.
  - pose proof (z_nullable_decides _ _ z_string_decides
                  (path ++ [Key (js "deadline")])
                  (default JUndef (obj_get (js "deadline") props))) as H.
    destruct (z_nullable _ _ _); destruct (default JUndef _); cbn in *; tauto.
Qed.

(** The analysis schema accepts exactly the values of the shape the spec
    describes. *)
Lemma AnalysisResultSchema_decides : decides AnalysisResultSchema is_analysis.
Proof.
  intros path v. unfold AnalysisResultSchema, z_object.
  destruct v; cbn [is_analysis]; try (split; [reflexivity | discriminate]).
  apply z_both_decides; [apply z_both_decides|]; unfold z_field.
  - apply (z_array_decides _ _ ActionItemSchema_decides).
  - apply (z_array_decides _ _ z_string_decides).
  - apply z_string_decides.
Qed.

(** The request schema accepts exactly the objects whose [transcript] is a
    string of 10 to 5000 code units. *)
Lemma AnalyzeRequestSchema_cases (v : JsVal) :
  match AnalyzeRequestSchema [] v with
  | ZSuccess data =>
      get_prop (js "transcript") v = JStr (transcript data) /\
      (10 <= length (transcript data) <= 5000)%nat
  | ZFailure issues => issues <> []
  end.
Proof.
  unfold AnalyzeRequestSchema, z_object, z_field, z_string.
  destruct v; try discriminate. cbn [get_prop].
  destruct (default JUndef (obj_get (js "transcript") props)); try discriminate.
  cbn -[Nat.ltb].
  destruct (length s <? 10)%nat eqn:E1, (5000 <? length s)%nat eqn:E2;
    cbn; try discriminate.
  apply Nat.ltb_ge in E1, E2. auto.
Qed.

End SchemaFacts.

(** No handler lets an error out: every run ends with a response. *)
Lemma handlers_always_answer (env : Env) (req : Request) (w : World) :
  (exists resp w', analyze_handler env req w = (Normal resp, w')) /\
  (exists resp w', fetch_handler env req w = (Normal resp, w')) /\
  (exists resp w', delete_handler env req w = (Normal resp, w')).
Proof.
  split; [|split].
  - unfold analyze_handler, try_catch.
    match goal with |- context [match ?m with _ => _ end] =>
      destruct m as [[resp|err] w1] end; [eauto|].
    unfold analyze_on_error, bind, console, emit, respond, ret. eauto.
  - unfold fetch_handler.
    destruct (method_is_not req "GET"); [unfold method_not_allowed, ret; eauto|].
    unfold try_catch.
    match goal with |- context [match ?m with _ => _ end] =>
      destruct m as [[resp|err] w1] end; [eauto|].
    unfold fetch_on_error, bind, console, emit, respond, ret. cbn.
    destruct (_ && _); eauto.
  - unfold delete_handler, try_catch.
    match goal with |- context [match ?m with _ => _ end] =>
      destruct m as [[resp|err] w1] end; [eauto|].
    unfold delete_on_error, bind, console, emit, respond, ret.
    destruct (is_coded_object err); cbn; [|eauto].
    destruct (strict_eq_str _ _); [eauto|].
    destruct (strict_eq_str _ _); eauto.
Qed.

(** ** Every analysis keeps its transcript *)

Section ReferenceFacts.

Lemma fetch_handler_db (env : Env) (req : Request) (w : World) :
  db (fetch_handler env req w).2 = db w.
Proof.
  unfold fetch_handler.
  destruct (method_is_not req "GET"); [reflexivity|].
  unfold analysis_findMany, db_call.
  cbv beta iota zeta delta [try_catch fetch_on_error bind emit get_db console throw].
  destruct (db_fault env OpFindMany) as [err|]; cbn.
  - destruct (_ && _); reflexivity.
  - destruct (_ =? _)%nat; reflexivity.
Qed.

Lemma delete_on_error_db (err : Thrown) (w : World) :
  db (delete_on_error err w).2 = db w.
Proof.
  unfold delete_on_error.
  destruct (is_coded_object err); [|reflexivity].
  cbv zeta. destruct (strict_eq_str _ _); [reflexivity|].
  destruct (strict_eq_str _ _); reflexivity.
Qed.

(** A run of the delete handler leaves the store as it is or removes one
    analysis; the transcripts stay. *)
Lemma delete_handler_db (env : Env) (req : Request) (w : World) :
  db (delete_handler env req w).2 = db w \/
  exists id,
    db (delete_handler env req w).2
    = {| transcripts := transcripts (db w); analyses := delete id (analyses (db w)) |}.
Proof.
  unfold delete_handler.
  destruct (method_is_not req "DELETE"); [left; reflexivity|].
  cbv zeta. destruct (_ || _); [left; reflexivity|].
  generalize (as_string (get_prop (js "id") (JObj (query req)))). intros id.
  unfold try_catch, delete_existing, analysis_findUnique, analysis_delete, db_call.
  cbv beta iota zeta delta [bind emit get_db put_db throw ret respond].
  destruct (db_fault env (OpFindUnique id)) as [err|].
  { left. rewrite delete_on_error_db. reflexivity. }
  cbn [db trace].
  destruct (analyses (db w) !! id) as [a|] eqn:Ea; [|left; reflexivity].
  destruct (db_fault env (OpDelete id)) as [err|].
  { left. rewrite delete_on_error_db. reflexivity. }
  cbn [db trace]. rewrite Ea. right. exists id. reflexivity.
Qed.

(** X22: the three handlers keep the store such that every analysis refers
    to a transcript that exists. *)
Lemma handlers_keep_references (env : Env) (req : Request) (w : World) :
  references_hold (db w) ->
  references_hold (db (analyze_handler env req w).2) /\
  references_hold (db (fetch_handler env req w).2) /\
  references_hold (db (delete_handler env req w).2).
Proof.
  intros Href. split; [|split].
  - destruct (analyze_handler_db env req w) as [-> | (t & analysis & _ & ->)];
      [exact Href|].
    intros id a. unfold store_with. cbn [analyses transcripts].
    destruct (decide (next_analysis_id env = id)) as [<-|Hne].
    + rewrite lookup_insert_eq. intros [= <-]. cbn.
      rewrite lookup_insert_eq. eauto.
    + rewrite lookup_insert_ne by exact Hne. intros Ha.
      destruct (decide (next_transcript_id env = a_transcriptId a)) as [<-|Hne'].
      * rewrite lookup_insert_eq. eauto.
      * rewrite lookup_insert_ne by exact Hne'. eapply Href. exact Ha.
  - rewrite fetch_handler_db. exact Href.
  - destruct (delete_handler_db env req w) as [-> | (id' & ->)]; [exact Href|].
    intros id a. cbn [analyses transcripts].
    destruct (decide (id' = id)) as [<-|Hne].
    + rewrite lookup_delete_eq. discriminate.
    + rewrite lookup_delete_ne by exact Hne. apply Href.
Qed.

End ReferenceFacts.

(** ** The runs of the requester *)

Section RequesterRunFacts.

(** The extraction, case by case. *)
Lemma extract_json_run (reply : jsstring) (w : World) :
  extract_json reply w
  = match match_braces (trim reply) with
    | None =>
        (Throw (new_Error (js "Claude returned invalid JSON format.")),
         logged w [Console LogWarn (js "Claude returned non-JSON response:")])
    | Some m =>
        match JSON_parse (strip_fences m) with
        | None =>
            (Throw (new_Error (js "Failed to parse Claude response as valid JSON.")),
             logged w [Console LogError (js "JSON parse error:");
                       Console LogError (js "Raw text from Claude:")])
        | Some v =>
            if lacks_structure v then
              (Throw (new_Error (js "Failed to parse Claude response as valid JSON.")),
               logged w [Console LogError (js "Parsed JSON missing expected structure:");
                         Console LogError (js "JSON parse error:");
                         Console LogError (js "Raw text from Claude:")])
            else (Normal v, w)
        end
    end.
Proof.
  unfold extract_json, logged.
  destruct (match_braces (trim reply)) as [m|]; [|reflexivity].
  unfold try_catch, bind, JSON_parse_or_throw.
  destruct (JSON_parse (strip_fences m)) as [v|]; cbn.
  - destruct (lacks_structure v); cbn; [|reflexivity].
    rewrite <- !app_assoc. reflexivity.
  - rewrite <- !app_assoc. reflexivity.
Qed.

(** The requester on an input that passes its test, case by case. *)
Lemma analyzeMeeting_run (env : Env) (text : jsstring) (w : World) :
  (10 <= length (trim text))%nat ->
  analyzeMeeting env text w
  = let w1 := logged w [ModelCall (build_prompt text)] in
    let failed := [Console LogError (js "Anthropic API call failed:")] in
    match model env (build_prompt text) with
    | ModelThrows e => (Throw (api_error (failure_message e)), logged w1 failed)
    | ModelResponse content =>
        match find_text_block content with
        | None =>
            (Throw (api_error (js "No text content returned from Anthropic API")),
             logged w1 failed)
        | Some textBlock =>
            match extract_json (block_text textBlock) w1 with
            | (Normal v, w2) => (Normal v, w2)
            | (Throw e, w2) => (Throw (api_error (failure_message e)), logged w2 failed)
            end
        end
    end.
Proof.
  intros H. unfold analyzeMeeting.
  assert (js_eqb text [] || (length (trim text) <? 10)%nat = false) as ->.
  { apply orb_false_iff. split.
    - apply js_eqb_neq. intros ->. simpl in H. lia.
    - apply Nat.ltb_ge. exact H. }
  generalize (build_prompt text) as prompt. intros prompt.
  unfold try_catch, messages_create, bind, emit, console, throw, ret, logged,
    api_error, failure_message. cbn.
  destruct (model env prompt) as [err|content]; cbn; [reflexivity|].
  destruct (find_text_block content) as [tb|]; cbn; [|reflexivity].
  destruct (extract_json (block_text tb) _) as [[v|e] w2]; reflexivity.
Qed.

(** The requester on a reply of the model. *)
Lemma analyzeMeeting_reply (env : Env) (text : jsstring) (w : World)
  (content : list ContentBlock) (tb : ContentBlock) :
  (10 <= length (trim text))%nat ->
  model env (build_prompt text) = ModelResponse content ->
  find_text_block content = Some tb ->
  analyzeMeeting env text w
  = match extract_json (block_text tb) (logged w [ModelCall (build_prompt text)]) with
    | (Normal v, w2) => (Normal v, w2)
    | (Throw e, w2) =>
        (Throw (api_error (failure_message e)),
         logged w2 [Console LogError (js "Anthropic API call failed:")])
    end.
Proof.
  intros H Hm Hf. rewrite (analyzeMeeting_run env text w H). cbv zeta.
  rewrite Hm, Hf. reflexivity.
Qed.

End RequesterRunFacts.

(** * The claims *)

(** C1: a POST request whose body holds a transcript string of fewer than 10
    or more than 5000 code units is answered with status 400 and the
    flattened field errors of the schema (one message under the field
    [transcript]); the run calls no model and writes nothing to the store. *)
Theorem analyze_rejects_out_of_bounds
  (env : Env) (w : World) (req : Request)
  (props : list (jsstring * JsVal)) (t : jsstring) :
  method req = Some (js "POST") ->
  body req = JObj props ->
  obj_get (js "transcript") props = Some (JStr t) ->
  (length t < 10 \/ 5000 < length t)%nat ->
  analyze_handler env req w
  = (Normal
       {| status := 400; headers := [];
          response_body :=
            ErrorBody (js "Invalid request body structure.")
              (Some (DetailsFlattened
                 {| formErrors := [];
                    fieldErrors :=
                      [(Key (js "transcript"),
                        [SchemaMessage
                           (if (length t <? 10)%nat
                            then js "Transcript must be at least 10 characters long"
                            else js "Transcript cannot exceed 5000 characters")])] |})) |},
     w) /\
  no_model_call w w /\ no_db_write w w.
Proof.
  intros Hm Hb Ht Hlen.
  split; [|auto using no_model_call_same, no_db_write_same].
  unfold analyze_handler, try_catch, respond, ret.
  rewrite (method_is_not_same _ _ Hm), Hb.
  cbn [truthy typeof_object negb orb].
  rewrite (AnalyzeRequestSchema_string _ _ Ht).
  destruct (length t <? 10)%nat eqn:E1; [reflexivity|].
  destruct (5000 <? length t)%nat eqn:E2; [reflexivity|].
  apply Nat.ltb_ge in E1, E2. lia.
Qed.

(** The same at a sample input. *)
Lemma analyze_rejects_out_of_bounds_witness :
  analyze_handler quiet_env short_request empty_world
  = (Normal
       {| status := 400; headers := [];
          response_body :=
            ErrorBody (js "Invalid request body structure.")
              (Some (DetailsFlattened
                 {| formErrors := [];
                    fieldErrors :=
                      [(Key (js "transcript"),
                        [SchemaMessage
                           (js "Transcript must be at least 10 characters long")])] |})) |},
     empty_world) /\
  no_model_call empty_world empty_world /\ no_db_write empty_world empty_world.
Proof.
  apply (analyze_rejects_out_of_bounds quiet_env empty_world short_request
           [(js "transcript", JStr (js "too short"))] (js "too short")).
  - reflexivity.
  - reflexivity.
  - reflexivity.
  - left. vm_compute. lia.
Defined.

(** C2 fails as stated: this reply is one JSON object and nothing else, and
    the object has the asked shape (two arrays and a string sentiment), but
    the removal of code fences reaches into it, turns the key [sentiment```]
    into a second [sentiment] whose value is a number, and the extraction
    fails. *)
Lemma extract_json_fence_in_key :
  JSON_parse fence_in_key_reply
  = Some (JObj [(js "action_items", JArr []); (js "decisions", JArr []);
                (js "sentiment", JStr (js "calm"));
                (js "sentiment```", JNum (js "1"))]) /\
  lacks_structure
    (JObj [(js "action_items", JArr []); (js "decisions", JArr []);
           (js "sentiment", JStr (js "calm"));
           (js "sentiment```", JNum (js "1"))]) = false /\
  extract_json fence_in_key_reply empty_world
  = (Throw (new_Error (js "Failed to parse Claude response as valid JSON.")),
     {| db := db empty_world;
        trace := [Console LogError (js "Parsed JSON missing expected structure:");
                  Console LogError (js "JSON parse error:");
                  Console LogError (js "Raw text from Claude:")] |}).
Proof.
  split; [vm_compute; reflexivity|].
  split; vm_compute; reflexivity.
Qed.

(** C2, as the code has it, for a transcript that reaches the model and a
    reply that has a text block.  The match runs from the first [{] to the
    last [}] of the trimmed reply, so what stands around it (prose, fence
    markers) is left out.  From the match every [```json] and then every
    [```] is removed, from left to right and without overlap, and the rest
    is trimmed: what goes to the parser holds no [```], and is the match
    itself when the match holds none.  [analyzeMeeting] returns the value
    parsed from that text when it has the asked shape; so it does for a
    reply that is one JSON value in braces with no code fence inside it,
    after a text without [{] and before a text without [}].  On a reply
    without a [{] that has a [}] behind it [analyzeMeeting] fails with the
    error [Anthropic API error: Claude returned invalid JSON format.] *)
Theorem extract_json_cases
  (env : Env) (text : jsstring) (w : World)
  (content : list ContentBlock) (tb : ContentBlock) :
  (10 <= length (trim text))%nat ->
  model env (build_prompt text) = ModelResponse content ->
  find_text_block content = Some tb ->
  let reply := block_text tb in
  let called := logged w [ModelCall (build_prompt text)] in
  (forall pre mid post,
     has_char open_brace pre = false ->
     has_char close_brace post = false ->
     match_braces (pre ++ open_brace :: mid ++ close_brace :: post)
     = Some (open_brace :: mid ++ [close_brace])) /\
  (forall pat,
     pat = fence_json \/ pat = fence ->
     (forall s, occurs pat s = false -> remove_all pat s = s) /\
     (forall a b,
        occurs pat (a ++ removelast pat) = false ->
        remove_all pat (a ++ pat ++ b) = a ++ remove_all pat b)) /\
  (forall m,
     strip_fences m = trim (remove_all fence (remove_all fence_json m)) /\
     occurs fence (strip_fences m) = false) /\
  (forall m v,
     match_braces (trim reply) = Some m ->
     JSON_parse (strip_fences m) = Some v ->
     lacks_structure v = false ->
     analyzeMeeting env text w = (Normal v, called)) /\
  (forall pre mid post v,
     reply = pre ++ open_brace :: mid ++ close_brace :: post ->
     has_char open_brace pre = false ->
     has_char close_brace post = false ->
     occurs fence (open_brace :: mid ++ [close_brace]) = false ->
     JSON_parse (open_brace :: mid ++ [close_brace]) = Some v ->
     lacks_structure v = false ->
     analyzeMeeting env text w = (Normal v, called)) /\
  (has_brace_pair reply = false ->
   analyzeMeeting env text w
   = (Throw (new_Error (js "Anthropic API error: Claude returned invalid JSON format.")),
      logged w [ModelCall (build_prompt text);
                Console LogWarn (js "Claude returned non-JSON response:");
                Console LogError (js "Anthropic API call failed:")])).
Proof.
  intros Hlen Hmodel Hfind reply called.
  assert (forall m v,
            match_braces (trim reply) = Some m ->
            JSON_parse (strip_fences m) = Some v ->
            lacks_structure v = false ->
            analyzeMeeting env text w = (Normal v, called)) as Hparsed.
  { intros m v Hm Hv Hshape.
    rewrite (analyzeMeeting_reply env text w content tb Hlen Hmodel Hfind).
    rewrite extract_json_run. fold reply. rewrite Hm, Hv, Hshape. reflexivity. }
  split; [|split; [|split; [|split; [|split]]]].
  - intros pre mid post. apply match_braces_greedy.
  - intros pat Hpat. split.
    + intros s. apply remove_all_absent.
    + intros a b. apply remove_all_first.
      destruct Hpat as [-> | ->]; discriminate.
  - intros m. split; [reflexivity | apply strip_fences_none].
  - exact Hparsed.
  - intros pre mid post v Hreply Hpre Hpost Hfence Hv Hshape.
    apply (Hparsed (open_brace :: mid ++ [close_brace]) v).
    + rewrite Hreply. rewrite trim_around by reflexivity.
      apply match_braces_greedy.
      * destruct (trim_start_suffix pre) as [l Hl].
        rewrite Hl, has_char_app in Hpre. apply orb_false_iff in Hpre. tauto.
      * destruct (trim_end_prefix post) as [r Hr].
        rewrite Hr, has_char_app in Hpost. apply orb_false_iff in Hpost. tauto.
    + rewrite strip_fences_clean by exact Hfence. exact Hv.
    + exact Hshape.
  - intros Hnone.
    rewrite (analyzeMeeting_reply env text w content tb Hlen Hmodel Hfind).
    rewrite extract_json_run. fold reply.
    apply has_brace_pair_trim, match_braces_none in Hnone. rewrite Hnone.
    assert (api_error (failure_message
                         (new_Error (js "Claude returned invalid JSON format.")))
            = new_Error (js "Anthropic API error: Claude returned invalid JSON format."))
      as -> by (vm_compute; reflexivity).
    unfold logged. cbn [db trace]. rewrite <- !app_assoc. reflexivity.
Qed.

(** The same at three replies: an object between fence markers and prose,
    an object with the fence markers inside its braces, and prose only. *)
Lemma extract_json_cases_witness :
  analyzeMeeting (reply_env fenced_reply) sample_transcript empty_world
  = (Normal fenced_value,
     logged empty_world [ModelCall (build_prompt sample_transcript)]) /\
  analyzeMeeting (reply_env fence_inside_reply) sample_transcript empty_world
  = (Normal fence_inside_value,
     logged empty_world [ModelCall (build_prompt sample_transcript)]) /\
  analyzeMeeting (reply_env (js "I cannot analyze this } transcript {."))
    sample_transcript empty_world
  = (Throw (new_Error (js "Anthropic API error: Claude returned invalid JSON format.")),
     logged empty_world
       [ModelCall (build_prompt sample_transcript);
        Console LogWarn (js "Claude returned non-JSON response:");
        Console LogError (js "Anthropic API call failed:")]).
Proof.
  split; [|split].
  - destruct (extract_json_cases (reply_env fenced_reply) sample_transcript empty_world
                [{| block_type := js "text"; block_text := fenced_reply |}]
                {| block_type := js "text"; block_text := fenced_reply |})
      as (_ & _ & _ & _ & Hobj & _).
    + vm_compute. lia.
    + reflexivity.
    + reflexivity.
    + apply (Hobj (js "```json" ++ newline) fenced_object
               (newline ++ js "```" ++ newline ++ js "Let me know if you need more.")
               fenced_value).
      * vm_compute. reflexivity.
      * vm_compute. reflexivity.
      * vm_compute. reflexivity.
      * vm_compute. reflexivity.
      * vm_compute. reflexivity.
      * vm_compute. reflexivity.
  - destruct (extract_json_cases (reply_env fence_inside_reply) sample_transcript
                empty_world
                [{| block_type := js "text"; block_text := fence_inside_reply |}]
                {| block_type := js "text"; block_text := fence_inside_reply |})
      as (_ & _ & _ & Hparsed & _).
    + vm_compute. lia.
    + reflexivity.
    + reflexivity.
    + apply (Hparsed fence_inside_reply fence_inside_value).
      * vm_compute. reflexivity.
      * vm_compute. reflexivity.
      * vm_compute. reflexivity.
  - destruct (extract_json_cases (reply_env (js "I cannot analyze this } transcript {."))
                sample_transcript empty_world
                [{| block_type := js "text";
                    block_text := js "I cannot analyze this } transcript {." |}]
                {| block_type := js "text";
                   block_text := js "I cannot analyze this } transcript {." |})
      as (_ & _ & _ & _ & _ & Hnone).
    + vm_compute. lia.
    + reflexivity.
    + reflexivity.
    + apply Hnone. vm_compute. reflexivity.
Defined.

(** C3: for a POST request with a transcript of 10 to 5000 code units, when
    the run calls the model and [analyzeMeeting] fails, the handler answers
    with status 500, the error [AI analysis failed.] and the message of the
    failure as details, and writes nothing to the store. *)
Theorem analyze_model_failure
  (env : Env) (w : World) (req : Request)
  (props : list (jsstring * JsVal)) (t : jsstring) (err : Thrown) (w1 : World) :
  method req = Some (js "POST") ->
  body req = JObj props ->
  obj_get (js "transcript") props = Some (JStr t) ->
  (10 <= length t <= 5000)%nat ->
  existsb is_model_call (new_events w (analyze_handler env req w).2) = true ->
  analyzeMeeting env t w = (Throw err, w1) ->
  exists msg w',
    err = new_Error msg /\
    analyze_handler env req w
    = (Normal {| status := 500; headers := [];
                 response_body :=
                   ErrorBody (js "AI analysis failed.")
                     (Some (DetailsValue (JStr msg))) |}, w') /\
    no_db_write w w'.
Proof.
  intros Hm Hb Ht [Hlo Hhi] Hcall Hfail.
  destruct (Nat.lt_ge_cases (length (trim t)) 10) as [Hshort|Htrim].
  { rewrite (analyze_handler_padded env w req props t) in Hcall by auto. cbn in Hcall. rewrite new_events_same in Hcall.
    discriminate. }
  destruct (analyzeMeeting_throws _ _ _ _ _ Hfail) as (msg & ->).
  destruct (analyzeMeeting_emits env t _ _ _ Hfail) as (Hdb & evs & Htr & Hev).
  eexists _, _. split; [reflexivity|].
  rewrite (analyze_handler_valid env w req props t) by assumption.
  unfold analyze_valid, try_catch, bind, attempt. rewrite Hfail.
  cbn. split; [reflexivity|].
  split; [exact Hdb|].
  erewrite new_events_app.
  2:{ cbn. rewrite Htr, <- app_assoc. reflexivity. }
  rewrite forallb_app, Hev. reflexivity.
Qed.

(** The same at a sample input. *)
Lemma analyze_model_failure_witness :
  exists msg w',
    new_Error (js "Anthropic API error: 529 overloaded") = new_Error msg /\
    analyze_handler failing_env meeting_request empty_world
    = (Normal {| status := 500; headers := [];
                 response_body :=
                   ErrorBody (js "AI analysis failed.")
                     (Some (DetailsValue (JStr msg))) |}, w') /\
    no_db_write empty_world w'.
Proof.
  eapply (analyze_model_failure failing_env empty_world meeting_request
            [(js "transcript", JStr (js "Alice: let's ship by Friday. Bob: agreed."))]
            (js "Alice: let's ship by Friday. Bob: agreed.")).
  - reflexivity.
  - reflexivity.
  - reflexivity.
  - vm_compute. lia.
  - vm_compute. reflexivity.
  - vm_compute. reflexivity.
Defined.

(** C4 fails as stated: on an input of 5001 code units [analyzeMeeting] does
    not fail; it calls the model and returns the analysis. *)
Lemma analyzeMeeting_accepts_long_input :
  (5000 < length long_text)%nat /\
  analyzeMeeting replying_env long_text empty_world
  = (Normal (JObj [(js "action_items", JArr []);
                   (js "decisions", JArr [JStr (js "ship")]);
                   (js "sentiment", JStr (js "calm"))]),
     {| db := db empty_world; trace := [ModelCall (build_prompt long_text)] |}).
Proof.
  split.
  - apply Nat.ltb_lt. vm_compute. reflexivity.
  - vm_compute. reflexivity.
Qed.

(** C4, as the code has it: an input of fewer than 10 code units, or of
    fewer than 10 once trimmed, makes [analyzeMeeting] fail with the error
    [Invalid transcript: ...] before any call of the model; the function has
    no upper bound, and every input that keeps 10 code units after trimming
    is sent to the model whatever its length. *)
Theorem analyzeMeeting_defensive (env : Env) (text : jsstring) (w : World) :
  ((length text < 10 \/ length (trim text) < 10)%nat ->
   exists w',
     analyzeMeeting env text w
     = (Throw (new_Error (js "Anthropic API error: " ++
          js "Invalid transcript: must be a non-empty string of at least 10 characters.")),
        w') /\
     no_model_call w w' /\ no_db_write w w') /\
  ((10 <= length (trim text))%nat ->
   In (ModelCall (build_prompt text)) (new_events w (analyzeMeeting env text w).2)).
Proof.
  split.
  - intros H.
    assert (length (trim text) < 10)%nat as Hshort
      by (pose proof (trim_length text); lia).
    eexists. split; [apply analyzeMeeting_short; exact Hshort|].
    unfold no_model_call, no_db_write.
    erewrite new_events_app by reflexivity. cbn. auto.
  - intros H.
    destruct (analyzeMeeting env text w) as [c w'] eqn:E.
    destruct (analyzeMeeting_calls _ _ _ _ _ H E) as (evs & Ht).
    cbn. erewrite new_events_app by exact Ht. left. reflexivity.
Qed.

(** The same at a sample input. *)
Lemma analyzeMeeting_defensive_witness :
  (exists w',
     analyzeMeeting quiet_env (js "    hello     ") empty_world
     = (Throw (new_Error (js "Anthropic API error: " ++
          js "Invalid transcript: must be a non-empty string of at least 10 characters.")),
        w') /\
     no_model_call empty_world w' /\ no_db_write empty_world w') /\
  In (ModelCall (build_prompt long_text))
     (new_events empty_world (analyzeMeeting quiet_env long_text empty_world).2).
Proof.
  split.
  - apply (proj1 (analyzeMeeting_defensive quiet_env (js "    hello     ") empty_world)).
    right. vm_compute. lia.
  - apply (proj2 (analyzeMeeting_defensive quiet_env long_text empty_world)).
    vm_compute. apply Nat.leb_le. vm_compute. reflexivity.
Defined.

(** C5 fails as stated: when the database cannot be reached (code P1001)
    while the analyze handler saves, the answer is 500 and not the 503 the
    code stands for. *)
Lemma analyze_connection_failure_is_500 :
  status_by_code (prisma_error "P1001" "Can't reach database server") = 503 /\
  analyze_handler unreachable_db_env meeting_request empty_world
  = (Normal {| status := 500; headers := [];
               response_body :=
                 ErrorBody (js "Failed to save analysis results to database.")
                   (Some (DetailsValue (JStr (js "Can't reach database server")))) |},
     {| db := db empty_world;
        trace :=
          [ModelCall (build_prompt (js "Alice: let's ship by Friday. Bob: agreed."));
           DbCall (OpCreate (js "Alice: let's ship by Friday. Bob: agreed.")
                     (JArr []) (JArr [JStr (js "ship")]) (JStr (js "calm")));
           Console LogError (js "Database save failed:")] |}).
Proof. split; vm_compute; reflexivity. Qed.

(** C5, as the code has it: a failure of the store is answered by the delete
    handler with 404 for the code P2025, 503 for P1001 and 500 otherwise; by
    the list handler with 503 for P1001 and 500 otherwise; by the analyze
    handler with 500 whatever the code. *)
Theorem store_failure_status (env : Env) (w : World) (err : Thrown) :
  (forall req id,
     method req = Some (js "DELETE") ->
     get_prop (js "id") (JObj (query req)) = JStr id ->
     forallb is_white_space id = false ->
     db_fault env (OpFindUnique id) = Some err \/
     (db_fault env (OpFindUnique id) = None /\ is_Some (analyses (db w) !! id) /\
      db_fault env (OpDelete id) = Some err) ->
     answered (delete_handler env req w) = Some (status_by_code err)) /\
  (forall req,
     method req = Some (js "GET") ->
     db_fault env OpFindMany = Some err ->
     answered (fetch_handler env req w)
     = Some (if strict_eq_str (err_get (js "code") err) (js "P1001") then 503 else 500)) /\
  (forall req props t analysis w1,
     method req = Some (js "POST") ->
     body req = JObj props ->
     obj_get (js "transcript") props = Some (JStr t) ->
     (10 <= length (trim t))%nat ->
     (length t <= 5000)%nat ->
     analyzeMeeting env t w = (Normal analysis, w1) ->
     db_fault env
       (OpCreate t (get_prop (js "action_items") analysis)
          (get_prop (js "decisions") analysis)
          (nullish_or (get_prop (js "sentiment") analysis) (JStr (js "Unknown"))))
     = Some err ->
     answered (analyze_handler env req w) = Some 500).
Proof.
  split; [|split].
  - intros req id Hm Hid Hws Hfault.
    rewrite (delete_handler_valid env w req id Hm Hid Hws). unfold try_catch.
    assert (exists w', delete_existing env id w = (Throw err, w')) as [w' ->].
    { unfold delete_existing, bind, analysis_findUnique, analysis_delete, db_call,
        emit, get_db, throw, ret.
      destruct Hfault as [-> | (-> & [a Ha] & ->)]; cbn; [eauto|].
      rewrite Ha. cbn. eauto. }
    apply delete_on_error_status.
  - intros req Hm Hfault.
    unfold fetch_handler. rewrite (method_is_not_same _ _ Hm).
    unfold analysis_findMany, db_call. rewrite Hfault.
    cbv beta iota zeta delta [try_catch fetch_on_error bind emit console throw].
    destruct (is_coded_object err) eqn:E; cbn [andb].
    + destruct (strict_eq_str _ (js "P1001")); reflexivity.
    + rewrite uncoded_has_no_code by exact E. reflexivity.
  - intros req props t analysis w1 Hm Hb Ht Htrim Hhi Hrun Hfault.
    rewrite (analyze_handler_valid env w req props t) by assumption.
    unfold try_catch, analyze_valid, bind at 1, attempt at 1. rewrite Hrun.
    unfold persist_analysis.
    destruct (lacks_structure_format _ (analyzeMeeting_returns _ _ _ _ _ Hrun)) as [-> _].
    unfold transcript_create, db_call. rewrite Hfault.
    reflexivity.
Qed.

(** The same at a sample input. *)
Lemma store_failure_status_witness :
  answered (delete_handler unreachable_db_env (delete_request "a0") one_analysis_world)
  = Some 503 /\
  answered (fetch_handler unreachable_db_env get_request one_analysis_world)
  = Some 503 /\
  answered (analyze_handler unreachable_db_env meeting_request empty_world)
  = Some 500.
Proof.
  split; [|split].
  - apply (proj1 (store_failure_status unreachable_db_env one_analysis_world
                    (prisma_error "P1001" "Can't reach database server"))
             (delete_request "a0") (js "a0")).
    + reflexivity.
    + reflexivity.
    + reflexivity.
    + left. reflexivity.
  - apply (proj1 (proj2 (store_failure_status unreachable_db_env one_analysis_world
                           (prisma_error "P1001" "Can't reach database server")))
             get_request).
    + reflexivity.
    + reflexivity.
  - eapply (proj2 (proj2 (store_failure_status unreachable_db_env empty_world
                            (prisma_error "P1001" "Can't reach database server")))
              meeting_request
              [(js "transcript", JStr (js "Alice: let's ship by Friday. Bob: agreed."))]
              (js "Alice: let's ship by Friday. Bob: agreed.")).
    + reflexivity.
    + reflexivity.
    + reflexivity.
    + vm_compute. lia.
    + vm_compute. lia.
    + vm_compute. reflexivity.
    + reflexivity.
Defined.

(** C6: a DELETE request without an id, or with an id of white space only,
    is answered with 400; with an id that no analysis has, the answer is
    never 200, and it is 404 with the not-found message when the store
    answers the lookup; with the id of an analysis, when the store carries
    out both operations, that analysis is removed and the answer is 200 with
    the confirmation. *)
Theorem delete_handler_cases (env : Env) (w : World) (req : Request) :
  method req = Some (js "DELETE") ->
  ((get_prop (js "id") (JObj (query req)) = JUndef \/
    exists id, get_prop (js "id") (JObj (query req)) = JStr id /\
               forallb is_white_space id = true) ->
   delete_handler env req w
   = (Normal {| status := 400; headers := [];
                response_body := ErrorBody (js "Invalid or missing analysis ID.") None |},
      w)) /\
  (forall id,
     get_prop (js "id") (JObj (query req)) = JStr id ->
     forallb is_white_space id = false ->
     (analyses (db w) !! id = None ->
      answered (delete_handler env req w) <> Some 200 /\
      (db_fault env (OpFindUnique id) = None ->
       delete_handler env req w
       = (Normal {| status := 404; headers := [];
                    response_body :=
                      ErrorBody
                        (js "Analysis not found. It may have already been deleted.")
                        None |},
          {| db := db w; trace := trace w ++ [DbCall (OpFindUnique id)] |}))) /\
     (is_Some (analyses (db w) !! id) ->
      db_fault env (OpFindUnique id) = None ->
      db_fault env (OpDelete id) = None ->
      delete_handler env req w
      = (Normal {| status := 200; headers := [];
                   response_body := MessageBody (js "Analysis deleted successfully.") |},
         {| db := {| transcripts := transcripts (db w);
                     analyses := delete id (analyses (db w)) |};
            trace := trace w ++ [DbCall (OpFindUnique id); DbCall (OpDelete id)] |}))).
Proof.
  intros Hm. split.
  - intros Hid. unfold delete_handler, try_catch.
    rewrite (method_is_not_same _ _ Hm).
    destruct Hid as [-> | (id & -> & Hws)]; [reflexivity|].
    apply trim_all in Hws. cbn [as_string typeof_string negb]. rewrite Hws.
    rewrite orb_true_r. reflexivity.
  - intros id Hid Hws.
    rewrite (delete_handler_valid env w req id Hm Hid Hws).
    unfold try_catch, delete_existing, delete_on_error, bind, analysis_findUnique,
      analysis_delete, db_call, emit, get_db, put_db, respond, ret, throw, console,
      answered.
    split.
    + intros Hnone. split.
      * cbn. destruct (db_fault env (OpFindUnique id)) as [err|]; cbn.
        -- destruct (is_coded_object err);
             [destruct (strict_eq_str _ (js "P2025"));
                [|destruct (strict_eq_str _ (js "P1001"))]|];
             cbn; discriminate.
        -- rewrite Hnone. cbn. discriminate.
      * intros ->. cbn. rewrite Hnone. reflexivity.
    + intros [a Ha] -> ->. cbn. rewrite Ha. cbn. rewrite Ha. cbn.
      rewrite <- app_assoc. reflexivity.
Qed.

(** The same at a sample input. *)
Lemma delete_handler_cases_witness :
  delete_handler quiet_env (delete_request "   ") one_analysis_world
  = (Normal {| status := 400; headers := [];
               response_body := ErrorBody (js "Invalid or missing analysis ID.") None |},
     one_analysis_world) /\
  delete_handler quiet_env (delete_request "zz") one_analysis_world
  = (Normal {| status := 404; headers := [];
               response_body :=
                 ErrorBody (js "Analysis not found. It may have already been deleted.")
                   None |},
     {| db := db one_analysis_world;
        trace := trace one_analysis_world ++ [DbCall (OpFindUnique (js "zz"))] |}) /\
  delete_handler quiet_env (delete_request "a0") one_analysis_world
  = (Normal {| status := 200; headers := [];
               response_body := MessageBody (js "Analysis deleted successfully.") |},
     {| db := {| transcripts := transcripts (db one_analysis_world);
                 analyses := delete (js "a0") (analyses (db one_analysis_world)) |};
        trace := trace one_analysis_world ++
                 [DbCall (OpFindUnique (js "a0")); DbCall (OpDelete (js "a0"))] |}).
Proof.
  split; [|split].
  - apply (proj1 (delete_handler_cases quiet_env one_analysis_world
                    (delete_request "   ") eq_refl)).
    right. exists (js "   "). split; reflexivity.
  - apply (proj2 (delete_handler_cases quiet_env one_analysis_world
                    (delete_request "zz") eq_refl) (js "zz")).
    + reflexivity.
    + reflexivity.
    + vm_compute. reflexivity.
    + reflexivity.
  - apply (proj2 (delete_handler_cases quiet_env one_analysis_world
                    (delete_request "a0") eq_refl) (js "a0")).
    + reflexivity.
    + reflexivity.
    + vm_compute. eauto.
    + reflexivity.
    + reflexivity.
Defined.

(** C7: a GET request to a store that answers: with at least one analysis
    the answer is 200 and lists every analysis once, each with its
    transcript, ordered by non-increasing creation time; with no analysis
    the answer is 404, not an empty list. *)
Theorem fetch_handler_cases (env : Env) (w : World) (req : Request) :
  method req = Some (js "GET") ->
  db_fault env OpFindMany = None ->
  ((exists id a, analyses (db w) !! id = Some a) ->
   exists rows,
     fetch_handler env req w
     = (Normal {| status := 200; headers := []; response_body := ListBody rows |},
        {| db := db w; trace := trace w ++ [DbCall OpFindMany] |}) /\
     StronglySorted newer_first rows /\
     length rows = size (analyses (db w)) /\
     NoDup (awt_id <$> rows) /\
     (forall id a,
        analyses (db w) !! id = Some a <->
        {| awt_id := id; awt_analysis := a;
           awt_transcript := transcripts (db w) !! a_transcriptId a |} ∈ rows) /\
     (references_hold (db w) -> forall row, row ∈ rows -> is_Some (awt_transcript row))) /\
  (analyses (db w) = ∅ ->
   fetch_handler env req w
   = (Normal {| status := 404; headers := [];
                response_body := ErrorBody (js "No analyses found.") None |},
      {| db := db w; trace := trace w ++ [DbCall OpFindMany] |})).
Proof.
  intros Hm Hok.
  unfold fetch_handler. rewrite (method_is_not_same _ _ Hm).
  unfold analysis_findMany, db_call. rewrite Hok.
  cbv beta iota zeta delta [try_catch bind emit get_db respond ret].
  cbn [db trace].
  destruct (findMany_rows (db w)) as (Hsorted & Hlen & Hnodup & Hall & Href).
  split.
  - intros (id & a & Ha).
    exists (merge_sort newer_first (with_transcript (db w) <$> map_to_list (analyses (db w)))).
    split; [|auto 6].
    assert (size (analyses (db w)) <> 0)%nat as Hsize.
    { apply (map_size_ne_0_lookup_2 _ id). rewrite Ha. eauto. }
    rewrite <- Hlen in Hsize. apply Nat.eqb_neq in Hsize. rewrite Hsize. reflexivity.
  - intros Hempty. rewrite Hempty. reflexivity.
Qed.

(** The same at a sample input. *)
Lemma fetch_handler_cases_witness :
  (exists rows,
     fetch_handler quiet_env get_request two_analyses_world
     = (Normal {| status := 200; headers := []; response_body := ListBody rows |},
        {| db := db two_analyses_world;
           trace := trace two_analyses_world ++ [DbCall OpFindMany] |}) /\
     StronglySorted newer_first rows /\
     length rows = size (analyses (db two_analyses_world)) /\
     NoDup (awt_id <$> rows) /\
     (forall id a,
        analyses (db two_analyses_world) !! id = Some a <->
        {| awt_id := id; awt_analysis := a;
           awt_transcript := transcripts (db two_analyses_world) !! a_transcriptId a |}
        ∈ rows) /\
     (references_hold (db two_analyses_world) ->
      forall row, row ∈ rows -> is_Some (awt_transcript row))) /\
  fetch_handler quiet_env get_request empty_world
  = (Normal {| status := 404; headers := [];
               response_body := ErrorBody (js "No analyses found.") None |},
     {| db := db empty_world; trace := trace empty_world ++ [DbCall OpFindMany] |}).
Proof.
  split.
  - apply (proj1 (fetch_handler_cases quiet_env two_analyses_world get_request
                    eq_refl eq_refl)).
    exists (js "a0"), (sample_analysis 3%N). vm_compute. reflexivity.
  - apply (proj2 (fetch_handler_cases quiet_env empty_world get_request
                    eq_refl eq_refl)).
    reflexivity.
Defined.

(** C8: on every value [safeParseAnalysis] ends normally: on a value of the
    analysis shape it returns the typed result and leaves the world as it
    is, on any other value it returns null after one line on the error log;
    the request schema yields, on every value, the typed request or a
    failure with at least one issue. *)
Theorem schema_validator_never_throws (data : JsVal) (w : World) :
  ((is_analysis data = true /\
    exists result, safeParseAnalysis data w = (Normal (Some result), w)) \/
   (is_analysis data = false /\
    safeParseAnalysis data w
    = (Normal None,
       {| db := db w;
          trace := trace w ++ [Console LogError (js "Invalid analysis structure:")] |}))) /\
  ((exists request,
      AnalyzeRequestSchema [] data = ZSuccess request /\
      get_prop (js "transcript") data = JStr (transcript request) /\
      (10 <= length (transcript request) <= 5000)%nat) \/
   (exists issues, AnalyzeRequestSchema [] data = ZFailure issues /\ issues <> [])).
Proof.
  split.
  - unfold safeParseAnalysis.
    pose proof (AnalysisResultSchema_decides [] data) as H.
    destruct (AnalysisResultSchema [] data) as [result|issues].
    + left. eauto.
    + right. destruct H as [H _]. split; [exact H | reflexivity].
  - pose proof (AnalyzeRequestSchema_cases data) as H.
    destruct (AnalyzeRequestSchema [] data) as [request|issues].
    + left. exists request. tauto.
    + right. eauto.
Qed.

(** C9: a POST request whose transcript has between 10 and 5000 code units
    but fewer than 10 once trimmed is answered with status 400; nothing is
    sent to the model and nothing is written. *)
Theorem analyze_rejects_padded
  (env : Env) (w : World) (req : Request)
  (props : list (jsstring * JsVal)) (t : jsstring) :
  method req = Some (js "POST") ->
  body req = JObj props ->
  obj_get (js "transcript") props = Some (JStr t) ->
  (10 <= length t <= 5000)%nat ->
  (length (trim t) < 10)%nat ->
  analyze_handler env req w
  = (Normal {| status := 400; headers := [];
               response_body :=
                 ErrorBody
                   (js "Transcript must be a non-empty string with at least 10 characters.")
                   None |}, w) /\
  no_model_call w w /\ no_db_write w w.
Proof.
  intros Hm Hb Ht Hlen Htrim.
  split; [|auto using no_model_call_same, no_db_write_same].
  apply (analyze_handler_padded env w req props t); assumption.
Qed.

(** The same at a sample input. *)
Lemma analyze_rejects_padded_witness :
  (10 <= length (js "    hello     ") <= 5000)%nat /\
  (length (trim (js "    hello     ")) < 10)%nat /\
  analyze_handler quiet_env padded_request empty_world
  = (Normal {| status := 400; headers := [];
               response_body :=
                 ErrorBody
                   (js "Transcript must be a non-empty string with at least 10 characters.")
                   None |}, empty_world).
Proof.
  assert (10 <= length (js "    hello     ") <= 5000)%nat as H1
    by (vm_compute; lia).
  assert (length (trim (js "    hello     ")) < 10)%nat as H2
    by (vm_compute; lia).
  split; [exact H1 | split; [exact H2|]].
  apply (analyze_rejects_padded quiet_env empty_world padded_request
           [(js "transcript", JStr (js "    hello     "))] (js "    hello     "));
    [reflexivity | reflexivity | reflexivity | exact H1 | exact H2].
Defined.

(** C10: every analysis row that a run of the analyze handler adds to the
    store has a string as sentiment; the handler's own test of the analysis
    accepts an analysis whose sentiment is no string; and for an analysis
    that passes this test with a sentiment that is null or absent, the row
    is created with the sentiment [Unknown]. *)
Theorem persisted_sentiment_is_string (env : Env) (w : World) :
  (forall req id a,
     analyses (db w) !! id = None ->
     analyses (db (analyze_handler env req w).2) !! id = Some a ->
     typeof_string (a_sentiment a) = true) /\
  (exists analysis,
     unexpected_format analysis = false /\
     typeof_string (get_prop (js "sentiment") analysis) = false) /\
  (forall t analysis,
     unexpected_format analysis = false ->
     get_prop (js "sentiment") analysis = JUndef \/
     get_prop (js "sentiment") analysis = JNull ->
     db_fault env
       (OpCreate t (get_prop (js "action_items") analysis)
          (get_prop (js "decisions") analysis) (JStr (js "Unknown"))) = None ->
     transcripts (db w) !! next_transcript_id env = None ->
     analyses (db w) !! next_analysis_id env = None ->
     exists saved w',
       persist_analysis env t analysis w
       = (Normal {| status := 200; headers := []; response_body := SavedBody saved |},
          w') /\
       a_sentiment (saved_analysis saved) = JStr (js "Unknown") /\
       analyses (db w') !! saved_analysis_id saved = Some (saved_analysis saved)).
Proof.
  split; [|split].
  - intros req id a Hnew Hrow.
    destruct (analyze_handler_db env req w) as [H | (t & analysis & Hshape & H)];
      rewrite H in Hrow; [congruence|].
    unfold store_with in Hrow. cbn [analyses] in Hrow.
    destruct (decide (next_analysis_id env = id)) as [<-|Hne].
    + rewrite lookup_insert_eq in Hrow. injection Hrow as <-.
      apply lacks_structure_format in Hshape as [_ Hs].
      cbn [new_analysis_row a_sentiment].
      destruct (get_prop (js "sentiment") analysis); try discriminate. reflexivity.
    + rewrite lookup_insert_ne in Hrow by exact Hne. congruence.
  - exists no_sentiment_analysis. split; reflexivity.
  - intros t analysis Hformat Hsent Hfault Htid Haid.
    assert (nullish_or (get_prop (js "sentiment") analysis) (JStr (js "Unknown"))
            = JStr (js "Unknown")) as Hs
      by (destruct Hsent as [-> | ->]; reflexivity).
    unfold persist_analysis. rewrite Hformat, Hs.
    unfold transcript_create, db_call. rewrite Hfault.
    cbv beta iota zeta delta [bind attempt emit get_db put_db throw ret console respond].
    cbn [db trace]. rewrite Htid, Haid.
    eexists _, _. split; [reflexivity|]. cbn.
    split; [reflexivity|]. apply lookup_insert_eq.
Qed.

(** The same at a sample input. *)
Lemma persisted_sentiment_is_string_witness :
  typeof_string (a_sentiment (new_analysis_row replying_env
      (JObj [(js "action_items", JArr []); (js "decisions", JArr [JStr (js "ship")]);
             (js "sentiment", JStr (js "calm"))]))) = true /\
  exists saved w',
    persist_analysis quiet_env (js "Alice: hello, Bob.") no_sentiment_analysis empty_world
    = (Normal {| status := 200; headers := []; response_body := SavedBody saved |}, w') /\
    a_sentiment (saved_analysis saved) = JStr (js "Unknown") /\
    analyses (db w') !! saved_analysis_id saved = Some (saved_analysis saved).
Proof.
  split.
  - apply (proj1 (persisted_sentiment_is_string replying_env empty_world)
             meeting_request (js "a1")).
    + reflexivity.
    + vm_compute. reflexivity.
  - apply (proj2 (proj2 (persisted_sentiment_is_string quiet_env empty_world))
             (js "Alice: hello, Bob.") no_sentiment_analysis).
    + reflexivity.
    + left. reflexivity.
    + reflexivity.
    + reflexivity.
    + reflexivity.
Defined.

(** * Further properties *)

(** ** The routes through the analyze handler *)

Section AnalyzeRouteFacts.

Lemma js_literals_differ (a b : string) :
  js_eqb (js a) (js b) = false -> js a <> js b.
Proof. apply js_eqb_neq. Qed.

(** A POST request goes to the requester with the accepted transcript, or
    is answered 400 at once with one of three texts. *)
Lemma analyze_handler_route (env : Env) (req : Request) (w : World) :
  method req = Some (js "POST") ->
  match accepted_transcript (body req) with
  | Some t =>
      analyze_handler env req w = try_catch (analyze_valid env t) analyze_on_error w
  | None =>
      exists e d,
        analyze_handler env req w
        = (Normal {| status := 400; headers := []; response_body := ErrorBody e d |}, w) /\
        (e = js "Invalid or empty request body. Expected JSON." \/
         e = js "Invalid request body structure." \/
         e = js "Transcript must be a non-empty string with at least 10 characters.")
  end.
Proof.
  intros Hm. unfold accepted_transcript.
  destruct (body req) as [| |b|n|s|items|props] eqn:Hb.
  1-6: unfold analyze_handler, try_catch; rewrite (method_is_not_same _ _ Hm), Hb.
  1-5: cbn; rewrite ?orb_true_r; eexists _, _; split; [reflexivity | auto].
  { cbn. eexists _, _; split; [reflexivity | auto]. }
  destruct (obj_get (js "transcript") props) as [v|] eqn:Ht.
  2:{ unfold analyze_handler, try_catch. rewrite (method_is_not_same _ _ Hm), Hb.
      unfold AnalyzeRequestSchema, z_object, z_field. rewrite Ht. cbn.
      eexists _, _; split; [reflexivity | auto]. }
  destruct v as [| |b|n|t|items|props'].
  1-4,6-7: unfold analyze_handler, try_catch; rewrite (method_is_not_same _ _ Hm), Hb;
    unfold AnalyzeRequestSchema, z_object, z_field; rewrite Ht; cbn;
    eexists _, _; (split; [reflexivity | auto]).
  destruct (10 <=? length (trim t))%nat eqn:E1; cbn [andb].
  - destruct (length t <=? 5000)%nat eqn:E2.
    + apply Nat.leb_le in E1, E2.
      apply (analyze_handler_valid env w req props t); assumption.
    + apply Nat.leb_gt in E2.
      unfold analyze_handler, try_catch. rewrite (method_is_not_same _ _ Hm), Hb.
      cbn [truthy typeof_object negb orb].
      rewrite (AnalyzeRequestSchema_string _ _ Ht).
      apply Nat.ltb_lt in E2 as E2'. rewrite E2'.
      destruct (length t <? 10)%nat; cbn; eexists _, _; (split; [reflexivity | auto]).
  - apply Nat.leb_gt in E1.
    unfold analyze_handler, try_catch. rewrite (method_is_not_same _ _ Hm), Hb.
    cbn [truthy typeof_object negb orb].
    rewrite (AnalyzeRequestSchema_string _ _ Ht).
    destruct (length t <? 10)%nat; [cbn; eexists _, _; (split; [reflexivity | auto])|].
    destruct (5000 <? length t)%nat; [cbn; eexists _, _; (split; [reflexivity | auto])|].
    cbn [transcript]. apply Nat.ltb_lt in E1. rewrite E1.
    cbn. eexists _, _; (split; [reflexivity | auto]).
Qed.

(** Saving ends in one of two ways. *)
Lemma persist_analysis_cases (env : Env) (t : jsstring) (analysis : JsVal) (w : World) :
  unexpected_format analysis = false ->
  (db_fault env (create_op t analysis) = None /\
   transcripts (db w) !! next_transcript_id env = None /\
   analyses (db w) !! next_analysis_id env = None /\
   persist_analysis env t analysis w
   = (Normal {| status := 200; headers := [];
                response_body := SavedBody (saved_record env t analysis) |},
      {| db := store_with env t analysis (db w);
         trace := trace w ++
                  [DbCall (create_op t analysis);
                   Console LogInfo (js "Successfully saved transcript and analysis:")] |})) \/
  (exists d,
     persist_analysis env t analysis w
     = (Normal {| status := 500; headers := [];
                  response_body :=
                    ErrorBody (js "Failed to save analysis results to database.")
                      (Some d) |},
        {| db := db w;
           trace := trace w ++
                    [DbCall (create_op t analysis);
                     Console LogError (js "Database save failed:")] |})).
Proof.
  intros Hformat. unfold persist_analysis. rewrite Hformat.
  unfold transcript_create, db_call. fold (create_op t analysis).
  destruct (db_fault env (create_op t analysis)) as [err|] eqn:Hfault.
  { right. exists (DetailsValue (message_or err "Database error")).
    cbv beta iota zeta delta [bind attempt emit throw ret console respond].
    cbn [db trace]. rewrite <- app_assoc. reflexivity. }
  cbv beta iota zeta delta [bind attempt emit get_db put_db throw ret console respond].
  cbn [db trace].
  destruct (transcripts (db w) !! next_transcript_id env) eqn:Htid.
  { right. eexists (DetailsValue _). cbn [db trace]. rewrite <- app_assoc. reflexivity. }
  destruct (analyses (db w) !! next_analysis_id env) eqn:Haid.
  { right. eexists (DetailsValue _). cbn [db trace]. rewrite <- app_assoc. reflexivity. }
  left. repeat split. cbn [db trace]. rewrite <- app_assoc. reflexivity.
Qed.

(** Behind its checks the analyze handler ends in one of three ways. *)
Lemma analyze_valid_cases (env : Env) (t : jsstring) (w : World) :
  (exists msg w1,
     analyzeMeeting env t w = (Throw (new_Error msg), w1) /\
     analyze_valid env t w
     = (Normal {| status := 500; headers := [];
                  response_body :=
                    ErrorBody (js "AI analysis failed.")
                      (Some (DetailsValue (JStr msg))) |},
        {| db := db w;
           trace := trace w1 ++ [Console LogError (js "AI analysis failed:")] |})) \/
  (exists analysis w1,
     analyzeMeeting env t w = (Normal analysis, w1) /\
     lacks_structure analysis = false /\ db w1 = db w /\
     analyze_valid env t w = persist_analysis env t analysis w1).
Proof.
  unfold analyze_valid, bind, attempt.
  destruct (analyzeMeeting env t w) as [[analysis|err] w1] eqn:E.
  - right. exists analysis, w1.
    destruct (analyzeMeeting_emits env t _ _ _ E) as (Hdb & _).
    split; [reflexivity|]. split; [eapply analyzeMeeting_returns; exact E|].
    split; [exact Hdb | reflexivity].
  - left. destruct (analyzeMeeting_throws _ _ _ _ _ E) as (m & ->).
    destruct (analyzeMeeting_emits env t _ _ _ E) as (Hdb & _).
    eexists _, w1. split; [reflexivity|].
    unfold console, emit, respond, ret. cbn. rewrite Hdb. reflexivity.
Qed.

End AnalyzeRouteFacts.

Section AnalyzeOutcomeFacts.

Lemma method_is_not_false (req : Request) (m : string) :
  method_is_not req m = false -> method req = Some (js m).
Proof.
  unfold method_is_not. destruct (method req) as [m'|]; [|discriminate].
  intros H. apply negb_false_iff, js_eqb_eq in H. congruence.
Qed.

Lemma try_catch_normal {A} (m : M A) (h : Thrown -> M A) (w w' : World) (a : A) :
  m w = (Normal a, w') -> try_catch m h w = (Normal a, w').
Proof. intros H. unfold try_catch. rewrite H. reflexivity. Qed.

(** For an accepted transcript the run ends with 200 and the two new rows,
    or with 500 and the store as it was. *)
Lemma analyze_valid_outcome (env : Env) (t : jsstring) (w : World) :
  (exists analysis w',
     lacks_structure analysis = false /\
     analyze_valid env t w
     = (Normal {| status := 200; headers := [];
                  response_body := SavedBody (saved_record env t analysis) |}, w') /\
     db w' = store_with env t analysis (db w)) \/
  (exists e d w',
     analyze_valid env t w
     = (Normal {| status := 500; headers := [];
                  response_body := ErrorBody e (Some d) |}, w') /\
     db w' = db w /\
     (e = js "AI analysis failed." \/
      e = js "Failed to save analysis results to database.")).
Proof.
  destruct (analyze_valid_cases env t w)
    as [(msg & w1 & _ & ->) | (analysis & w1 & _ & Hshape & Hdb & ->)].
  - right. eexists _, _, _. split; [reflexivity|]. split; [reflexivity | auto].
  - destruct (lacks_structure_format _ Hshape) as [Hformat _].
    destruct (persist_analysis_cases env t analysis w1 Hformat)
      as [(_ & _ & _ & ->) | (d & ->)].
    + left. eexists _, _. split; [exact Hshape|]. split; [reflexivity|].
      cbn. rewrite Hdb. reflexivity.
    + right. eexists _, _, _. split; [reflexivity|]. split; [exact Hdb | auto].
Qed.

End AnalyzeOutcomeFacts.

(** X1: each handler answers a request of another method with 405 and an
    Allow header that names its own method, before it looks at the body or
    the query and without a call of the model or the store. *)
Theorem handlers_reject_other_methods (env : Env) (req : Request) (w : World) :
  (method req <> Some (js "POST") ->
   analyze_handler env req w
   = (Normal {| status := 405; headers := [(js "Allow", [js "POST"])];
                response_body :=
                  ErrorBody (js "Method not allowed. Use POST instead.") None |}, w)) /\
  (method req <> Some (js "GET") ->
   fetch_handler env req w
   = (Normal {| status := 405; headers := [(js "Allow", [js "GET"])];
                response_body :=
                  ErrorBody (js "Method not allowed. Only GET is supported.") None |}, w)) /\
  (method req <> Some (js "DELETE") ->
   delete_handler env req w
   = (Normal {| status := 405; headers := [(js "Allow", [js "DELETE"])];
                response_body :=
                  ErrorBody (js "Method not allowed. Use DELETE instead.") None |}, w)).
Proof.
  assert (forall m, method req <> Some (js m) -> method_is_not req m = true) as H.
  { intros m Hne. destruct (method_is_not req m) eqn:E; [reflexivity|].
    apply method_is_not_false in E. contradiction. }
  split; [|split]; intros Hne; apply H in Hne.
  - unfold analyze_handler, try_catch. rewrite Hne. reflexivity.
  - unfold fetch_handler. rewrite Hne. reflexivity.
  - unfold delete_handler, try_catch. rewrite Hne. reflexivity.
Qed.

(** The same at a sample input. *)
Lemma handlers_reject_other_methods_witness :
  answered (analyze_handler replying_env put_request one_analysis_world) = Some 405 /\
  answered (fetch_handler replying_env put_request one_analysis_world) = Some 405 /\
  answered (delete_handler replying_env put_request one_analysis_world) = Some 405.
Proof.
  destruct (handlers_reject_other_methods replying_env put_request one_analysis_world)
    as (Ha & Hf & Hd).
  assert (forall m, js_eqb (js "PUT") (js m) = false ->
                    method put_request <> Some (js m)) as Hne.
  { intros m E [= H]. apply js_eqb_eq in H. congruence. }
  rewrite Ha, Hf, Hd by (apply Hne; reflexivity).
  repeat split.
Defined.

(** X2: the answer of the analyze handler to a POST request is 400, with the
    world untouched, exactly when the body is not an object whose transcript
    is a string of at most 5000 code units with at least 10 left after
    trimming; otherwise it is 200, with the saved record and the two new rows
    in the store, or 500 with the store as it was. *)
Theorem analyze_handler_outcomes (env : Env) (req : Request) (w : World) :
  method req = Some (js "POST") ->
  match accepted_transcript (body req) with
  | None =>
      answered (analyze_handler env req w) = Some 400 /\
      (analyze_handler env req w).2 = w
  | Some t =>
      (answered (analyze_handler env req w) = Some 200 /\
       exists analysis,
         lacks_structure analysis = false /\
         ((analyze_handler env req w).1
          = Normal {| status := 200; headers := [];
                      response_body := SavedBody (saved_record env t analysis) |}) /\
         db (analyze_handler env req w).2 = store_with env t analysis (db w)) \/
      (answered (analyze_handler env req w) = Some 500 /\
       db (analyze_handler env req w).2 = db w)
  end.
Proof.
  intros Hm. pose proof (analyze_handler_route env req w Hm) as Hroute.
  destruct (accepted_transcript (body req)) as [t|].
  - rewrite Hroute.
    destruct (analyze_valid_outcome env t w)
      as [(analysis & w' & Hshape & Hrun & Hdb) | (e & d & w' & Hrun & Hdb & _)];
      rewrite (try_catch_normal _ _ _ _ _ Hrun).
    + left. split; [reflexivity|]. exists analysis. auto.
    + right. split; [reflexivity | exact Hdb].
  - destruct Hroute as (e & d & -> & _). split; reflexivity.
Qed.

(** The same at sample inputs. *)
Lemma analyze_handler_outcomes_witness :
  (answered (analyze_handler replying_env padded_request empty_world) = Some 400 /\
   (analyze_handler replying_env padded_request empty_world).2 = empty_world) /\
  ((answered (analyze_handler replying_env meeting_request empty_world) = Some 200 /\
    exists analysis,
      lacks_structure analysis = false /\
      ((analyze_handler replying_env meeting_request empty_world).1
       = Normal {| status := 200; headers := [];
                   response_body :=
                     SavedBody
                       (saved_record replying_env
                          (js "Alice: let's ship by Friday. Bob: agreed.") analysis) |}) /\
      db (analyze_handler replying_env meeting_request empty_world).2
      = store_with replying_env (js "Alice: let's ship by Friday. Bob: agreed.")
          analysis (db empty_world)) \/
   (answered (analyze_handler replying_env meeting_request empty_world) = Some 500 /\
    db (analyze_handler replying_env meeting_request empty_world).2 = db empty_world)).
Proof.
  split.
  - exact (analyze_handler_outcomes replying_env padded_request empty_world eq_refl).
  - exact (analyze_handler_outcomes replying_env meeting_request empty_world eq_refl).
Defined.

(** X3: when the requester returns an analysis for an accepted transcript,
    the store takes the operation and the two identifiers are free, the
    analyze handler answers 200 with the created record: the transcript row
    holds the text as it was sent, the analysis row the two arrays and the
    sentiment of the model (the default [Unknown] does not come into play),
    and the trace ends with the create and the success line. *)
Theorem analyze_handler_success
  (env : Env) (w w1 : World) (req : Request)
  (props : list (jsstring * JsVal)) (t : jsstring) (analysis : JsVal) :
  method req = Some (js "POST") ->
  body req = JObj props ->
  obj_get (js "transcript") props = Some (JStr t) ->
  (10 <= length (trim t))%nat ->
  (length t <= 5000)%nat ->
  analyzeMeeting env t w = (Normal analysis, w1) ->
  db_fault env (create_op t analysis) = None ->
  transcripts (db w) !! next_transcript_id env = None ->
  analyses (db w) !! next_analysis_id env = None ->
  analyze_handler env req w
  = (Normal {| status := 200; headers := [];
               response_body := SavedBody (saved_record env t analysis) |},
     {| db := store_with env t analysis (db w);
        trace := trace w1 ++
                 [DbCall (create_op t analysis);
                  Console LogInfo (js "Successfully saved transcript and analysis:")] |}) /\
  t_text (saved_transcript (saved_record env t analysis)) = t /\
  a_sentiment (saved_analysis (saved_record env t analysis))
  = get_prop (js "sentiment") analysis /\
  typeof_string (get_prop (js "sentiment") analysis) = true /\
  isArray (a_actionItems (saved_analysis (saved_record env t analysis))) = true /\
  isArray (a_decisions (saved_analysis (saved_record env t analysis))) = true.
Proof.
  intros Hm Hb Ht Htrim Hhi Hrun Hfault Htid Haid.
  pose proof (analyzeMeeting_returns _ _ _ _ _ Hrun) as Hshape.
  destruct (analyzeMeeting_emits env t _ _ _ Hrun) as (Hdb & _).
  destruct (lacks_structure_format _ Hshape) as [Hformat Hsent].
  split.
  - rewrite (analyze_handler_valid env w req props t) by assumption.
    apply try_catch_normal.
    unfold analyze_valid, bind, attempt. rewrite Hrun.
    destruct (persist_analysis_cases env t analysis w1 Hformat)
      as [(_ & _ & _ & ->) | (d & Hfail)].
    + rewrite Hdb. reflexivity.
    + exfalso. revert Hfail. unfold persist_analysis. rewrite Hformat.
      unfold transcript_create, db_call. fold (create_op t analysis). rewrite Hfault.
      cbv beta iota zeta delta [bind attempt emit get_db put_db throw ret console respond].
      cbn [db trace]. rewrite Hdb, Htid, Haid. discriminate.
  - split; [reflexivity|]. split.
    + cbn. destruct (get_prop (js "sentiment") analysis); try discriminate. reflexivity.
    + split; [exact Hsent|].
      unfold unexpected_format in Hformat.
      apply orb_false_iff in Hformat as [Hformat Hd].
      apply orb_false_iff in Hformat as [_ Ha].
      apply negb_false_iff in Ha, Hd. cbn. auto.
Qed.

(** The same at a sample input. *)
Lemma analyze_handler_success_witness :
  analyze_handler replying_env meeting_request empty_world
  = (Normal {| status := 200; headers := [];
               response_body :=
                 SavedBody
                   (saved_record replying_env
                      (js "Alice: let's ship by Friday. Bob: agreed.")
                      (JObj [(js "action_items", JArr []);
                             (js "decisions", JArr [JStr (js "ship")]);
                             (js "sentiment", JStr (js "calm"))])) |},
     {| db := store_with replying_env (js "Alice: let's ship by Friday. Bob: agreed.")
                (JObj [(js "action_items", JArr []);
                       (js "decisions", JArr [JStr (js "ship")]);
                       (js "sentiment", JStr (js "calm"))]) (db empty_world);
        trace :=
          trace {| db := db empty_world;
                   trace := [ModelCall (build_prompt
                               (js "Alice: let's ship by Friday. Bob: agreed."))] |} ++
          [DbCall (create_op (js "Alice: let's ship by Friday. Bob: agreed.")
                     (JObj [(js "action_items", JArr []);
                            (js "decisions", JArr [JStr (js "ship")]);
                            (js "sentiment", JStr (js "calm"))]));
           Console LogInfo (js "Successfully saved transcript and analysis:")] |}).
Proof.
  apply (analyze_handler_success replying_env empty_world
           {| db := db empty_world;
              trace := [ModelCall (build_prompt
                          (js "Alice: let's ship by Friday. Bob: agreed."))] |}
           meeting_request
           [(js "transcript", JStr (js "Alice: let's ship by Friday. Bob: agreed."))]
           (js "Alice: let's ship by Friday. Bob: agreed.")
           (JObj [(js "action_items", JArr []);
                  (js "decisions", JArr [JStr (js "ship")]);
                  (js "sentiment", JStr (js "calm"))])).
  - reflexivity.
  - reflexivity.
  - reflexivity.
  - vm_compute. lia.
  - vm_compute. lia.
  - vm_compute. reflexivity.
  - reflexivity.
  - reflexivity.
  - reflexivity.
Defined.

(** X4: three answers written in the analyze handler are never given: the
    length message of its second test (the schema has refused such a
    transcript before), the format message of its own test of the analysis
    (the requester returns only what passes it) and the message of its outer
    catch clause (nothing is thrown out of the body). *)
Theorem analyze_handler_never_answers (env : Env) (req : Request) (w : World) :
  error_text (analyze_handler env req w)
  <> Some (js "Transcript too long. Maximum allowed is 5000 characters.") /\
  error_text (analyze_handler env req w)
  <> Some (js "AI returned unexpected data format.") /\
  error_text (analyze_handler env req w)
  <> Some (js "Unexpected server error.").
Proof.
  assert (exists e,
            (error_text (analyze_handler env req w) = None \/
             error_text (analyze_handler env req w) = Some (js e)) /\
            js_eqb (js e) (js "Transcript too long. Maximum allowed is 5000 characters.")
            = false /\
            js_eqb (js e) (js "AI returned unexpected data format.") = false /\
            js_eqb (js e) (js "Unexpected server error.") = false) as (e & He & H1 & H2 & H3).
  { destruct (method_is_not req "POST") eqn:Hm.
    { exists "Method not allowed. Use POST instead."%string.
      split; [right|repeat split].
      unfold analyze_handler, try_catch. rewrite Hm. reflexivity. }
    apply method_is_not_false in Hm.
    pose proof (analyze_handler_route env req w Hm) as Hroute.
    destruct (accepted_transcript (body req)) as [t|].
    - rewrite Hroute.
      destruct (analyze_valid_outcome env t w)
        as [(analysis & w' & _ & Hrun & _) | (e & d & w' & Hrun & _ & [-> | ->])];
        rewrite (try_catch_normal _ _ _ _ _ Hrun).
      + exists ""%string. split; [left; reflexivity | repeat split].
      + exists "AI analysis failed."%string. split; [right; reflexivity | repeat split].
      + exists "Failed to save analysis results to database."%string.
        split; [right; reflexivity | repeat split].
    - destruct Hroute as (e & d & -> & [-> | [-> | ->]]).
      + exists "Invalid or empty request body. Expected JSON."%string.
        split; [right; reflexivity | repeat split].
      + exists "Invalid request body structure."%string.
        split; [right; reflexivity | repeat split].
      + exists "Transcript must be a non-empty string with at least 10 characters."%string.
        split; [right; reflexivity | repeat split]. }
  apply js_eqb_neq in H1, H2, H3.
  destruct He as [-> | ->]; repeat split; congruence.
Qed.

(** X5: what the analyze handler answers to a POST request without a usable
    transcript: a body that is missing or no object gets 400 with the text
    about JSON and no details; an array gets the structure message with one
    form error; an object whose [transcript] is absent or no string gets the
    structure message with one type error under the field [transcript].  In
    each case the world stays as it is. *)
Theorem analyze_handler_bad_body (env : Env) (req : Request) (w : World) :
  method req = Some (js "POST") ->
  (truthy (body req) = false \/ typeof_object (body req) = false ->
   analyze_handler env req w
   = (Normal {| status := 400; headers := [];
                response_body :=
                  ErrorBody (js "Invalid or empty request body. Expected JSON.") None |},
      w)) /\
  (forall items,
     body req = JArr items ->
     analyze_handler env req w
     = (Normal {| status := 400; headers := [];
                  response_body :=
                    ErrorBody (js "Invalid request body structure.")
                      (Some (DetailsFlattened
                         {| formErrors := [DefaultMessage invalid_type];
                            fieldErrors := [] |})) |}, w)) /\
  (forall props,
     body req = JObj props ->
     typeof_string (default JUndef (obj_get (js "transcript") props)) = false ->
     analyze_handler env req w
     = (Normal {| status := 400; headers := [];
                  response_body :=
                    ErrorBody (js "Invalid request body structure.")
                      (Some (DetailsFlattened
                         {| formErrors := [];
                            fieldErrors :=
                              [(Key (js "transcript"), [DefaultMessage invalid_type])] |})) |},
        w)).
Proof.
  intros Hm. split; [|split].
  - intros H. unfold analyze_handler, try_catch.
    rewrite (method_is_not_same _ _ Hm).
    destruct H as [-> | ->]; rewrite ?orb_true_r; reflexivity.
  - intros items Hb. unfold analyze_handler, try_catch.
    rewrite (method_is_not_same _ _ Hm), Hb. reflexivity.
  - intros props Hb Hns. unfold analyze_handler, try_catch.
    rewrite (method_is_not_same _ _ Hm), Hb.
    unfold AnalyzeRequestSchema, z_object, z_field, z_string.
    destruct (default JUndef (obj_get (js "transcript") props));
      try discriminate; reflexivity.
Qed.

(** The same at sample inputs. *)
Lemma analyze_handler_bad_body_witness :
  answered (analyze_handler quiet_env text_body_request empty_world) = Some 400 /\
  answered (analyze_handler quiet_env array_body_request empty_world) = Some 400 /\
  answered (analyze_handler quiet_env no_transcript_request empty_world) = Some 400.
Proof.
  split; [|split].
  - rewrite (proj1 (analyze_handler_bad_body quiet_env text_body_request empty_world
                      eq_refl)); [reflexivity | right; reflexivity].
  - rewrite (proj1 (proj2 (analyze_handler_bad_body quiet_env array_body_request
                             empty_world eq_refl)) [JStr (js "a transcript")] eq_refl).
    reflexivity.
  - rewrite (proj2 (proj2 (analyze_handler_bad_body quiet_env no_transcript_request
                             empty_world eq_refl))
               [(js "text", JStr (js "Alice: let's ship by Friday."))] eq_refl eq_refl).
    reflexivity.
Defined.

(** X6: [analyzeMeeting] fails only with an [Error] whose message is the
    prefix [Anthropic API error: ] followed by one of four fixed texts or by
    the message of what the SDK threw (a fixed text when that is no
    [Error]).  The text [Parsed JSON missing expected structure.] is not
    among them: whenever the JSON of the reply lacks one of the two arrays
    or the sentiment string, the failure is reported as
    [Failed to parse Claude response as valid JSON.], behind the console
    line of the structure test. *)
Theorem analyzeMeeting_failure_messages
  (env : Env) (text : jsstring) (w : World) :
  (forall w' err,
     analyzeMeeting env text w = (Throw err, w') ->
     exists m,
       err = api_error m /\
       (m = js "Invalid transcript: must be a non-empty string of at least 10 characters." \/
        m = js "No text content returned from Anthropic API" \/
        m = js "Claude returned invalid JSON format." \/
        m = js "Failed to parse Claude response as valid JSON." \/
        exists e,
          model env (build_prompt text) = ModelThrows e /\
          m = match e with
              | ThrownError message _ => message
              | ThrownValue _ => js "Unknown error communicating with Anthropic API."
              end)) /\
  (forall content tb m v,
     (10 <= length (trim text))%nat ->
     model env (build_prompt text) = ModelResponse content ->
     find_text_block content = Some tb ->
     match_braces (trim (block_text tb)) = Some m ->
     JSON_parse (strip_fences m) = Some v ->
     isArray (get_prop (js "action_items") v) = false \/
     isArray (get_prop (js "decisions") v) = false \/
     typeof_string (get_prop (js "sentiment") v) = false ->
     analyzeMeeting env text w
     = (Throw (api_error (js "Failed to parse Claude response as valid JSON.")),
        logged w [ModelCall (build_prompt text);
                  Console LogError (js "Parsed JSON missing expected structure:");
                  Console LogError (js "JSON parse error:");
                  Console LogError (js "Raw text from Claude:");
                  Console LogError (js "Anthropic API call failed:")])).
Proof.
  split.
  - intros w' err.
    destruct (Nat.lt_ge_cases (length (trim text)) 10) as [Hshort|Hlong].
    { rewrite (analyzeMeeting_short env text w Hshort). intros [= <- _]. eauto. }
    rewrite (analyzeMeeting_run env text w Hlong). cbv zeta.
    destruct (model env (build_prompt text)) as [e|content].
    { intros [= <- _]. eexists. split; [reflexivity|].
      do 4 right. exists e. split; [reflexivity|]. destruct e; reflexivity. }
    destruct (find_text_block content) as [tb|]; [|intros [= <- _]; eauto 6].
    rewrite extract_json_run.
    destruct (match_braces _) as [m|]; [|intros [= <- _]; eauto 6].
    destruct (JSON_parse _) as [v|]; [|intros [= <- _]; eauto 7].
    destruct (lacks_structure v); [intros [= <- _]; eauto 7 | discriminate].
  - intros content tb m v Hlen Hmodel Hfind Hm Hv Hshape.
    assert (lacks_structure v = true) as Hlacks.
    { unfold lacks_structure.
      destruct Hshape as [-> | [-> | ->]]; cbn [negb]; rewrite ?orb_true_r; reflexivity. }
    rewrite (analyzeMeeting_run env text w Hlen). cbv zeta.
    rewrite Hmodel, Hfind, extract_json_run, Hm, Hv, Hlacks.
    unfold logged. cbn [db trace]. rewrite <- !app_assoc. reflexivity.
Qed.

(** The same at a sample input: the reply has no decisions. *)
Lemma analyzeMeeting_failure_messages_witness :
  analyzeMeeting incomplete_env (js "Alice: let's ship by Friday. Bob: agreed.")
    empty_world
  = (Throw (api_error (js "Failed to parse Claude response as valid JSON.")),
     logged empty_world
       [ModelCall (build_prompt (js "Alice: let's ship by Friday. Bob: agreed."));
        Console LogError (js "Parsed JSON missing expected structure:");
        Console LogError (js "JSON parse error:");
        Console LogError (js "Raw text from Claude:");
        Console LogError (js "Anthropic API call failed:")]).
Proof.
  apply (proj2 (analyzeMeeting_failure_messages incomplete_env
                  (js "Alice: let's ship by Friday. Bob: agreed.") empty_world)
           [{| block_type := js "text";
               block_text := jsq "{'action_items':[],'sentiment':'calm'}" |}]
           {| block_type := js "text";
              block_text := jsq "{'action_items':[],'sentiment':'calm'}" |}
           (jsq "{'action_items':[],'sentiment':'calm'}")
           (JObj [(js "action_items", JArr []); (js "sentiment", JStr (js "calm"))])).
  - vm_compute. lia.
  - reflexivity.
  - reflexivity.
  - vm_compute. reflexivity.
  - vm_compute. reflexivity.
  - right. left. reflexivity.
Defined.

(** X7: one run of [analyzeMeeting] never touches the store and calls the
    model at most once, with the prompt built from its input: it adds to the
    trace either console lines only (an input below 10 code units once
    trimmed) or the call followed by console lines only. *)
Theorem analyzeMeeting_effects (env : Env) (text : jsstring) (w : World) :
  db (analyzeMeeting env text w).2 = db w /\
  exists logs,
    forallb is_console logs = true /\
    ((length (trim text) < 10)%nat /\
     trace (analyzeMeeting env text w).2 = trace w ++ logs \/
     (10 <= length (trim text))%nat /\
     trace (analyzeMeeting env text w).2
     = trace w ++ ModelCall (build_prompt text) :: logs).
Proof.
  destruct (Nat.lt_ge_cases (length (trim text)) 10) as [Hshort|Hlong].
  { rewrite (analyzeMeeting_short env text w Hshort). split; [reflexivity|].
    eexists. split; [|left; split; [exact Hshort | reflexivity]]. reflexivity. }
  rewrite (analyzeMeeting_run env text w Hlong). cbv zeta.
  assert (forall logs, forallb is_console logs = true ->
            forall c : Completion JsVal,
            db (c, logged (logged w [ModelCall (build_prompt text)]) logs).2 = db w /\
            exists logs',
              forallb is_console logs' = true /\
              ((length (trim text) < 10)%nat /\
               trace (c, logged (logged w [ModelCall (build_prompt text)]) logs).2
               = trace w ++ logs' \/
               (10 <= length (trim text))%nat /\
               trace (c, logged (logged w [ModelCall (build_prompt text)]) logs).2
               = trace w ++ ModelCall (build_prompt text) :: logs')) as Hend.
  { intros logs Hlogs c. split; [reflexivity|]. exists logs. split; [exact Hlogs|].
    right. split; [exact Hlong|]. cbn. rewrite <- app_assoc. reflexivity. }
  destruct (model env (build_prompt text)) as [e|content]; [apply Hend; reflexivity|].
  destruct (find_text_block content) as [tb|]; [|apply Hend; reflexivity].
  destruct (extract_json (block_text tb) _) as [[v|e] w2] eqn:E.
  - destruct (extract_json_emits _ _ _ _ E) as (Hdb & evs & Ht & Hev).
    split; [exact Hdb|]. exists evs. split; [exact Hev|].
    right. split; [exact Hlong|]. cbn [snd]. rewrite Ht. cbn.
    rewrite <- app_assoc. reflexivity.
  - destruct (extract_json_emits _ _ _ _ E) as (Hdb & evs & Ht & Hev).
    split; [exact Hdb|].
    exists (evs ++ [Console LogError (js "Anthropic API call failed:")]).
    split; [rewrite forallb_app, Hev; reflexivity|].
    right. split; [exact Hlong|]. cbn. rewrite Ht. cbn.
    rewrite <- !app_assoc. reflexivity.
Qed.

(** ** The runs of the delete and the list handler *)

Section StoreRunFacts.

(** A DELETE request goes to the store with the usable identifier, or is
    answered 400 at once. *)
Lemma delete_handler_route (env : Env) (req : Request) (w : World) :
  method req = Some (js "DELETE") ->
  delete_handler env req w
  = match usable_id req with
    | Some id => try_catch (delete_existing env id) delete_on_error w
    | None =>
        (Normal {| status := 400; headers := [];
                   response_body := ErrorBody (js "Invalid or missing analysis ID.") None |},
         w)
    end.
Proof.
  intros Hm. unfold usable_id.
  destruct (get_prop (js "id") (JObj (query req))) as [| |b|n|id|items|props] eqn:Hid.
  1-4,6-7: unfold delete_handler, try_catch; rewrite (method_is_not_same _ _ Hm), Hid;
    cbn; rewrite ?orb_true_r; reflexivity.
  destruct (forallb is_white_space id) eqn:Hws.
  - unfold delete_handler, try_catch. rewrite (method_is_not_same _ _ Hm), Hid.
    apply trim_all in Hws. cbn [as_string typeof_string negb]. rewrite Hws.
    rewrite orb_true_r. reflexivity.
  - apply delete_handler_valid; assumption.
Qed.

(** The lookup and the removal, case by case. *)
Lemma delete_existing_run (env : Env) (id : jsstring) (w : World) :
  delete_existing env id w
  = match db_fault env (OpFindUnique id) with
    | Some err => (Throw err, logged w [DbCall (OpFindUnique id)])
    | None =>
        match analyses (db w) !! id with
        | None =>
            (Normal {| status := 404; headers := [];
                       response_body :=
                         ErrorBody
                           (js "Analysis not found. It may have already been deleted.")
                           None |},
             logged w [DbCall (OpFindUnique id)])
        | Some _ =>
            match db_fault env (OpDelete id) with
            | Some err =>
                (Throw err, logged w [DbCall (OpFindUnique id); DbCall (OpDelete id)])
            | None =>
                (Normal {| status := 200; headers := [];
                           response_body :=
                             MessageBody (js "Analysis deleted successfully.") |},
                 {| db := store_without id (db w);
                    trace := trace w ++
                             [DbCall (OpFindUnique id); DbCall (OpDelete id)] |})
            end
        end
    end.
Proof.
  unfold delete_existing, analysis_findUnique, analysis_delete, db_call, logged,
    store_without.
  cbv beta iota zeta delta [bind emit get_db put_db throw ret respond].
  destruct (db_fault env (OpFindUnique id)); [reflexivity|].
  cbn [db trace].
  destruct (analyses (db w) !! id) eqn:Ea; [|reflexivity].
  destruct (db_fault env (OpDelete id)); cbn [db trace].
  - rewrite <- app_assoc. reflexivity.
  - rewrite Ea. cbn [db trace]. rewrite <- app_assoc. reflexivity.
Qed.

(** The catch clause of the delete handler answers 404, 503 or 500 and only
    logs. *)
Lemma delete_on_error_run (err : Thrown) (w : World) :
  exists b logs,
    delete_on_error err w
    = (Normal {| status := status_by_code err; headers := []; response_body := b |},
       logged w logs) /\
    forallb is_console logs = true /\
    (status_by_code err = 404 \/ status_by_code err = 503 \/ status_by_code err = 500).
Proof.
  unfold delete_on_error, status_by_code, logged.
  destruct (is_coded_object err) eqn:E.
  - cbv zeta.
    destruct (strict_eq_str _ (js "P2025")).
    { eexists _, []. rewrite app_nil_r. split; [destruct w; reflexivity | auto]. }
    destruct (strict_eq_str _ (js "P1001")).
    { eexists _, []. rewrite app_nil_r. split; [destruct w; reflexivity | auto]. }
    eexists _, [_]. split; [reflexivity | auto].
  - rewrite !uncoded_has_no_code by exact E.
    eexists _, [_]. split; [reflexivity | auto].
Qed.

(** The list handler, case by case. *)
Lemma fetch_handler_run (env : Env) (req : Request) (w : World) :
  method req = Some (js "GET") ->
  fetch_handler env req w
  = match db_fault env OpFindMany with
    | Some err =>
        (Normal
           (if strict_eq_str (err_get (js "code") err) (js "P1001") then
              {| status := 503; headers := [];
                 response_body := ErrorBody (js "Database connection error.") None |}
            else
              {| status := 500; headers := [];
                 response_body :=
                   ErrorBody (js "Failed to fetch past analyses.")
                     (Some (DetailsValue (message_or err "Unknown error occurred."))) |}),
         logged w [DbCall OpFindMany; Console LogError (js "Error fetching analyses:")])
    | None =>
        (Normal
           (match listed (db w) with
            | [] => {| status := 404; headers := [];
                       response_body := ErrorBody (js "No analyses found.") None |}
            | rows => {| status := 200; headers := []; response_body := ListBody rows |}
            end),
         logged w [DbCall OpFindMany])
    end.
Proof.
  intros Hm. unfold fetch_handler. rewrite (method_is_not_same _ _ Hm).
  unfold analysis_findMany, db_call, logged. fold (listed (db w)).
  cbv beta iota zeta delta [try_catch fetch_on_error bind emit get_db console throw
                            respond ret].
  cbn [db trace].
  destruct (db_fault env OpFindMany) as [err|].
  - destruct (is_coded_object err) eqn:E; cbn [andb].
    + destruct (strict_eq_str _ _); cbn [db trace]; rewrite <- app_assoc; reflexivity.
    + rewrite uncoded_has_no_code by exact E. cbn [db trace].
      rewrite <- app_assoc. reflexivity.
  - cbn [db trace]. fold (listed (db w)). destruct (listed (db w)); reflexivity.
Qed.

End StoreRunFacts.

(** X8: the delete handler answers a DELETE request with 400 exactly when
    the query has no [id] that is a string with a character other than
    white space (absent, empty, blank, or given more than once and so an
    array); it then leaves the world as it is and asks the store nothing. *)
Theorem delete_handler_bad_request (env : Env) (req : Request) (w : World) :
  method req = Some (js "DELETE") ->
  (answered (delete_handler env req w) = Some 400 <-> usable_id req = None) /\
  (usable_id req = None -> (delete_handler env req w).2 = w).
Proof.
  intros Hm. rewrite (delete_handler_route env req w Hm).
  destruct (usable_id req) as [id|]; [|split; [split; reflexivity | reflexivity]].
  split; [|discriminate]. split; [|discriminate].
  unfold try_catch. rewrite delete_existing_run.
  assert (forall err w', answered (delete_on_error err w') <> Some 400) as Hcatch.
  { intros err w'. destruct (delete_on_error_run err w') as (b & logs & -> & _ & Hs).
    unfold answered. cbn. intros [= H]. lia. }
  destruct (db_fault env (OpFindUnique id)) as [err|]; [intros H; exfalso; eapply Hcatch; eauto|].
  destruct (analyses (db w) !! id); [|discriminate].
  destruct (db_fault env (OpDelete id)) as [err|]; [intros H; exfalso; eapply Hcatch; eauto|].
  discriminate.
Qed.

(** The same at a sample input: the id is given twice. *)
Lemma delete_handler_bad_request_witness :
  answered (delete_handler quiet_env repeated_id_request one_analysis_world) = Some 400 /\
  (delete_handler quiet_env repeated_id_request one_analysis_world).2 = one_analysis_world.
Proof.
  destruct (delete_handler_bad_request quiet_env repeated_id_request one_analysis_world
              eq_refl) as [H1 H2].
  split; [apply H1; reflexivity | apply H2; reflexivity].
Defined.

(** X9: a delete that is answered 200 removes the analysis with the given
    identifier and nothing else: every other analysis and every transcript,
    also the one of the removed analysis, stays as it was; a second delete
    of the same identifier is answered 404 when the store answers the
    lookup, and changes nothing. *)
Theorem delete_handler_removes_one
  (env env' : Env) (req : Request) (w : World) (id : jsstring) :
  method req = Some (js "DELETE") ->
  usable_id req = Some id ->
  answered (delete_handler env req w) = Some 200 ->
  db_fault env' (OpFindUnique id) = None ->
  let w' := (delete_handler env req w).2 in
  is_Some (analyses (db w) !! id) /\
  analyses (db w') !! id = None /\
  (forall id', id' <> id -> analyses (db w') !! id' = analyses (db w) !! id') /\
  transcripts (db w') = transcripts (db w) /\
  answered (delete_handler env' req w') = Some 404 /\
  db (delete_handler env' req w').2 = db w'.
Proof.
  intros Hm Hid H200 Hfind'. cbv zeta.
  assert (forall err w', answered (delete_on_error err w') <> Some 200) as Hcatch.
  { intros err w'. destruct (delete_on_error_run err w') as (b & logs & -> & _ & Hs).
    unfold answered. cbn. intros [= H]. lia. }
  assert (is_Some (analyses (db w) !! id) /\
          db (delete_handler env req w).2 = store_without id (db w)) as [Hsome Hdb].
  { revert H200. rewrite (delete_handler_route env req w Hm), Hid.
    unfold try_catch. rewrite delete_existing_run.
    destruct (db_fault env (OpFindUnique id)) as [err|];
      [intros H; exfalso; eapply Hcatch; eauto|].
    destruct (analyses (db w) !! id) as [a|] eqn:Ea; [|discriminate].
    destruct (db_fault env (OpDelete id)) as [err|];
      [intros H; exfalso; eapply Hcatch; eauto|].
    intros _. split; [eauto | reflexivity]. }
  split; [exact Hsome|]. rewrite Hdb. cbn [store_without analyses transcripts].
  split; [apply lookup_delete_eq|].
  split; [intros id' Hne; apply lookup_delete_ne; congruence|].
  split; [reflexivity|].
  rewrite (delete_handler_route env' req _ Hm), Hid.
  unfold try_catch. rewrite delete_existing_run, Hfind', Hdb.
  cbn [store_without analyses]. rewrite lookup_delete_eq. split; [reflexivity|].
  cbn. exact Hdb.
Qed.

(** The same at a sample input. *)
Lemma delete_handler_removes_one_witness :
  let w' := (delete_handler quiet_env (delete_request "a0") one_analysis_world).2 in
  is_Some (analyses (db one_analysis_world) !! js "a0") /\
  analyses (db w') !! js "a0" = None /\
  (forall id', id' <> js "a0" ->
     analyses (db w') !! id' = analyses (db one_analysis_world) !! id') /\
  transcripts (db w') = transcripts (db one_analysis_world) /\
  answered (delete_handler quiet_env (delete_request "a0") w') = Some 404 /\
  db (delete_handler quiet_env (delete_request "a0") w').2 = db w'.
Proof.
  apply (delete_handler_removes_one quiet_env quiet_env (delete_request "a0")
           one_analysis_world (js "a0")).
  - reflexivity.
  - reflexivity.
  - vm_compute. reflexivity.
  - reflexivity.
Defined.

(** ** What each handler does and does not *)

Section LaneFacts.

Variable P : Event -> bool.

Lemma traces_only_ret {A} (a : A) : traces_only P (ret a).
Proof. intros w c w' [= <- <-]. exists []. rewrite app_nil_r. auto. Qed.

Lemma traces_only_throw {A} (err : Thrown) : traces_only P (@throw A err).
Proof. intros w c w' [= <- <-]. exists []. rewrite app_nil_r. auto. Qed.

Lemma traces_only_emit (e : Event) : P e = true -> traces_only P (emit e).
Proof. intros He w c w' [= <- <-]. exists [e]. simpl. rewrite He. auto. Qed.

Lemma traces_only_get_db : traces_only P get_db.
Proof. intros w c w' [= <- <-]. exists []. rewrite app_nil_r. auto. Qed.

Lemma traces_only_put_db (s : Store) : traces_only P (put_db s).
Proof. intros w c w' [= <- <-]. exists []. cbn. rewrite app_nil_r. auto. Qed.

Lemma traces_only_bind {A B} (m : M A) (k : A -> M B) :
  traces_only P m -> (forall a, traces_only P (k a)) -> traces_only P (bind m k).
Proof.
  intros Hm Hk w c w'. unfold bind.
  destruct (m w) as [[a|err] w1] eqn:E; intros H.
  - destruct (Hm _ _ _ E) as (evs & Ht & Hp).
    destruct (Hk a _ _ _ H) as (evs' & Ht' & Hp').
    exists (evs ++ evs'). rewrite Ht', Ht, app_assoc, forallb_app, Hp, Hp'. auto.
  - injection H as <- <-. exact (Hm _ _ _ E).
Qed.

Lemma traces_only_try_catch {A} (m : M A) (h : Thrown -> M A) :
  traces_only P m -> (forall err, traces_only P (h err)) -> traces_only P (try_catch m h).
Proof.
  intros Hm Hh w c w'. unfold try_catch.
  destruct (m w) as [[a|err] w1] eqn:E; intros H.
  - injection H as <- <-. exact (Hm _ _ _ E).
  - destruct (Hm _ _ _ E) as (evs & Ht & Hp).
    destruct (Hh err _ _ _ H) as (evs' & Ht' & Hp').
    exists (evs ++ evs'). rewrite Ht', Ht, app_assoc, forallb_app, Hp, Hp'. auto.
Qed.

Lemma traces_only_attempt {A} (m : M A) :
  traces_only P m -> traces_only P (attempt m).
Proof.
  intros Hm w c w'. unfold attempt.
  destruct (m w) as [[a|err] w1] eqn:E; intros [= <- <-]; exact (Hm _ _ _ E).
Qed.

Lemma traces_only_events {A} (m : M A) (w : World) :
  traces_only P m -> forallb P (new_events w (m w).2) = true.
Proof.
  intros Hm. destruct (m w) as [c w'] eqn:E.
  destruct (Hm _ _ _ E) as (evs & Ht & Hp).
  cbn. rewrite (new_events_app _ _ _ Ht). exact Hp.
Qed.

End LaneFacts.

Ltac traces_cases :=
  repeat first
    [ progress intros
    | apply traces_only_bind
    | apply traces_only_try_catch
    | apply traces_only_attempt
    | apply traces_only_ret
    | apply traces_only_throw
    | apply traces_only_get_db
    | apply traces_only_put_db
    | apply traces_only_emit; reflexivity
    | match goal with
      | |- traces_only _ (match ?x with _ => _ end) => destruct x
      | |- traces_only _ (if ?x then _ else _) => destruct x
      | |- traces_only _ (let _ := _ in _) => cbv zeta
      end ].

Section HandlerLaneFacts.

Lemma analyze_handler_traces (env : Env) (req : Request) :
  traces_only analyze_event (analyze_handler env req).
Proof.
  unfold analyze_handler, analyze_on_error, analyze_valid, persist_analysis,
    transcript_create, db_call, analyzeMeeting, extract_json, messages_create,
    JSON_parse_or_throw, method_not_allowed, respond, console.
  traces_cases.
Qed.

Lemma fetch_handler_traces (env : Env) (req : Request) :
  traces_only fetch_event (fetch_handler env req).
Proof.
  unfold fetch_handler, fetch_on_error, analysis_findMany, db_call,
    method_not_allowed, respond, console.
  traces_cases.
Qed.

Lemma delete_handler_traces (env : Env) (req : Request) :
  traces_only delete_event (delete_handler env req).
Proof.
  unfold delete_handler, delete_on_error, delete_existing, analysis_findUnique,
    analysis_delete, db_call, method_not_allowed, respond, console.
  traces_cases.
Qed.

End HandlerLaneFacts.

(** X10: no error leaves a handler: every run ends with a response, and its
    status is one of 200, 400, 405, 500 for the analyze handler, one of 200,
    404, 405, 500, 503 for the list handler and one of 200, 400, 404, 405,
    500, 503 for the delete handler. *)
Theorem handlers_status_codes (env : Env) (req : Request) (w : World) :
  (exists s, answered (analyze_handler env req w) = Some s /\
             In s [200; 400; 405; 500]) /\
  (exists s, answered (fetch_handler env req w) = Some s /\
             In s [200; 404; 405; 500; 503]) /\
  (exists s, answered (delete_handler env req w) = Some s /\
             In s [200; 400; 404; 405; 500; 503]).
Proof.
  split; [|split].
  - destruct (method_is_not req "POST") eqn:Hm.
    { unfold analyze_handler, try_catch. rewrite Hm. eexists. split; [reflexivity|].
      cbn. auto. }
    apply method_is_not_false in Hm.
    pose proof (analyze_handler_route env req w Hm) as Hroute.
    destruct (accepted_transcript (body req)) as [t|].
    + rewrite Hroute.
      destruct (analyze_valid_outcome env t w)
        as [(analysis & w' & _ & Hrun & _) | (e & d & w' & Hrun & _)];
        rewrite (try_catch_normal _ _ _ _ _ Hrun);
        (eexists; split; [reflexivity | cbn; auto]).
    + destruct Hroute as (e & d & -> & _). eexists. split; [reflexivity | cbn; auto].
  - destruct (method_is_not req "GET") eqn:Hm.
    { unfold fetch_handler. rewrite Hm. eexists. split; [reflexivity | cbn; auto]. }
    apply method_is_not_false in Hm. rewrite (fetch_handler_run env req w Hm).
    destruct (db_fault env OpFindMany) as [err|].
    + destruct (strict_eq_str _ _); (eexists; split; [reflexivity | cbn; auto 6]).
    + destruct (listed (db w)); (eexists; split; [reflexivity | cbn; auto]).
  - destruct (method_is_not req "DELETE") eqn:Hm.
    { unfold delete_handler, try_catch. rewrite Hm.
      eexists. split; [reflexivity | cbn; auto 6]. }
    apply method_is_not_false in Hm. rewrite (delete_handler_route env req w Hm).
    destruct (usable_id req) as [id|]; [|eexists; split; [reflexivity | cbn; auto]].
    assert (forall err w', exists s, answered (delete_on_error err w') = Some s /\
                                     In s [200; 400; 404; 405; 500; 503]) as Hcatch.
    { intros err w'. destruct (delete_on_error_run err w') as (b & logs & -> & _ & Hs).
      eexists. split; [reflexivity|]. cbn. intuition. }
    unfold try_catch. rewrite delete_existing_run.
    destruct (db_fault env (OpFindUnique id)) as [err|]; [apply Hcatch|].
    destruct (analyses (db w) !! id);
      [|eexists; split; [reflexivity | cbn; auto]].
    destruct (db_fault env (OpDelete id)) as [err|]; [apply Hcatch|].
    eexists; split; [reflexivity | cbn; auto].
Qed.

(** X11: each handler keeps to its own operations.  A run of the analyze
    handler looks nothing up and deletes nothing; a run of the list handler
    calls no model, leaves the store as it is and only queries it; a run of
    the delete handler calls no model and creates nothing. *)
Theorem handlers_keep_to_their_operations (env : Env) (req : Request) (w : World) :
  forallb analyze_event (new_events w (analyze_handler env req w).2) = true /\
  forallb fetch_event (new_events w (fetch_handler env req w).2) = true /\
  db (fetch_handler env req w).2 = db w /\
  forallb delete_event (new_events w (delete_handler env req w).2) = true.
Proof.
  split; [apply traces_only_events, analyze_handler_traces|].
  split; [apply traces_only_events, fetch_handler_traces|].
  split; [apply fetch_handler_db|].
  apply traces_only_events, delete_handler_traces.
Qed.

(** ** One request after another *)

Section CompositionFacts.

(** What stands behind a 200 of the analyze handler. *)
Lemma analyze_handler_200 (env : Env) (req : Request) (w : World) :
  answered (analyze_handler env req w) = Some 200 ->
  exists t analysis,
    accepted_transcript (body req) = Some t /\
    lacks_structure analysis = false /\
    (analyze_handler env req w).1
    = Normal {| status := 200; headers := [];
                response_body := SavedBody (saved_record env t analysis) |} /\
    db (analyze_handler env req w).2 = store_with env t analysis (db w) /\
    transcripts (db w) !! next_transcript_id env = None /\
    analyses (db w) !! next_analysis_id env = None.
Proof.
  destruct (method_is_not req "POST") eqn:Hm.
  { unfold analyze_handler, try_catch. rewrite Hm. discriminate. }
  apply method_is_not_false in Hm.
  pose proof (analyze_handler_route env req w Hm) as Hroute.
  destruct (accepted_transcript (body req)) as [t|];
    [|destruct Hroute as (e & d & -> & _); discriminate].
  rewrite Hroute.
  destruct (analyze_valid_cases env t w)
    as [(msg & w1 & _ & Hrun) | (analysis & w1 & _ & Hshape & Hdb & Hrun)].
  { rewrite (try_catch_normal _ _ _ _ _ Hrun). discriminate. }
  destruct (lacks_structure_format _ Hshape) as [Hformat _].
  destruct (persist_analysis_cases env t analysis w1 Hformat)
    as [(_ & Htid & Haid & Hp) | (d & Hp)]; rewrite Hp in Hrun;
    rewrite (try_catch_normal _ _ _ _ _ Hrun); [|discriminate].
  intros _. exists t, analysis. rewrite <- Hdb. auto 7.
Qed.

End CompositionFacts.

(** X12: a list request that the store answers after an analyze request
    answered 200 gets 200, and its list holds the saved analysis with its
    transcript exactly as the analyze handler returned them; the list is one
    longer than the analyses table was before; and when the new creation
    time is later than all earlier ones, the saved analysis comes first. *)
Theorem analyze_then_fetch
  (env env' : Env) (req req' : Request) (w : World) (saved : Saved) :
  (analyze_handler env req w).1
  = Normal {| status := 200; headers := []; response_body := SavedBody saved |} ->
  method req' = Some (js "GET") ->
  db_fault env' OpFindMany = None ->
  let w' := (analyze_handler env req w).2 in
  exists rows,
    (fetch_handler env' req' w').1
    = Normal {| status := 200; headers := []; response_body := ListBody rows |} /\
    listed_row saved ∈ rows /\
    length rows = S (size (analyses (db w))) /\
    ((forall id a, analyses (db w) !! id = Some a ->
                   (a_createdAt a < a_createdAt (saved_analysis saved))%N) ->
     head rows = Some (listed_row saved)).
Proof.
  intros Hsaved Hm Hfind. cbv zeta.
  assert (answered (analyze_handler env req w) = Some 200) as H200
    by (unfold answered; rewrite Hsaved; reflexivity).
  destruct (analyze_handler_200 env req w H200)
    as (t & analysis & _ & _ & Hresp & Hdb & Htid & Haid).
  rewrite Hresp in Hsaved. injection Hsaved as <-.
  rewrite (fetch_handler_run env' req' _ Hm), Hfind. cbn [fst].
  destruct (findMany_rows (db (analyze_handler env req w).2))
    as (Hsorted & Hlen & _ & Hall & _).
  fold (listed (db (analyze_handler env req w).2)) in Hsorted, Hlen, Hall.
  rewrite Hdb in *.
  remember (listed (store_with env t analysis (db w))) as rows eqn:Hrows.
  assert (listed_row (saved_record env t analysis) ∈ rows) as Hin.
  { assert (analyses (store_with env t analysis (db w)) !! next_analysis_id env
            = Some (new_analysis_row env analysis)) as Hl1 by apply lookup_insert_eq.
    assert (transcripts (store_with env t analysis (db w)) !! next_transcript_id env
            = Some {| t_text := t; t_createdAt := now env |}) as Hl2
      by apply lookup_insert_eq.
    apply Hall in Hl1. cbn [new_analysis_row a_transcriptId] in Hl1.
    rewrite Hl2 in Hl1. exact Hl1. }
  assert (length rows = S (size (analyses (db w)))) as Hlen'.
  { rewrite Hlen. unfold store_with. cbn [analyses].
    apply map_size_insert_None. exact Haid. }
  exists rows. split.
  { destruct rows; [discriminate | reflexivity]. }
  split; [exact Hin|]. split; [exact Hlen'|].
  intros Hnewer.
  destruct rows as [|r0 rest]; [discriminate|]. cbn [head].
  apply elem_of_cons in Hin as [Heq | Hrest]; [congruence|].
  exfalso.
  destruct (findMany_rows (store_with env t analysis (db w))) as (_ & _ & Hnd & _).
  fold (listed (store_with env t analysis (db w))) in Hnd.
  rewrite <- Hrows in Hnd. cbn [fmap list_fmap] in Hnd.
  apply NoDup_cons in Hnd as [Hfresh _].
  apply StronglySorted_inv in Hsorted as [_ Hall0].
  rewrite Forall_forall in Hall0. pose proof (Hall0 _ Hrest) as Hle.
  unfold newer_first in Hle. cbn in Hle.
  assert (r0 ∈ listed (store_with env t analysis (db w))) as Hr0
    by (rewrite <- Hrows; left).
  destruct r0 as [id0 a0 t0].
  assert (analyses (store_with env t analysis (db w)) !! id0 = Some a0) as Hlook.
  { unfold listed in Hr0. rewrite merge_sort_Permutation in Hr0.
    apply list_elem_of_fmap in Hr0 as ([id a] & E & Hr0).
    apply elem_of_map_to_list in Hr0. unfold with_transcript in E. cbn in E.
    injection E as -> -> _. exact Hr0. }
  unfold store_with in Hlook. cbn [analyses] in Hlook.
  destruct (decide (next_analysis_id env = id0)) as [<-|Hne].
  - apply Hfresh. cbn [awt_id]. apply list_elem_of_fmap.
    exists (listed_row (saved_record env t analysis)). split; [reflexivity | exact Hrest].
  - rewrite lookup_insert_ne in Hlook by exact Hne.
    apply Hnewer in Hlook. cbn in Hlook. cbn in Hle. lia.
Qed.

(** The same at a sample input. *)
Lemma analyze_then_fetch_witness :
  let saved :=
    saved_record replying_env (js "Alice: let's ship by Friday. Bob: agreed.")
      (JObj [(js "action_items", JArr []); (js "decisions", JArr [JStr (js "ship")]);
             (js "sentiment", JStr (js "calm"))]) in
  let w' := (analyze_handler replying_env meeting_request one_analysis_world).2 in
  exists rows,
    (fetch_handler quiet_env get_request w').1
    = Normal {| status := 200; headers := []; response_body := ListBody rows |} /\
    listed_row saved ∈ rows /\
    length rows = S (size (analyses (db one_analysis_world))) /\
    ((forall id a, analyses (db one_analysis_world) !! id = Some a ->
                   (a_createdAt a < a_createdAt (saved_analysis saved))%N) ->
     head rows = Some (listed_row saved)).
Proof.
  apply (analyze_then_fetch replying_env quiet_env meeting_request get_request
           one_analysis_world).
  - vm_compute. reflexivity.
  - reflexivity.
  - reflexivity.
Defined.

(** X13: a delete request for the identifier that an analyze request
    returned, when the store carries it out, is answered 200 and brings the
    analyses table back to what it was before the analyze request, while the
    transcript row that was created with the analysis stays in the store. *)
Theorem analyze_then_delete
  (env env' : Env) (req req' : Request) (w : World) (saved : Saved) :
  (analyze_handler env req w).1
  = Normal {| status := 200; headers := []; response_body := SavedBody saved |} ->
  method req' = Some (js "DELETE") ->
  usable_id req' = Some (saved_analysis_id saved) ->
  db_fault env' (OpFindUnique (saved_analysis_id saved)) = None ->
  db_fault env' (OpDelete (saved_analysis_id saved)) = None ->
  let w' := (analyze_handler env req w).2 in
  let w'' := (delete_handler env' req' w').2 in
  answered (delete_handler env' req' w') = Some 200 /\
  analyses (db w'') = analyses (db w) /\
  transcripts (db w'') = <[saved_id saved := saved_transcript saved]> (transcripts (db w)) /\
  transcripts (db w) !! saved_id saved = None /\
  transcripts (db w'') !! saved_id saved = Some (saved_transcript saved).
Proof.
  intros Hsaved Hm Hid Hfind Hdel. cbv zeta.
  assert (answered (analyze_handler env req w) = Some 200) as H200
    by (unfold answered; rewrite Hsaved; reflexivity).
  destruct (analyze_handler_200 env req w H200)
    as (t & analysis & _ & _ & Hresp & Hdb & Htid & Haid).
  rewrite Hresp in Hsaved. injection Hsaved as <-.
  cbn [saved_record saved_analysis_id saved_id saved_transcript] in *.
  assert (analyses (store_with env t analysis (db w)) !! next_analysis_id env
          = Some (new_analysis_row env analysis)) as Hl by apply lookup_insert_eq.
  assert (delete_handler env' req' (analyze_handler env req w).2
          = (Normal {| status := 200; headers := [];
                       response_body := MessageBody (js "Analysis deleted successfully.") |},
             {| db := store_without (next_analysis_id env)
                        (store_with env t analysis (db w));
                trace := trace (analyze_handler env req w).2 ++
                         [DbCall (OpFindUnique (next_analysis_id env));
                          DbCall (OpDelete (next_analysis_id env))] |})) as ->.
  { rewrite (delete_handler_route env' req' _ Hm), Hid.
    unfold try_catch. rewrite delete_existing_run, Hfind, Hdb, Hl, Hdel. reflexivity. }
  cbn [answered fst snd status db store_without store_with analyses transcripts].
  split; [reflexivity|]. split; [apply delete_insert_id; exact Haid|].
  split; [reflexivity|]. split; [exact Htid | apply lookup_insert_eq].
Qed.

(** The same at a sample input. *)
Lemma analyze_then_delete_witness :
  let saved :=
    saved_record replying_env (js "Alice: let's ship by Friday. Bob: agreed.")
      (JObj [(js "action_items", JArr []); (js "decisions", JArr [JStr (js "ship")]);
             (js "sentiment", JStr (js "calm"))]) in
  let w' := (analyze_handler replying_env meeting_request one_analysis_world).2 in
  let w'' := (delete_handler quiet_env (delete_request "a1") w').2 in
  answered (delete_handler quiet_env (delete_request "a1") w') = Some 200 /\
  analyses (db w'') = analyses (db one_analysis_world) /\
  transcripts (db w'')
  = <[saved_id saved := saved_transcript saved]> (transcripts (db one_analysis_world)) /\
  transcripts (db one_analysis_world) !! saved_id saved = None /\
  transcripts (db w'') !! saved_id saved = Some (saved_transcript saved).
Proof.
  apply (analyze_then_delete replying_env quiet_env meeting_request
           (delete_request "a1") one_analysis_world).
  - vm_compute. reflexivity.
  - reflexivity.
  - reflexivity.
  - reflexivity.
  - reflexivity.
Defined.

(** The invariant of the store at a sample input. *)
Lemma handlers_keep_references_witness :
  references_hold (db (analyze_handler replying_env meeting_request one_analysis_world).2) /\
  references_hold (db (fetch_handler replying_env meeting_request one_analysis_world).2) /\
  references_hold (db (delete_handler replying_env meeting_request one_analysis_world).2).
Proof.
  apply (handlers_keep_references replying_env meeting_request one_analysis_world).
  intros id a H. cbn [one_analysis_world db analyses transcripts] in *.
  apply lookup_singleton_Some in H as [<- <-].
  cbn [sample_analysis a_transcriptId]. rewrite lookup_singleton_eq. eauto.
Defined.

(** ** What the analysis schema returns *)

Section SchemaResultFacts.

Lemma z_string_success (path : list PathSeg) (v : JsVal) (s : jsstring) :
  z_string [] path v = ZSuccess s <-> v = JStr s.
Proof.
  destruct v; cbn; split; try discriminate; congruence.
Qed.

Lemma z_both_success {A B C} (f : A -> B -> C) (a : SafeParse A) (b : SafeParse B) (c : C) :
  z_both f a b = ZSuccess c <->
  exists x y, a = ZSuccess x /\ b = ZSuccess y /\ c = f x y.
Proof.
  destruct a as [x|], b as [y|]; cbn; split.
  all: try discriminate.
  all: try (intros (x' & y' & H1 & H2 & _); discriminate).
  - intros [= <-]. eauto.
  - intros (x' & y' & [= <-] & [= <-] & ->). reflexivity.
Qed.

Lemma z_items_success {A} (schema : Schema A) (R : JsVal -> A -> Prop) :
  (forall path v a, schema path v = ZSuccess a <-> R v a) ->
  forall path items i l,
    z_items schema path i items = ZSuccess l <-> Forall2 R items l.
Proof.
  intros H path items. induction items as [|v items IH]; intros i l; cbn.
  - split; [intros [= <-]; constructor | intros Hl; inversion Hl; reflexivity].
  - rewrite z_both_success. split.
    + intros (x & y & Hx & Hy & ->). constructor; [apply H in Hx | apply IH in Hy]; auto.
    + intros Hl. inversion Hl as [|? a ? l' Hv Hrest]; subst.
      exists a, l'. split; [apply H; exact Hv|]. split; [apply IH; exact Hrest | reflexivity].
Qed.

Lemma z_nullable_string_success (path : list PathSeg) (v : JsVal) (d : option jsstring) :
  z_nullable (z_string []) path v = ZSuccess d
  <-> v = match d with Some s => JStr s | None => JNull end.
Proof.
  destruct v, d; cbn; split; try discriminate; congruence.
Qed.

Lemma obj_get_default (k : jsstring) (props : list (jsstring * JsVal)) (v : JsVal) :
  v <> JUndef ->
  default JUndef (obj_get k props) = v <-> obj_get k props = Some v.
Proof.
  intros Hv. destruct (obj_get k props); cbn; split; congruence.
Qed.

Lemma ActionItemSchema_success (path : list PathSeg) (v : JsVal) (a : ActionItem) :
  ActionItemSchema path v = ZSuccess a <-> holds_item v a.
Proof.
  unfold ActionItemSchema, z_object, holds_item.
  destruct v as [| | | | | |props].
  1-6: split; [discriminate | intros (props' & H & _); discriminate].
  rewrite z_both_success. setoid_rewrite z_both_success. unfold z_field.
  setoid_rewrite z_string_success. setoid_rewrite z_nullable_string_success.
  split.
  - intros (ot & d & (o & t & Ho & Ht & ->) & Hd & ->). cbn.
    exists props. split; [reflexivity|].
    apply obj_get_default in Ho, Ht; [|discriminate..].
    apply obj_get_default in Hd; [|destruct d; discriminate]. auto.
  - intros (props' & [= <-] & Ho & Ht & Hd). destruct a as [o t d]. cbn in *.
    exists (o, t), d. split; [|split; [|reflexivity]].
    + exists o, t. rewrite Ho, Ht. auto.
    + rewrite Hd. reflexivity.
Qed.

Lemma JStr_list_inj (items : list JsVal) (l : list jsstring) :
  Forall2 (fun v s => v = JStr s) items l <-> items = JStr <$> l.
Proof.
  revert l. induction items as [|v items IH]; intros [|s l]; cbn; split;
    intros H; try (inversion H; fail); try reflexivity; try constructor.
  - inversion H; subst. f_equal. apply IH. assumption.
  - injection H as -> _. reflexivity.
  - injection H as _ H. apply IH. exact H.
Qed.

Lemma AnalysisResultSchema_success (v : JsVal) (r : AnalysisResult) :
  AnalysisResultSchema [] v = ZSuccess r <-> holds_analysis v r.
Proof.
  unfold AnalysisResultSchema, z_object, holds_analysis.
  destruct v as [| | | | | |props].
  1-6: split; [discriminate | intros (props' & its & H & _); discriminate].
  rewrite z_both_success. setoid_rewrite z_both_success. unfold z_field, z_array.
  cbn [app]. split.
  - intros (ad & s & (ai & ds & Ha & Hd & ->) & Hs & ->). cbn.
    apply z_string_success, obj_get_default in Hs; [|discriminate].
    destruct (obj_get (js "action_items") props) as [[| | | | |items|]|] eqn:Ea;
      try discriminate.
    destruct (obj_get (js "decisions") props) as [[| | | | |decs|]|] eqn:Ed;
      try discriminate.
    cbn in Ha, Hd.
    apply (z_items_success _ holds_item) in Ha; [|apply ActionItemSchema_success].
    apply (z_items_success _ (fun v s => v = JStr s)) in Hd; [|apply z_string_success].
    apply JStr_list_inj in Hd as ->.
    exists props, items. auto.
  - intros (props' & items & [= <-] & Ha & Hitems & Hd & Hs). destruct r as [ai ds s].
    cbn in *. exists (ai, ds), s. rewrite Ha, Hd, Hs. cbn.
    split; [|split; [reflexivity | reflexivity]].
    exists ai, ds. split; [|split; [|reflexivity]].
    + apply (z_items_success _ holds_item); [apply ActionItemSchema_success | exact Hitems].
    + apply (z_items_success _ (fun v s => v = JStr s)); [apply z_string_success|].
      apply JStr_list_inj. reflexivity.
Qed.

Lemma holds_item_to_json (a : ActionItem) : holds_item (item_to_json a) a.
Proof. eexists. split; [reflexivity|]. repeat split. Qed.

Lemma holds_analysis_to_json (r : AnalysisResult) : holds_analysis (analysis_to_json r) r.
Proof.
  do 2 eexists. split; [reflexivity|]. split; [reflexivity|].
  split; [|split; reflexivity].
  induction (action_items r) as [|a l IH]; constructor;
    [apply holds_item_to_json | exact IH].
Qed.

End SchemaResultFacts.

(** X14: [safeParseAnalysis] returns a typed analysis exactly for the values
    that hold its content: an object whose [action_items] is an array of
    objects with these owners, tasks and deadlines (null for none), whose
    [decisions] is the array of these strings and whose [sentiment] is this
    string, in the same order; other keys of the object and of the items are
    dropped.  So the JSON of every typed analysis parses back to it. *)
Theorem safeParseAnalysis_round_trip (w : World) :
  (forall data r,
     safeParseAnalysis data w = (Normal (Some r), w) <-> holds_analysis data r) /\
  (forall r, safeParseAnalysis (analysis_to_json r) w = (Normal (Some r), w)).
Proof.
  assert (forall data r,
            safeParseAnalysis data w = (Normal (Some r), w) <-> holds_analysis data r) as H.
  { intros data r. rewrite <- AnalysisResultSchema_success. unfold safeParseAnalysis.
    destruct (AnalysisResultSchema [] data) as [r'|issues]; cbn.
    - split; [intros [= <-]; reflexivity | intros [= <-]; reflexivity].
    - split; discriminate. }
  split; [exact H|]. intros r. apply H, holds_analysis_to_json.
Qed.

(** A sample: an analysis with keys the schema does not know. *)
Example safeParseAnalysis_drops_keys :
  safeParseAnalysis
    (JObj [(js "summary", JStr (js "short"));
           (js "action_items",
            JArr [JObj [(js "owner", JStr (js "Bob")); (js "priority", JNum (js "1"));
                        (js "task", JStr (js "ship")); (js "deadline", JStr (js "Friday"))];
                  JObj [(js "owner", JStr (js "Alice")); (js "task", JStr (js "review"));
                        (js "deadline", JNull)]]);
           (js "decisions", JArr [JStr (js "ship by Friday")]);
           (js "sentiment", JStr (js "calm"))])
    empty_world
  = (Normal (Some ship_analysis), empty_world).
Proof. vm_compute. reflexivity. Qed.

(** ** The pages *)

Section TrimFacts.

Lemma trim_start_head (s t : jsstring) (c : char16) :
  trim_start s = c :: t -> is_white_space c = false.
Proof.
  induction s as [|d s IH]; simpl; [discriminate|].
  destruct (is_white_space d) eqn:E; [exact IH|].
  intros [= <- _]. exact E.
Qed.

Lemma trim_start_fixed (s : jsstring) :
  (forall c t, s = c :: t -> is_white_space c = false) -> trim_start s = s.
Proof.
  destruct s as [|c t]; [reflexivity|]. intros H. simpl.
  rewrite (H c t eq_refl). reflexivity.
Qed.

Lemma trim_start_idem (s : jsstring) : trim_start (trim_start s) = trim_start s.
Proof.
  apply trim_start_fixed. intros c t H. eapply trim_start_head. exact H.
Qed.

Lemma trim_end_idem (s : jsstring) : trim_end (trim_end s) = trim_end s.
Proof.
  unfold trim_end. rewrite rev_involutive, trim_start_idem. reflexivity.
Qed.

(** Trimming a trimmed string changes nothing. *)
Lemma trim_idem (s : jsstring) : trim (trim s) = trim s.
Proof.
  assert (trim_start (trim s) = trim s) as H.
  { apply trim_start_fixed. intros c t Hc. unfold trim in Hc.
    destruct (trim_end_prefix (trim_start s)) as [r Hr].
    rewrite Hc in Hr. simpl in Hr. eapply trim_start_head. exact Hr. }
  unfold trim at 1. rewrite H. unfold trim. apply trim_end_idem.
Qed.

End TrimFacts.

Section FormFacts.

Import TranscriptForm.

Lemma truthy_JStr (s : jsstring) : truthy (JStr s) = true <-> s <> [].
Proof.
  cbn. destruct s; cbn; split; congruence.
Qed.

Lemma or_else_text (a : JsVal) (m : string) :
  js m <> [] ->
  truthy (or_else a (JStr (js m))) = true.
Proof.
  intros H. unfold or_else. destruct (truthy a) eqn:E; [exact E|].
  apply truthy_JStr. exact H.
Qed.

(** What [handleAnalyze] does, by the length of the trimmed text. *)
Lemma handleAnalyze_cases (st : State) :
  let trimmed := trim (text st) in
  let cleared := {| text := text st; analysis := JNull; errorMessage := JNull |} in
  ((10 <= length trimmed <= 5000)%nat /\
   handleAnalyze st = (cleared, Some (JObj [(js "transcript", JStr trimmed)]))) \/
  (((length trimmed < 10)%nat \/ (5000 < length trimmed)%nat) /\
   exists m,
     handleAnalyze st
     = ({| text := text st; analysis := JNull; errorMessage := JStr m |}, None) /\
     m = (if (length trimmed =? 0)%nat
          then js "Please paste a meeting transcript before analyzing."
          else if (length trimmed <? 10)%nat
               then js "Transcript must contain at least 10 characters."
               else js "Transcript cannot exceed 5000 characters.")).
Proof.
  intros trimmed cleared. subst trimmed cleared. unfold handleAnalyze.
  cbn [setAnalysis setErrorMessage text analysis errorMessage].
  remember (trim (text st)) as tr eqn:E.
  destruct tr as [|c t].
  { right. split; [cbn; lia|]. eexists. split; reflexivity. }
  replace (negb (truthy (JStr (c :: t)))) with false by reflexivity.
  cbv iota.
  destruct (length (c :: t) <? 10)%nat eqn:E1.
  { right. apply Nat.ltb_lt in E1. split; [lia|]. eexists. split; reflexivity. }
  destruct (5000 <? length (c :: t))%nat eqn:E2.
  { right. apply Nat.ltb_lt in E2. split; [lia|]. eexists. split; [reflexivity|].
    reflexivity. }
  left. apply Nat.ltb_ge in E1, E2. split; [lia | reflexivity].
Qed.

Lemma accepted_trimmed (s : jsstring) :
  (10 <= length (trim s) <= 5000)%nat ->
  accepted_transcript (JObj [(js "transcript", JStr (trim s))]) = Some (trim s).
Proof.
  intros [H1 H2]. unfold accepted_transcript.
  replace (obj_get (js "transcript") [(js "transcript", JStr (trim s))])
    with (Some (JStr (trim s))) by reflexivity.
  rewrite trim_idem.
  apply Nat.leb_le in H1, H2. rewrite H1, H2. reflexivity.
Qed.

End FormFacts.

(** X15: the form sends a request only for a text that, trimmed, has 10 to
    5000 code units; the payload is that trimmed text under [transcript],
    the analysis and the error message of the state are cleared, and the
    analyze handler answers such a POST with 200 or 500, never with 400.
    Otherwise nothing is sent and the state holds one of three messages. *)
Theorem form_sends_what_the_handler_accepts (st : TranscriptForm.State) :
  let trimmed := trim (TranscriptForm.text st) in
  match TranscriptForm.handleAnalyze st with
  | (st', Some payload) =>
      (10 <= length trimmed <= 5000)%nat /\
      payload = JObj [(js "transcript", JStr trimmed)] /\
      st' = {| TranscriptForm.text := TranscriptForm.text st;
               TranscriptForm.analysis := JNull;
               TranscriptForm.errorMessage := JNull |} /\
      forall env req w,
        method req = Some (js "POST") -> body req = payload ->
        answered (analyze_handler env req w) = Some 200 \/
        answered (analyze_handler env req w) = Some 500
  | (st', None) =>
      ((length trimmed < 10)%nat \/ (5000 < length trimmed)%nat) /\
      TranscriptForm.text st' = TranscriptForm.text st /\
      TranscriptForm.analysis st' = JNull /\
      (TranscriptForm.errorMessage st'
       = JStr (js "Please paste a meeting transcript before analyzing.") \/
       TranscriptForm.errorMessage st'
       = JStr (js "Transcript must contain at least 10 characters.") \/
       TranscriptForm.errorMessage st'
       = JStr (js "Transcript cannot exceed 5000 characters."))
  end.
Proof.
  intros trimmed.
  destruct (handleAnalyze_cases st) as [(Hlen & ->) | (Hlen & m & -> & Hm)].
  - split; [exact Hlen|]. split; [reflexivity|]. split; [reflexivity|].
    intros env req w Hmethod Hbody.
    pose proof (analyze_handler_route env req w Hmethod) as Hroute.
    rewrite Hbody, (accepted_trimmed _ Hlen) in Hroute.
    unfold answered. rewrite Hroute.
    destruct (analyze_valid_outcome env (trim (TranscriptForm.text st)) w)
      as [(a & w' & _ & Hrun & _) | (e & d & w' & Hrun & _)];
      rewrite (try_catch_normal _ _ _ _ _ Hrun); cbn; auto.
  - split; [exact Hlen|]. split; [reflexivity|]. split; [reflexivity|].
    cbn [TranscriptForm.errorMessage]. rewrite Hm.
    destruct (_ =? 0)%nat; [auto|]. destruct (_ <? 10)%nat; auto.
Qed.

(** A sample: the padded text is sent without its padding. *)
Example form_sends_trimmed :
  (TranscriptForm.handleAnalyze padded_form).2
  = Some (body meeting_request).
Proof. vm_compute. reflexivity. Qed.

Section RequestFacts.

Import TranscriptForm.

Variable number_text : jsstring -> jsstring.

(** What the mutation function throws is an error. *)
Lemma mutationFn_throws (post : JsVal -> AxiosResult) (payload : JsVal) (err : Thrown) :
  mutationFn number_text post payload = Throw err ->
  exists m, err = new_Error m.
Proof.
  unfold mutationFn. destruct (post payload) as [data|rd message|e]; [discriminate|..].
  - intros [= <-]. unfold Error_of. destruct (or_else _ _); eauto.
  - intros [= <-]. eauto.
Qed.

Lemma onError_state (m : jsstring) (st : State) :
  exists m',
    onError (new_Error m) st
    = {| text := text st; analysis := analysis st; errorMessage := JStr m' |} /\
    m' <> [] /\ (m <> [] -> m' = m).
Proof.
  unfold onError, setErrorMessage, or_else. cbn [err_get new_Error].
  replace (js_eqb (js "message") (js "message")) with true by reflexivity.
  destruct (truthy (JStr m)) eqn:E.
  - exists m. split; [reflexivity|]. apply truthy_JStr in E. auto.
  - exists (js "An unknown error occurred."). split; [reflexivity|].
    split; [discriminate|]. intros Hm. apply truthy_JStr in Hm. congruence.
Qed.

Lemma onSuccess_state (data : JsVal) (st : State) :
  (exists parsed,
     onSuccess data st = {| text := text st; analysis := parsed; errorMessage := JNull |} /\
     truthy parsed = true /\ typeof_object parsed = true /\
     parsed = (if typeof_object (get_prop (js "analysis") data)
               then get_prop (js "analysis") data else data)) \/
  (exists m,
     onSuccess data st
     = {| text := text st; analysis := analysis st; errorMessage := JStr m |} /\
     (m = js "Invalid response from server." \/
      m = js "No analysis results were returned.")).
Proof.
  unfold onSuccess, parsedAnalysis.
  destruct (negb (truthy data) || negb (typeof_object data)) eqn:E.
  { right. eexists. split; [reflexivity | auto]. }
  apply orb_false_elim in E as [E1 E2]. apply negb_false_iff in E1, E2.
  cbv zeta.
  destruct (typeof_object (get_prop (js "analysis") data)) eqn:Ea.
  - destruct (truthy (get_prop (js "analysis") data)) eqn:Et; cbn [negb].
    + left. eexists. split; [reflexivity|]. auto.
    + right. eexists. split; [reflexivity | auto].
  - rewrite E1. cbn [negb]. left. eexists. split; [reflexivity|]. auto.
Qed.

End RequestFacts.

(** X16: a click on the button of the form does nothing while the button
    is disabled, that is while the text is empty or a request is pending.
    Otherwise, once its request has ended, it leaves the text as it was and
    either an analysis (an object or an array) with no error message, or no
    analysis with an error message that is not empty: never both, never
    none.  This holds whatever the request ends with. *)
Theorem form_shows_one_of_two
  (number_text : jsstring -> jsstring) (post : JsVal -> AxiosResult)
  (pending : bool) (st : TranscriptForm.State) :
  let st' := TranscriptForm.click number_text post pending st in
  TranscriptForm.text st' = TranscriptForm.text st /\
  (TranscriptForm.disabled pending st = true <->
   TranscriptForm.text st = [] \/ pending = true) /\
  (TranscriptForm.disabled pending st = true -> st' = st) /\
  (TranscriptForm.disabled pending st = false ->
   (truthy (TranscriptForm.analysis st') = true /\
    typeof_object (TranscriptForm.analysis st') = true /\
    TranscriptForm.errorMessage st' = JNull) \/
   (TranscriptForm.analysis st' = JNull /\
    exists m, TranscriptForm.errorMessage st' = JStr m /\ m <> [])).
Proof.
  assert (TranscriptForm.disabled pending st = true <->
          TranscriptForm.text st = [] \/ pending = true) as Hdis.
  { unfold TranscriptForm.disabled. rewrite orb_true_iff, negb_true_iff.
    destruct (truthy (JStr (TranscriptForm.text st))) eqn:E.
    - apply truthy_JStr in E. split; [intros [?|?]; [discriminate | auto]|].
      intros [?|?]; [contradiction | auto].
    - split; [|auto]. intros _. left.
      destruct (TranscriptForm.text st) eqn:Et; [reflexivity|discriminate]. }
  unfold TranscriptForm.click.
  destruct (TranscriptForm.disabled pending st) eqn:Ed.
  { cbv zeta. split; [reflexivity|]. split; [exact Hdis|].
    split; [reflexivity | discriminate]. }
  cbv zeta.
  assert (forall st' : TranscriptForm.State,
            TranscriptForm.text st' = TranscriptForm.text st /\
            ((truthy (TranscriptForm.analysis st') = true /\
              typeof_object (TranscriptForm.analysis st') = true /\
              TranscriptForm.errorMessage st' = JNull) \/
             (TranscriptForm.analysis st' = JNull /\
              exists m, TranscriptForm.errorMessage st' = JStr m /\ m <> [])) ->
            TranscriptForm.text st' = TranscriptForm.text st /\
            (false = true <-> TranscriptForm.text st = [] \/ pending = true) /\
            (false = true -> st' = st) /\
            (false = false ->
             (truthy (TranscriptForm.analysis st') = true /\
              typeof_object (TranscriptForm.analysis st') = true /\
              TranscriptForm.errorMessage st' = JNull) \/
             (TranscriptForm.analysis st' = JNull /\
              exists m, TranscriptForm.errorMessage st' = JStr m /\ m <> []))) as Hwrap.
  { intros st' [H1 H2]. split; [exact H1|]. split; [exact Hdis|].
    split; [discriminate | intros _; exact H2]. }
  apply Hwrap.
  destruct (handleAnalyze_cases st) as [(_ & ->) | (_ & m & -> & Hm)].
  - unfold TranscriptForm.mutate.
    destruct (TranscriptForm.mutationFn number_text post _) as [data|err] eqn:E.
    + destruct (onSuccess_state data
                  {| TranscriptForm.text := TranscriptForm.text st;
                     TranscriptForm.analysis := JNull;
                     TranscriptForm.errorMessage := JNull |})
        as [(parsed & -> & Ht & Ho & _) | (m & -> & Hm)]; cbn.
      * split; [reflexivity|]. left. auto.
      * split; [reflexivity|]. right. split; [reflexivity|]. exists m.
        split; [reflexivity|]. destruct Hm as [-> | ->]; discriminate.
    + destruct (mutationFn_throws _ _ _ _ E) as (m & ->).
      destruct (onError_state m
                  {| TranscriptForm.text := TranscriptForm.text st;
                     TranscriptForm.analysis := JNull;
                     TranscriptForm.errorMessage := JNull |})
        as (m' & -> & Hne & _). cbn.
      split; [reflexivity|]. right. split; [reflexivity|]. eauto.
  - cbn. split; [reflexivity|]. right. split; [reflexivity|]. exists m.
    split; [reflexivity|]. rewrite Hm.
    destruct (_ =? 0)%nat; [discriminate|]. destruct (_ <? 10)%nat; discriminate.
Qed.

(** A sample: a response whose [analysis] is null leaves an error message. *)
Example form_null_analysis :
  TranscriptForm.click zero_text
    (fun _ => AxiosResponse (JObj [(js "analysis", JNull)])) false padded_form
  = {| TranscriptForm.text := TranscriptForm.text padded_form;
       TranscriptForm.analysis := JNull;
       TranscriptForm.errorMessage := JStr (js "No analysis results were returned.") |}.
Proof. vm_compute. reflexivity. Qed.

(** A sample: a click on the button of the empty form changes nothing. *)
Example form_empty_text :
  TranscriptForm.click zero_text (fun _ => saved_result) false
    {| TranscriptForm.text := []; TranscriptForm.analysis := JNull;
       TranscriptForm.errorMessage := JNull |}
  = {| TranscriptForm.text := []; TranscriptForm.analysis := JNull;
       TranscriptForm.errorMessage := JNull |}.
Proof. reflexivity. Qed.

Section DeliveryFacts.

Lemma delivered_error (resp : Response) (r : AxiosResult) (e : jsstring) (d : option Details) :
  delivered resp r = true ->
  response_body resp = ErrorBody e d ->
  ok_status (status resp) = false ->
  exists props message,
    r = AxiosError (Some (JObj props)) message /\
    response_error (Some (JObj props)) = JStr e.
Proof.
  unfold delivered. intros H Hb Hs. rewrite Hb, Hs in H.
  destruct r as [data|[data|] message|err]; try discriminate.
  cbn in H. destruct data as [| | | | | |props]; try discriminate.
  exists props, message. split; [reflexivity|]. cbn.
  destruct (default JUndef (obj_get (js "error") props)); try discriminate.
  cbn in H. apply js_eqb_eq in H as ->. reflexivity.
Qed.


Lemma delivered_list (resp : Response) (r : AxiosResult)
  (rows : list AnalysisWithTranscript) :
  delivered resp r = true ->
  response_body resp = ListBody rows ->
  ok_status (status resp) = true ->
  exists items, r = AxiosResponse (JArr items) /\ length items = length rows.
Proof.
  unfold delivered. intros H Hb Hs. rewrite Hb, Hs in H.
  destruct r as [data|[data|] message|err]; try discriminate.
  cbn in H. destruct data as [| | | | |items|]; try discriminate.
  exists items. split; [reflexivity|]. apply Nat.eqb_eq. exact H.
Qed.

End DeliveryFacts.



Section ListPageFacts.

(** The answers of the list handler to a GET request. *)
Lemma fetch_handler_answer (env : Env) (req : Request) (w : World) (resp : Response) :
  method req = Some (js "GET") ->
  (fetch_handler env req w).1 = Normal resp ->
  (exists rows, resp = {| status := 200; headers := []; response_body := ListBody rows |} /\
                rows = listed (db w) /\ rows <> [] /\ db_fault env OpFindMany = None) \/
  (exists e d, response_body resp = ErrorBody e d /\
               ok_status (status resp) = false /\
               ((e = js "No analyses found." /\ status resp = 404 /\
                 listed (db w) = [] /\ db_fault env OpFindMany = None) \/
                (e = js "Database connection error." /\ status resp = 503 /\
                 db_fault env OpFindMany <> None) \/
                (e = js "Failed to fetch past analyses." /\ status resp = 500 /\
                 db_fault env OpFindMany <> None))).
Proof.
  intros Hm. rewrite (fetch_handler_run env req w Hm).
  destruct (db_fault env OpFindMany) as [err|]; cbn [fst].
  - destruct (strict_eq_str _ _); intros [= <-]; right; eexists _, _;
      (split; [reflexivity|]); (split; [reflexivity|]); [right; left | right; right];
      repeat split; discriminate.
  - destruct (listed (db w)) as [|row rows] eqn:E; intros [= <-].
    + right. eexists _, _. split; [reflexivity|]. split; [reflexivity|]. left. auto.
    + left. eexists. split; [reflexivity|]. repeat split. discriminate.
Qed.

Lemma listed_length (s : Store) : length (listed s) = size (analyses s).
Proof. apply (findMany_rows s). Qed.

(** The answers of the delete handler to a DELETE request. *)
Lemma delete_handler_answer (env : Env) (req : Request) (w : World) (resp : Response) :
  method req = Some (js "DELETE") ->
  (delete_handler env req w).1 = Normal resp ->
  (status resp = 200 /\
   response_body resp = MessageBody (js "Analysis deleted successfully.")) \/
  (ok_status (status resp) = false /\ status resp <> 200).
Proof.
  intros Hm. rewrite (delete_handler_route env req w Hm).
  destruct (usable_id req) as [id|]; [|intros [= <-]; right; split; [reflexivity | discriminate]].
  assert (forall err w' resp',
            (delete_on_error err w').1 = Normal resp' ->
            ok_status (status resp') = false /\ status resp' <> 200) as Hcatch.
  { intros err w' resp'. destruct (delete_on_error_run err w') as (b & logs & -> & _ & Hs).
    intros [= <-]. cbn [status].
    destruct Hs as [-> | [-> | ->]]; split; (reflexivity || discriminate). }
  unfold try_catch. rewrite delete_existing_run.
  destruct (db_fault env (OpFindUnique id)) as [err|]; [intros H; right; eapply Hcatch, H|].
  destruct (analyses (db w) !! id);
    [|intros [= <-]; right; split; [reflexivity | discriminate]].
  destruct (db_fault env (OpDelete id)) as [err|]; [intros H; right; eapply Hcatch, H|].
  intros [= <-]. left. split; reflexivity.
Qed.

Lemma delivered_cases (resp : Response) (r : AxiosResult) :
  delivered resp r = true ->
  if ok_status (status resp)
  then exists data, r = AxiosResponse data
  else exists data message, r = AxiosError (Some data) message.
Proof.
  unfold delivered. destruct r as [data|[data|] message|err]; try discriminate.
  - intros H. apply andb_true_iff in H as [-> _]. eauto.
  - intros H. apply andb_true_iff in H as [H _]. apply negb_true_iff in H. rewrite H. eauto.
Qed.

End ListPageFacts.

(** X18: the list page, given the list handler's answer to its GET request,
    shows the list when the answer is 200, with one element for each stored
    analysis, and otherwise the one text [Unable to fetch analyses from
    server.], whatever the handler's own error text was.  Its empty view is
    never shown: of a store without analyses the handler answers 404, which
    the page shows as that error. *)
Theorem list_page_never_empty
  (env : Env) (w : World) (req : Request) (resp : Response) (r : AxiosResult) :
  method req = Some (js "GET") ->
  (fetch_handler env req w).1 = Normal resp ->
  delivered resp r = true ->
  let view := AnalysesPage.render (AnalysesPage.queryFn r) in
  view <> AnalysesPage.EmptyView /\
  (status resp = 200 ->
   exists items, view = AnalysesPage.ListView (JArr items) /\
                 length items = size (analyses (db w)) /\ items <> []) /\
  (status resp <> 200 ->
   view = AnalysesPage.ErrorView (JStr (js "Unable to fetch analyses from server."))) /\
  (db_fault env OpFindMany = None -> analyses (db w) = ∅ ->
   status resp = 404 /\
   view = AnalysesPage.ErrorView (JStr (js "Unable to fetch analyses from server."))).
Proof.
  intros Hm Hresp Hr view. subst view.
  destruct (fetch_handler_answer env req w resp Hm Hresp)
    as [(rows & -> & Hrows & Hne & Hfault) | (e & d & Hb & Hok & Hcases)].
  - destruct (delivered_list _ _ rows Hr eq_refl eq_refl) as (items & -> & Hlen).
    assert (items <> []) as Hitems.
    { intros ->. destruct rows; [congruence | discriminate]. }
    assert (AnalysesPage.render (AnalysesPage.queryFn (AxiosResponse (JArr items)))
            = AnalysesPage.ListView (JArr items)) as ->.
    { destruct items; [congruence | reflexivity]. }
    split; [discriminate|]. split; [|split].
    + intros _. exists items. split; [reflexivity|]. split; [|exact Hitems].
      rewrite Hlen, Hrows. apply listed_length.
    + cbn. congruence.
    + intros _ Hempty. exfalso. apply Hne. rewrite Hrows.
      apply length_zero_iff_nil. rewrite listed_length, Hempty. reflexivity.
  - pose proof (delivered_cases _ _ Hr) as Hcase. rewrite Hok in Hcase.
    destruct Hcase as (data & message & ->). cbn.
    split; [discriminate|]. split; [|split].
    + intros H200. rewrite H200 in Hok. discriminate.
    + reflexivity.
    + intros Hfault Hempty. split; [|reflexivity].
      destruct Hcases as [(_ & Hs & _) | [(_ & _ & Hf) | (_ & _ & Hf)]]; congruence.
Qed.

Lemma list_page_never_empty_witness :
  AnalysesPage.render (AnalysesPage.queryFn nothing_found_result)
  = AnalysesPage.ErrorView (JStr (js "Unable to fetch analyses from server.")).
Proof.
  destruct (list_page_never_empty quiet_env empty_world get_request
              {| status := 404; headers := [];
                 response_body := ErrorBody (js "No analyses found.") None |}
              nothing_found_result)
    as (_ & _ & _ & H).
  - reflexivity.
  - vm_compute. reflexivity.
  - vm_compute. reflexivity.
  - apply H; reflexivity.
Defined.

(** X19: a confirmed delete on the list page, given the delete handler's
    answer to its DELETE request: after 200 the dialog is closed, the error
    text is cleared and the list is asked for again; after every other
    answer the dialog stays open with the one text [Error deleting analysis.
    Please try again.], whatever the handler's own error text was, and the
    list is not asked for again. *)
Theorem list_page_delete
  (env : Env) (w : World) (req : Request) (resp : Response) (r : AxiosResult)
  (id : jsstring) (st : AnalysesPage.State) :
  method req = Some (js "DELETE") ->
  (delete_handler env req w).1 = Normal resp ->
  delivered resp r = true ->
  AnalysesPage.mutate (fun _ => r) id st
  = if (status resp =? 200)%nat
    then ({| AnalysesPage.selectedId := JNull; AnalysesPage.errorMsg := JNull |}, true)
    else ({| AnalysesPage.selectedId := AnalysesPage.selectedId st;
             AnalysesPage.errorMsg :=
               JStr (js "Error deleting analysis. Please try again.") |}, false).
Proof.
  intros Hm Hresp Hr. pose proof (delivered_cases _ _ Hr) as Hcase.
  destruct (delete_handler_answer env req w resp Hm Hresp) as [(Hs & _) | (Hok & Hs)].
  - rewrite Hs in *. cbn in Hcase. destruct Hcase as (data & ->). reflexivity.
  - rewrite Hok in Hcase. destruct Hcase as (data & message & ->).
    apply Nat.eqb_neq in Hs. rewrite Hs. reflexivity.
Qed.

Lemma list_page_delete_witness :
  AnalysesPage.mutate
    (fun _ =>
       AxiosError
         (Some (JObj [(js "error",
                       JStr (js "Analysis not found. It may have already been deleted."))]))
         (js "Request failed with status code 404"))
    (js "a0")
    {| AnalysesPage.selectedId := JStr (js "a0"); AnalysesPage.errorMsg := JNull |}
  = ({| AnalysesPage.selectedId := JStr (js "a0");
        AnalysesPage.errorMsg := JStr (js "Error deleting analysis. Please try again.") |},
     false).
Proof.
  apply (list_page_delete quiet_env empty_world (delete_request "a0")
           {| status := 404; headers := [];
              response_body :=
                ErrorBody (js "Analysis not found. It may have already been deleted.")
                  None |}).
  - reflexivity.
  - vm_compute. reflexivity.
  - vm_compute. reflexivity.
Defined.

Section TranscriptPageFacts.

Import TranscriptPage.

(** What [find] ends with. *)
Lemma find_cases (id : RouteParam) (items : list JsVal) :
  match find id items with
  | Raise e => e = RaisedTypeError
  | Done found =>
      (found = JUndef /\ Forall (passed_over id) items) \/
      (exists before after props t v,
         items = before ++ found :: after /\
         Forall (passed_over id) before /\
         found = JObj props /\
         member (js "transcript") found = Done t /\
         member (js "id") t = Done v /\
         is_param v id = true)
  end.
Proof.
  induction items as [|a items IH]; cbn [find].
  { left. split; [reflexivity | constructor]. }
  destruct (member (js "transcript") a) as [t|e] eqn:Et.
  2:{ unfold member in Et. destruct a; congruence. }
  destruct (member (js "id") t) as [v|e] eqn:Ev.
  2:{ unfold member in Ev. destruct t; congruence. }
  destruct (is_param v id) eqn:Ep.
  - right. assert (exists props, a = JObj props) as (props & Ha).
    { unfold member in Et, Ev. destruct a; try (injection Et as <-; discriminate).
      - discriminate.
      - discriminate.
      - eauto. }
    exists [], items, props, t, v. repeat split; auto.
  - destruct (find id items) as [found|e]; [|exact IH].
    assert (passed_over id a) as Ha by (exists t, v; auto).
    destruct IH as [(-> & Hall) | (before & after & props & t' & v' & -> & Hall & IH)].
    + left. split; [reflexivity | constructor; assumption].
    + right. exists (a :: before), after, props, t', v'.
      split; [reflexivity|]. split; [constructor; assumption | exact IH].
Qed.

Lemma member_done (k : jsstring) (v x : JsVal) :
  member k v = Done x -> x = get_prop k v.
Proof.
  unfold member. destruct v; intros H; try discriminate H; congruence.
Qed.

(** Elements that are passed over are skipped. *)
Lemma find_skips (id : RouteParam) (before rest : list JsVal) :
  Forall (passed_over id) before ->
  find id (before ++ rest) = find id rest.
Proof.
  induction 1 as [|a before (t & v & Ht & Hv & Hp) _ IH]; [reflexivity|].
  cbn [app find]. rewrite Ht, Hv, Hp. exact IH.
Qed.

(** An element with the [id] of the route is found. *)
Lemma find_here (s : jsstring) (found : JsVal) (after : list JsVal) :
  get_prop (js "id") (get_prop (js "transcript") found) = JStr s ->
  find (OneValue s) (found :: after) = Done found /\ truthy found = true.
Proof.
  intros H. destruct found as [| | | | | |props]; try discriminate H.
  split; [|reflexivity]. cbn [find member].
  destruct (get_prop (js "transcript") (JObj props)) as [| | | | | |tprops];
    try discriminate H.
  cbn [member]. rewrite H. cbn [is_param strict_eq_str].
  rewrite js_eqb_refl. reflexivity.
Qed.

End TranscriptPageFacts.

(** X20: given a response of the list request, the query of the transcript
    page returns an element exactly when the data are an array in which
    this is the first element whose [transcript.id] is the [id] of the
    route, every element before it having a [transcript] with another [id];
    when there is no such element (the data are no array, no element has
    the [id], an element before has no [transcript], the route gives
    several values) it throws the one error
    [Failed to fetch transcript data.]. *)
Theorem transcript_query_outcomes
  (number_text : jsstring -> jsstring) (id : TranscriptPage.RouteParam) (data : JsVal) :
  (forall found,
     TranscriptPage.queryFn number_text id (AxiosResponse data) = Normal found
     <-> TranscriptPage.located id data found) /\
  ((forall found, ~ TranscriptPage.located id data found) ->
   TranscriptPage.queryFn number_text id (AxiosResponse data)
   = Throw (new_Error (js "Failed to fetch transcript data."))).
Proof.
  assert (match TranscriptPage.queryFn number_text id (AxiosResponse data) with
          | Normal found => TranscriptPage.located id data found
          | Throw err => err = new_Error (js "Failed to fetch transcript data.")
          end) as Hout.
  { unfold TranscriptPage.queryFn, TranscriptPage.lookup.
    destruct data as [| | | | |items|]; try reflexivity.
    pose proof (find_cases id items) as H.
    destruct (TranscriptPage.find id items) as [found|e].
    2:{ rewrite H. reflexivity. }
    destruct H as [(-> & _) | (before & after & props & t & v & -> & Hall & -> & Ht & Hv & Hp)].
    { reflexivity. }
    cbn [truthy negb].
    destruct id as [s|l]; [|discriminate].
    exists before, after, s. split; [reflexivity|]. split; [exact Hall|].
    split; [reflexivity|].
    apply member_done in Ht as ->. apply member_done in Hv as ->.
    destruct (get_prop (js "id") (get_prop (js "transcript") (JObj props)));
      try discriminate Hp.
    cbn in Hp. apply js_eqb_eq in Hp as ->. reflexivity. }
  assert (forall found,
            TranscriptPage.located id data found ->
            TranscriptPage.queryFn number_text id (AxiosResponse data) = Normal found)
    as Hfound.
  { intros found (before & after & s & -> & Hall & -> & Hid).
    unfold TranscriptPage.queryFn, TranscriptPage.lookup.
    rewrite (find_skips _ _ _ Hall).
    destruct (find_here s found after Hid) as [-> ->]. reflexivity. }
  split.
  - intros found. split; [|apply Hfound].
    intros H. rewrite H in Hout. exact Hout.
  - intros Hnone.
    destruct (TranscriptPage.queryFn number_text id (AxiosResponse data)) as [found|err].
    + destruct (Hnone found Hout).
    + rewrite Hout. reflexivity.
Qed.

(** A sample: the second of two rows is found. *)
Example transcript_query_second :
  TranscriptPage.queryFn zero_text (TranscriptPage.OneValue (js "t0"))
    (AxiosResponse two_rows)
  = Normal (JObj [(js "id", JStr (js "a0"));
                  (js "transcript", JObj [(js "id", JStr (js "t0"))])]).
Proof. vm_compute. reflexivity. Qed.

(** X21: given the list handler's answer to its GET request, the query of
    the transcript page throws, for every answer but 200, an error whose
    message is the handler's [error] text, one of three. *)
Theorem transcript_page_shows_server_error
  (number_text : jsstring -> jsstring) (id : TranscriptPage.RouteParam)
  (env : Env) (w : World) (req : Request) (resp : Response) (r : AxiosResult) :
  method req = Some (js "GET") ->
  (fetch_handler env req w).1 = Normal resp ->
  delivered resp r = true ->
  status resp <> 200 ->
  exists e d,
    response_body resp = ErrorBody e d /\
    TranscriptPage.queryFn number_text id r = Throw (new_Error e) /\
    (e = js "No analyses found." \/
     e = js "Database connection error." \/
     e = js "Failed to fetch past analyses.").
Proof.
  intros Hm Hresp Hr Hs.
  destruct (fetch_handler_answer env req w resp Hm Hresp)
    as [(rows & -> & _) | (e & d & Hb & Hok & Hcases)]; [contradiction Hs; reflexivity|].
  destruct (delivered_error _ _ _ _ Hr Hb Hok) as (props & message & -> & Herr).
  exists e, d. split; [exact Hb|].
  assert (e = js "No analyses found." \/ e = js "Database connection error." \/
          e = js "Failed to fetch past analyses.") as He
    by (destruct Hcases as [(-> & _) | [(-> & _) | (-> & _)]]; auto).
  split; [|exact He].
  unfold TranscriptPage.queryFn, TranscriptPage.lookup. rewrite Herr.
  unfold or_else at 1.
  assert (truthy (JStr e) = true) as ->
    by (destruct He as [-> | [-> | ->]]; reflexivity).
  reflexivity.
Qed.

Lemma transcript_page_shows_server_error_witness :
  TranscriptPage.queryFn zero_text (TranscriptPage.OneValue (js "t0"))
    nothing_found_result
  = Throw (new_Error (js "No analyses found.")).
Proof.
  destruct (transcript_page_shows_server_error zero_text
              (TranscriptPage.OneValue (js "t0")) quiet_env empty_world get_request
              {| status := 404; headers := [];
                 response_body := ErrorBody (js "No analyses found.") None |}
              nothing_found_result)
    as (e & d & Hb & Hq & _).
  - reflexivity.
  - vm_compute. reflexivity.
  - vm_compute. reflexivity.
  - discriminate.
  - cbn [response_body] in Hb. injection Hb as <- _. exact Hq.
Defined.
